(** * Mesi: SI quantities whose dimension is checked when the program is built

    A shallow embedding of [mesitype.h].  The header is a C++ template
    library: a quantity is a value of the class template
    [RationalTypeReduced<T, t_m_n, t_m_d, ..., t_cd_n, t_cd_d, t_pref>],
    whose fifteen integer template arguments are the exponents of the seven
    SI base units (as fractions) and a power-of-ten prefix, and whose only
    data member is [T val].

    The embedding keeps the two levels of the program apart:
    - the template arguments become a record [Tag]; what the compiler
      computes on them ([std::ratio], the [static_assert]s, the result type
      of an operator, overload resolution) becomes functions on [Tag];
    - the storage type [T] is an interface [Storage], with the arithmetic
      of [int] and of [float] as instances.

    Template arguments are [intmax_t] constants.  Arithmetic on them is done
    by the compiler, where an overflow makes the program ill-formed instead
    of wrapping.  The embedding has two layers for them:
    - the values, computed exactly in [Z] ([std_ratio], [times_type],
      [div_type], [instantiates]): what a tag is whenever the program
      builds;
    - the range ([ratio_well_formed], [class_builds], [times_type_built],
      [div_type_built], [operator_times_built], [operator_div_built]):
      whether the program builds, that is whether every [std::ratio] is
      well formed and every sum, difference and prefix is an [intmax_t]. *)

From Stdlib Require Import ZArith Znumtheory Lia Bool List String.
From Stdlib Require Import SpecFloat.
From Stdlib Require Import Ascii DecimalString.
Import ListNotations.

Local Open Scope Z_scope.

(** ** [std::ratio] (C++ standard library, [ratio.ratio] and
    [ratio.arithmetic])

    [std::ratio<N, D>] has the static members
    [num = sign(N) * sign(D) * abs(N) / gcd(N, D)] and
    [den = abs(D) / gcd(N, D)]; [D = 0] is ill-formed. *)

Record ratio : Type := mk_ratio { num : Z; den : Z }.

Definition std_ratio (N D : Z) : ratio :=
  {| num := Z.sgn N * Z.sgn D * Z.abs N / Z.gcd N D;
     den := Z.abs D / Z.gcd N D |}.

(** [std::ratio_add<R1, R2>] is
    [ratio<R1::num * R2::den + R2::num * R1::den, R1::den * R2::den>]. *)
Definition ratio_add (R1 R2 : ratio) : ratio :=
  std_ratio (num R1 * den R2 + num R2 * den R1) (den R1 * den R2).

(** [std::ratio_subtract<R1, R2>] is
    [ratio<R1::num * R2::den - R2::num * R1::den, R1::den * R2::den>]. *)
Definition ratio_subtract (R1 R2 : ratio) : ratio :=
  std_ratio (num R1 * den R2 - num R2 * den R1) (den R1 * den R2).

(** ** The words of the specification on fractions

    A reduced fraction has a positive denominator and
    [gcd(|numerator|, denominator) = 1]. *)
Definition lowest_terms (n d : Z) : bool :=
  (0 <? d) && (Z.gcd (Z.abs n) d =? 1).

(** [reduce(n, d)]: the sign goes to the numerator, both are divided by
    their greatest common divisor. *)
Definition reduce (n d : Z) : Z * Z :=
  let g := Z.gcd (Z.abs n) (Z.abs d) in
  ((if d <? 0 then - n else n) / g, Z.abs d / g).

(** [addFrac], [subFrac]: [a/b ± c/d = (ad ± cb)/(bd)], then reduce. *)
Definition addFrac (x y : Z * Z) : Z * Z :=
  reduce (fst x * snd y + fst y * snd x) (snd x * snd y).

Definition subFrac (x y : Z * Z) : Z * Z :=
  reduce (fst x * snd y - fst y * snd x) (snd x * snd y).

(** ** Fractions as pairs, up to their value *)

Definition pair_of (r : ratio) : Z * Z := (num r, den r).

(** [a/b + c/d] and [a/b - c/d] before any reduction. *)
Definition fadd (x y : Z * Z) : Z * Z :=
  (fst x * snd y + fst y * snd x, snd x * snd y).

Definition fsub (x y : Z * Z) : Z * Z :=
  (fst x * snd y - fst y * snd x, snd x * snd y).

(** [std::ratio] on a pair. *)
Definition norm (x : Z * Z) : Z * Z := pair_of (std_ratio (fst x) (snd x)).

(** Same value: cross products agree. *)
Definition same_value (x y : Z * Z) : Prop := fst x * snd y = fst y * snd x.

(** ** The template arguments of [RationalTypeReduced]

    [ALL_UNITS(op)] expands to [op(m) op(s) op(kg) op(A) op(K) op(mol) op(cd)]. *)
Inductive unit_name : Type := u_m | u_s | u_kg | u_A | u_K | u_mol | u_cd.

Definition ALL_UNITS : list unit_name :=
  [u_m; u_s; u_kg; u_A; u_K; u_mol; u_cd].

(** The fifteen [intmax_t] arguments after the storage type [T]: they are
    the identity of the instantiated class, two quantities have the same
    C++ type exactly when [T] and these fifteen numbers agree. *)
Record Tag : Type := mk_Tag {
  t_m_n : Z; t_m_d : Z;
  t_s_n : Z; t_s_d : Z;
  t_kg_n : Z; t_kg_d : Z;
  t_A_n : Z; t_A_d : Z;
  t_K_n : Z; t_K_d : Z;
  t_mol_n : Z; t_mol_d : Z;
  t_cd_n : Z; t_cd_d : Z;
  t_pref : Z }.

(** [t_##TP##_n] and [t_##TP##_d], as the macros of the header paste them. *)
Definition t_n (TP : unit_name) (t : Tag) : Z :=
  match TP with
  | u_m => t_m_n t | u_s => t_s_n t | u_kg => t_kg_n t | u_A => t_A_n t
  | u_K => t_K_n t | u_mol => t_mol_n t | u_cd => t_cd_n t
  end.

Definition t_d (TP : unit_name) (t : Tag) : Z :=
  match TP with
  | u_m => t_m_d t | u_s => t_s_d t | u_kg => t_kg_d t | u_A => t_A_d t
  | u_K => t_K_d t | u_mol => t_mol_d t | u_cd => t_cd_d t
  end.

(** The exponent of one unit, as a pair. *)
Definition exponent (TP : unit_name) (t : Tag) : Z * Z :=
  (t_n TP t, t_d TP t).

(** An argument list written unit by unit, [m::num, m::den, s::num, ...]. *)
Definition make_Tag (f : unit_name -> ratio) (pref : Z) : Tag :=
  mk_Tag (num (f u_m)) (den (f u_m)) (num (f u_s)) (den (f u_s))
         (num (f u_kg)) (den (f u_kg)) (num (f u_A)) (den (f u_A))
         (num (f u_K)) (den (f u_K)) (num (f u_mol)) (den (f u_mol))
         (num (f u_cd)) (den (f u_cd)) pref.

(** Identity of two instantiations. *)
Definition Tag_eqb (a b : Tag) : bool :=
  forallb (fun TP => (t_n TP a =? t_n TP b) && (t_d TP a =? t_d TP b))
          ALL_UNITS
  && (t_pref a =? t_pref b).

(** The Dimension Vector of the specification: the seven exponents. *)
Definition DimensionVector (t : Tag) : list (Z * Z) :=
  map (fun TP => (t_n TP t, t_d TP t)) ALL_UNITS.

(** A tag whose seven fractions are in lowest terms. *)
Definition all_lowest_terms (t : Tag) : bool :=
  forallb (fun TP => lowest_terms (t_n TP t) (t_d TP t)) ALL_UNITS.

(** Combine-under-multiply and combine-under-divide of two Dimension
    Vectors: [addFrac], respectively [subFrac], component by component. *)
Definition combine_under_multiply (D1 D2 : list (Z * Z)) : list (Z * Z) :=
  map (fun p => addFrac (fst p) (snd p)) (combine D1 D2).

Definition combine_under_divide (D1 D2 : list (Z * Z)) : list (Z * Z) :=
  map (fun p => subFrac (fst p) (snd p)) (combine D1 D2).

(** *** The [static_assert]s of the class

    [static_assert(std::ratio<t_m_n, t_m_d>::num == t_m_n, "...")], one for
    each unit. *)
Definition static_assert_holds (TP : unit_name) (t : Tag) : bool :=
  num (std_ratio (t_n TP t) (t_d TP t)) =? t_n TP t.

Definition static_assert_message (TP : unit_name) : string :=
  match TP with
  | u_m => "The meter exponent fraction is not irreducible"
  | u_s => "The second exponent fraction is not irreducible"
  | u_kg => "The kilogram exponent fraction is not irreducible"
  | u_A => "The ampere exponent fraction is not irreducible"
  | u_K => "The Kelvin exponent fraction is not irreducible"
  | u_mol => "The mole exponent fraction is not irreducible"
  | u_cd => "The candela exponent fraction is not irreducible"
  end.

(** What the compiler reports on [RationalTypeReduced<T, t>]: the message
    of each [static_assert] that fails.  A zero denominator is refused by
    [std::ratio] itself; what a compiler reports besides on such a unit is
    not modelled. *)
Inductive diagnostic : Type :=
| ratio_zero_denominator (TP : unit_name)
| assertion_failed (msg : string).

Definition diagnostics (t : Tag) : list diagnostic :=
  flat_map
    (fun TP =>
       if t_d TP t =? 0 then [ratio_zero_denominator TP]
       else if static_assert_holds TP t then []
       else [assertion_failed (static_assert_message TP)])
    ALL_UNITS.

(** The class is instantiated when nothing is reported. *)
Definition instantiates (t : Tag) : bool :=
  match diagnostics t with [] => true | _ :: _ => false end.

(** *** The aliases *)

(** [RationalType<T, ...>]: every fraction goes through [std::ratio] first. *)
Definition RationalType (t : Tag) : Tag :=
  make_Tag (fun TP => std_ratio (t_n TP t) (t_d TP t)) (t_pref t).

(** [Type<T, t_m, t_s, t_kg, t_A, t_K, t_mol, t_cd, t_pref>]: integer
    exponents. *)
Definition Type_ (m s kg A K mol cd pref : Z) : Tag :=
  RationalType (mk_Tag m 1 s 1 kg 1 A 1 K 1 mol 1 cd 1 pref).

(** [ScalarType] of an instantiation: no dimension, the prefix [t_pref] of
    the class it is declared in. *)
Definition ScalarType (t : Tag) : Tag :=
  mk_Tag 0 1 0 1 0 1 0 1 0 1 0 1 0 1 (t_pref t).

(** *** Result types of the binary operators

    [operator*]: [ADD_FRAC] declares, for each unit [TP],
    [std::ratio_add<std::ratio<t_TP_n, t_TP_d>, std::ratio<t_TP_n2, t_TP_d2>>],
    and the result is
    [RationalType<T, m::num, m::den, ..., t_pref + t_pref2>]. *)
Definition ADD_FRAC (a b : Tag) (TP : unit_name) : ratio :=
  ratio_add (std_ratio (t_n TP a) (t_d TP a)) (std_ratio (t_n TP b) (t_d TP b)).

Definition times_type (a b : Tag) : Tag :=
  RationalType (make_Tag (ADD_FRAC a b) (t_pref a + t_pref b)).

(** [operator/]: the same with [SUB_FRAC] and [t_pref - t_pref2]. *)
Definition SUB_FRAC (a b : Tag) (TP : unit_name) : ratio :=
  ratio_subtract (std_ratio (t_n TP a) (t_d TP a))
                 (std_ratio (t_n TP b) (t_d TP b)).

Definition div_type (a b : Tag) : Tag :=
  RationalType (make_Tag (SUB_FRAC a b) (t_pref a - t_pref b)).

(** *** Readable names for common types *)
Definition Scalar : Tag := Type_ 0 0 0 0 0 0 0 0.
Definition Meters : Tag := Type_ 1 0 0 0 0 0 0 0.
Definition Seconds : Tag := Type_ 0 1 0 0 0 0 0 0.
Definition Kilograms : Tag := Type_ 0 0 1 0 0 0 0 0.
Definition Amperes : Tag := Type_ 0 0 0 1 0 0 0 0.
Definition Newtons : Tag :=
  div_type (div_type (times_type Meters Kilograms) Seconds) Seconds.
Definition MetersSq : Tag := times_type Meters Meters.
Definition Pascals : Tag := div_type Newtons MetersSq.
Definition Kilo : Tag := Type_ 0 0 0 0 0 0 0 3.
Definition Milli : Tag := div_type Scalar Kilo.

(** ** The storage type

    What the header asks of [T]: the four arithmetic operators and unary
    minus, the conversion of the literal [10], [==] and [<].  The header
    checks nothing: where [T]'s own arithmetic has no defined result
    (division of an integer by zero, signed overflow) the operation has
    none either, which is [None] here. *)
Class Storage (T : Type) : Type := {
  st_add : T -> T -> option T;
  st_sub : T -> T -> option T;
  st_mul : T -> T -> option T;
  st_div : T -> T -> option T;
  st_neg : T -> option T;
  st_ten : T;
  st_eqb : T -> T -> bool;
  st_ltb : T -> T -> bool }.

(** [T = int], 32 bits: [/] truncates towards zero; overflow and division
    by zero are undefined behaviour. *)
Definition INT_MIN : Z := -2147483648.
Definition INT_MAX : Z := 2147483647.

Definition int_result (z : Z) : option Z :=
  if (INT_MIN <=? z) && (z <=? INT_MAX) then Some z else None.

#[export] Instance int_Storage : Storage Z := {|
  st_add x y := int_result (x + y);
  st_sub x y := int_result (x - y);
  st_mul x y := int_result (x * y);
  st_div x y := if y =? 0 then None else int_result (Z.quot x y);
  st_neg x := int_result (- x);
  st_ten := 10;
  st_eqb := Z.eqb;
  st_ltb := Z.ltb |}.

(** [T = float], the default [MESI_LITERAL_TYPE]: IEEE 754 binary32
    (24 bits of precision, exponents up to 128), every operation defined. *)
Definition float_prec : Z := 24.
Definition float_emax : Z := 128.

Definition float_of_Z (z : Z) : spec_float :=
  binary_normalize float_prec float_emax z 0 false.

#[export] Instance float_Storage : Storage spec_float := {|
  st_add x y := Some (SFadd float_prec float_emax x y);
  st_sub x y := Some (SFsub float_prec float_emax x y);
  st_mul x y := Some (SFmul float_prec float_emax x y);
  st_div x y := Some (SFdiv float_prec float_emax x y);
  st_neg x := Some (SFopp x);
  st_ten := float_of_Z 10;
  st_eqb := SFeqb;
  st_ltb := SFltb |}.

(** ** Quantities and the operators of the header *)

Section Operators.

Context {T : Type} {ST : Storage T}.

(** An object of class [RationalTypeReduced<T, t>]: the template arguments
    [tag] select the class, [val] is its data member. *)
Record RationalTypeReduced : Type := mk_RTR { tag : Tag; val : T }.

(** What an expression of the header's operators comes to:
    - [Returns q]: it builds and evaluates to the object [q];
    - [Undefined t]: it builds, with type [RationalTypeReduced<T, t>], and
      the arithmetic of [T] has no result for it;
    - [IllFormed]: it does not build (no viable overload, no conversion). *)
Inductive outcome : Type :=
| Returns (q : RationalTypeReduced)
| Undefined (t : Tag)
| IllFormed.

Definition type_of (o : outcome) : option Tag :=
  match o with
  | Returns q => Some (tag q)
  | Undefined t => Some t
  | IllFormed => None
  end.

(** [RationalTypeReduced<T, t>(v)], the explicit constructor applied to the
    value of an expression of [T]. *)
Definition construct (t : Tag) (v : option T) : outcome :=
  match v with
  | Some x => Returns (mk_RTR t x)
  | None => Undefined t
  end.

(** *** Arithmetic operators for combining SI values *)

(** [operator+]: both parameters have the one type
    [RationalTypeReduced<T, TYPE_A_PARAMS>], deduction fails otherwise. *)
Definition operator_plus (left right : RationalTypeReduced) : outcome :=
  if Tag_eqb (tag left) (tag right)
  then construct (tag left) (st_add (val left) (val right))
  else IllFormed.

Definition operator_minus (left right : RationalTypeReduced) : outcome :=
  if Tag_eqb (tag left) (tag right)
  then construct (tag left) (st_sub (val left) (val right))
  else IllFormed.

(** [operator*] and [operator/]: two independent parameter lists. *)
Definition operator_times (left right : RationalTypeReduced) : outcome :=
  construct (times_type (tag left) (tag right))
            (st_mul (val left) (val right)).

Definition operator_div (left right : RationalTypeReduced) : outcome :=
  construct (div_type (tag left) (tag right))
            (st_div (val left) (val right)).

(** *** Unary operators *)
Definition operator_neg (op : RationalTypeReduced) : outcome :=
  construct (tag op) (st_neg (val op)).

Definition operator_pos (op : RationalTypeReduced) : outcome :=
  Returns (mk_RTR (tag op) (val op)).

(** *** Scalers by non-SI values, at [S = T] *)
Definition operator_times_S (left : RationalTypeReduced) (right : T)
  : outcome :=
  construct (tag left) (st_mul (val left) right).

Definition S_operator_times (left : T) (right : RationalTypeReduced)
  : outcome :=
  operator_times_S right left.

(** [left / Scalar(T(right))], where [Scalar] is [left]'s [ScalarType]. *)
Definition operator_div_S (left : RationalTypeReduced) (right : T)
  : outcome :=
  operator_div left (mk_RTR (ScalarType (tag left)) right).

(** [Scalar(T(left)) / right], where [Scalar] is [right]'s [ScalarType]. *)
Definition S_operator_div (left : T) (right : RationalTypeReduced)
  : outcome :=
  operator_div (mk_RTR (ScalarType (tag right)) left) right.

(** *** Comparison operators

    One parameter list for both sides; [None] when the call does not
    build. *)
Definition operator_eq (left right : RationalTypeReduced) : option bool :=
  if Tag_eqb (tag left) (tag right)
  then Some (st_eqb (val left) (val right))
  else None.

Definition operator_lt (left right : RationalTypeReduced) : option bool :=
  if Tag_eqb (tag left) (tag right)
  then Some (st_ltb (val left) (val right))
  else None.

Definition both (f : bool -> bool -> bool) (x y : option bool)
  : option bool :=
  match x, y with
  | Some a, Some b => Some (f a b)
  | _, _ => None
  end.

(** [!(right == left)] *)
Definition operator_ne (left right : RationalTypeReduced) : option bool :=
  if Tag_eqb (tag left) (tag right)
  then option_map negb (operator_eq right left)
  else None.

(** [left < right || left == right] *)
Definition operator_le (left right : RationalTypeReduced) : option bool :=
  if Tag_eqb (tag left) (tag right)
  then both orb (operator_lt left right) (operator_eq left right)
  else None.

(** [right < left] *)
Definition operator_gt (left right : RationalTypeReduced) : option bool :=
  if Tag_eqb (tag left) (tag right)
  then operator_lt right left
  else None.

(** [left > right || left == right] *)
Definition operator_ge (left right : RationalTypeReduced) : option bool :=
  if Tag_eqb (tag left) (tag right)
  then both orb (operator_gt left right) (operator_eq left right)
  else None.

(** *** The conversion to another prefix

    [operator RationalTypeReduced<T, ..., pref2>()]: only the prefix is a
    parameter of the target, the fourteen exponents are the source's. *)
Definition with_pref (t : Tag) (pref2 : Z) : Tag :=
  mk_Tag (t_m_n t) (t_m_d t) (t_s_n t) (t_s_d t) (t_kg_n t) (t_kg_d t)
         (t_A_n t) (t_A_d t) (t_K_n t) (t_K_d t) (t_mol_n t) (t_mol_d t)
         (t_cd_n t) (t_cd_d t) pref2.

(** A loop either leaves with its two variables, or stops at an operation of
    [T] without result, or is cut by the fuel of the model. *)
Inductive loop_result : Type :=
| Exit (nv : T) (pref_diff : Z)
| NoResult
| OutOfFuel.

(** [while(pref_diff > 0) { nv *= 10; pref_diff--; }] *)
Fixpoint while_positive (fuel : nat) (nv : T) (pref_diff : Z) : loop_result :=
  if 0 <? pref_diff then
    match fuel with
    | O => OutOfFuel
    | S fuel' =>
        match st_mul nv st_ten with
        | Some nv' => while_positive fuel' nv' (pref_diff - 1)
        | None => NoResult
        end
    end
  else Exit nv pref_diff.

(** [while(pref_diff < 0) { nv /= 10; pref_diff++; }] *)
Fixpoint while_negative (fuel : nat) (nv : T) (pref_diff : Z) : loop_result :=
  if pref_diff <? 0 then
    match fuel with
    | O => OutOfFuel
    | S fuel' =>
        match st_div nv st_ten with
        | Some nv' => while_negative fuel' nv' (pref_diff + 1)
        | None => NoResult
        end
    end
  else Exit nv pref_diff.

Definition convert_with (fuel : nat) (pref2 : Z) (this : RationalTypeReduced)
  : option outcome :=
  let target := with_pref (tag this) pref2 in
  match while_positive fuel (val this) (t_pref (tag this) - pref2) with
  | OutOfFuel => None
  | NoResult => Some (Undefined target)
  | Exit nv pref_diff =>
      match while_negative fuel nv pref_diff with
      | OutOfFuel => None
      | NoResult => Some (Undefined target)
      | Exit nv' _ => Some (construct target (Some nv'))
      end
  end.

(** The loops run [|t_pref - pref2|] times in all. *)
Definition operator_convert (pref2 : Z) (this : RationalTypeReduced)
  : option outcome :=
  convert_with (Z.to_nat (Z.abs (t_pref (tag this) - pref2))) pref2 this.

(** *** Compound assignment

    [*this = e]: the implicit copy assignment takes a
    [RationalTypeReduced const&] of the class of [*this]; the conversions
    of the class are all [explicit], so [e] must have that very type. *)
Definition assign (this : RationalTypeReduced) (e : outcome) : outcome :=
  match e with
  | Returns r =>
      if Tag_eqb (tag this) (tag r)
      then Returns (mk_RTR (tag this) (val r))
      else IllFormed
  | Undefined t =>
      if Tag_eqb (tag this) t then Undefined (tag this) else IllFormed
  | IllFormed => IllFormed
  end.

Definition operator_plus_assign (this rhs : RationalTypeReduced) : outcome :=
  if Tag_eqb (tag rhs) (tag this)
  then assign this (operator_plus this rhs)
  else IllFormed.

Definition operator_minus_assign (this rhs : RationalTypeReduced) : outcome :=
  if Tag_eqb (tag rhs) (tag this)
  then assign this (operator_minus this rhs)
  else IllFormed.

Definition operator_times_assign_T (this : RationalTypeReduced) (rhs : T)
  : outcome :=
  assign this (operator_times_S this rhs).

Definition operator_div_assign_T (this : RationalTypeReduced) (rhs : T)
  : outcome :=
  assign this (operator_div_S this rhs).

Definition operator_times_assign_Scalar (this rhs : RationalTypeReduced)
  : outcome :=
  if Tag_eqb (tag rhs) (ScalarType (tag this))
  then assign this (operator_times this rhs)
  else IllFormed.

Definition operator_div_assign_Scalar (this rhs : RationalTypeReduced)
  : outcome :=
  if Tag_eqb (tag rhs) (ScalarType (tag this))
  then assign this (operator_div this rhs)
  else IllFormed.

End Operators.

Arguments RationalTypeReduced T : clear implicits.
Arguments outcome T : clear implicits.
Arguments loop_result T : clear implicits.
(** ** The words of the specification on quantities *)

Section SpecificationWords.

Context {T : Type} {ST : Storage T}.

(** Repeated multiplication or division by ten, [n] times. *)
Fixpoint repeat_op (f : T -> option T) (n : nat) (v : T) : option T :=
  match n with
  | O => Some v
  | S n' =>
      match f v with
      | Some v' => repeat_op f n' v'
      | None => None
      end
  end.

(** Rescaling by [10^k]: [k] multiplications by ten when [k] is positive,
    [-k] divisions by ten when it is negative. *)
Definition rescale (v : T) (k : Z) : option T :=
  if 0 <? k
  then repeat_op (fun x => st_mul x st_ten) (Z.to_nat k) v
  else repeat_op (fun x => st_div x st_ten) (Z.to_nat (- k)) v.

(** A conversion applied to the result of another. *)
Definition and_then (e : option (outcome T))
           (f : RationalTypeReduced T -> option (outcome T))
  : option (outcome T) :=
  match e with
  | Some (Returns q) => f q
  | other => other
  end.

(** To prefix [via] and back to the prefix the quantity had. *)
Definition round_trip (via : Z) (q : RationalTypeReduced T)
  : option (outcome T) :=
  and_then (operator_convert via q) (operator_convert (t_pref (tag q))).

(** The comparisons of a storage type that are an equivalence and a strict
    total order, as those of the integers are. *)
Record ordered_storage : Prop := {
  st_eqb_refl : forall x, st_eqb x x = true;
  st_eqb_sym : forall x y, st_eqb x y = st_eqb y x;
  st_eqb_trans : forall x y z,
      st_eqb x y = true -> st_eqb y z = true -> st_eqb x z = true;
  st_ltb_irrefl : forall x, st_ltb x x = false;
  st_ltb_trans : forall x y z,
      st_ltb x y = true -> st_ltb y z = true -> st_ltb x z = true;
  st_ltb_total : forall x y,
      st_ltb x y = true \/ st_eqb x y = true \/ st_ltb y x = true;
  st_ltb_not_eqb : forall x y, st_ltb x y = true -> st_eqb x y = false }.

End SpecificationWords.

Arguments ordered_storage T {ST}.

(** ** The rest of the table of named types *)

Definition Kelvin : Tag := Type_ 0 0 0 0 1 0 0 0.
Definition Moles : Tag := Type_ 0 0 0 0 0 1 0 0.
Definition Candela : Tag := Type_ 0 0 0 0 0 0 1 0.
Definition NewtonsSq : Tag := times_type Newtons Newtons.
Definition MetersCu : Tag := times_type Meters MetersSq.
Definition SecondsSq : Tag := times_type Seconds Seconds.
Definition KilogramsSq : Tag := times_type Kilograms Kilograms.
Definition Hertz : Tag := div_type Scalar Seconds.
Definition Joules : Tag := times_type Newtons Meters.
Definition Watts : Tag := div_type Joules Seconds.
Definition Coulombs : Tag := times_type Amperes Seconds.
Definition Volts : Tag := div_type Watts Amperes.
Definition Farads : Tag := div_type Coulombs Volts.
Definition Ohms : Tag := div_type Volts Amperes.
Definition Siemens : Tag := div_type Amperes Volts.
Definition Webers : Tag := times_type Volts Seconds.
Definition Tesla : Tag := div_type Webers MetersSq.
Definition Henry : Tag := div_type Webers Amperes.
Definition Mega : Tag := times_type Kilo Kilo.
Definition Giga : Tag := times_type Mega Kilo.
Definition Tera : Tag := times_type Giga Kilo.
Definition Peta : Tag := times_type Tera Kilo.
Definition Exa : Tag := times_type Peta Kilo.
Definition Zetta : Tag := times_type Exa Kilo.
Definition Yota : Tag := times_type Zetta Kilo.
Definition Micro : Tag := div_type Milli Kilo.
Definition Nano : Tag := div_type Micro Kilo.
Definition Pico : Tag := div_type Nano Kilo.
Definition Femto : Tag := div_type Pico Kilo.
Definition Atto : Tag := div_type Femto Kilo.
Definition Zepto : Tag := div_type Atto Kilo.
Definition Yocto : Tag := div_type Zepto Kilo.

(** The units and the derived units of the table, in the order of the
    header, then the prefixes upwards and downwards. *)
Definition named_units : list Tag :=
  [Scalar; Meters; Seconds; Kilograms; Amperes; Kelvin; Moles; Candela;
   Newtons; NewtonsSq; MetersSq; MetersCu; SecondsSq; KilogramsSq; Hertz;
   Pascals; Joules; Watts; Coulombs; Volts; Farads; Ohms; Siemens; Webers;
   Tesla; Henry].

Definition prefixes_up : list Tag :=
  [Kilo; Mega; Giga; Tera; Peta; Exa; Zetta; Yota].

Definition prefixes_down : list Tag :=
  [Milli; Micro; Nano; Pico; Femto; Atto; Zepto; Yocto].

(** ** [getUnit]: the unit string of a class *)

Local Open Scope string_scope.

(** [std::to_string(static_cast<long long>(z))]: the decimal digits, with a
    minus sign for a negative number. *)
Definition to_string (z : Z) : string := NilZero.string_of_int (Z.to_int z).

(** [#TP], the name of the unit as the macro argument spells it. *)
Definition unit_symbol (TP : unit_name) : string :=
  match TP with
  | u_m => "m" | u_s => "s" | u_kg => "kg" | u_A => "A"
  | u_K => "K" | u_mol => "mol" | u_cd => "cd"
  end.

(** [DIM_TO_STRING(TP)], one statement of three nested tests on
    [s_unitString]. *)
Definition DIM_TO_STRING (t : Tag) (s_unitString : string) (TP : unit_name)
  : string :=
  if ((t_n TP t =? 1) && (t_d TP t =? 1))%Z
  then s_unitString ++ (unit_symbol TP ++ " ")
  else if (negb (t_n TP t =? 0) && (t_d TP t =? 1))%Z
  then s_unitString ++ (((unit_symbol TP ++ "^") ++ to_string (t_n TP t)) ++ " ")
  else if negb (t_n TP t =? 0)%Z
  then s_unitString
       ++ (((((unit_symbol TP ++ "^(") ++ to_string (t_n TP t)) ++ "/")
            ++ to_string (t_d TP t)) ++ ") ")
  else s_unitString.

(** [size_t], 64 bits, unsigned: [size() - 1] wraps at the empty string. *)
Definition size_t (z : Z) : Z := (z mod 2 ^ 64)%Z.

Definition size (s : string) : Z := Z.of_nat (String.length s).

(** [s.substr(pos, count)] for [pos <= s.size()]: the characters from [pos],
    [count] of them or as many as there are. *)
Definition substr (s : string) (pos count : Z) : string :=
  String.substring (Z.to_nat pos) (Z.to_nat (Z.min count (size s - pos)%Z)) s.

(** The function-local [static std::string s_unitString] of every
    instantiation, empty when the program starts. *)
Definition statics : Type := Tag -> string.

Definition statics_initial : statics := fun _ => "".

Definition set_static (sigma : statics) (t : Tag) (s : string) : statics :=
  fun t' => if Tag_eqb t' t then s else sigma t'.

(** The statements of [getUnit] between the test of the cache and the call
    of [substr]: the prefix, then [ALL_UNITS(DIM_TO_STRING)]. *)
Definition build_unit_string (t : Tag) (s_unitString : string) : string :=
  let s_unitString :=
    if negb (t_pref t =? 0)%Z
    then s_unitString ++ ((" * 10^" ++ to_string (t_pref t)) ++ " ")
    else s_unitString in
  fold_left (DIM_TO_STRING t) ALL_UNITS s_unitString.

(** [getUnit()] of the class [t]: the string returned and the statics
    after the call. *)
Definition getUnit (t : Tag) (sigma : statics) : string * statics :=
  let s_unitString := sigma t in
  if (0 <? size s_unitString)%Z then (s_unitString, sigma)
  else
    let s_unitString := build_unit_string t s_unitString in
    let s_unitString :=
      substr s_unitString 0 (size_t (size s_unitString - 1)%Z) in
    (s_unitString, set_static sigma t s_unitString).

(** The string of a first call. *)
Definition unit_string (t : Tag) : string := fst (getUnit t statics_initial).


(** What the prefix and one unit add to the string. *)
Definition pref_part (t : Tag) : string :=
  if negb (t_pref t =? 0)%Z
  then (" * 10^" ++ to_string (t_pref t)) ++ " "
  else "".

Definition dim_part (t : Tag) (TP : unit_name) : string :=
  DIM_TO_STRING t "" TP.

Definition units_part (t : Tag) (l : list unit_name) : string :=
  fold_right (fun TP acc => dim_part t TP ++ acc) "" l.

(** Empty, or a non-empty text followed by one space. *)
Definition separated (s : string) : Prop :=
  s = "" \/ exists body, body <> "" /\ s = body ++ " ".

Definition starts_with_space (s : string) : bool :=
  match s with
  | String c _ => Ascii.eqb c " "
  | EmptyString => false
  end.

Local Close Scope string_scope.

(** ** The range of the template arguments

    The fifteen arguments are [intmax_t] constants and the compiler does
    the arithmetic on them.  What leaves [intmax_t] does not wrap: the
    program is ill-formed.  The definitions above compute the exact values;
    the definitions here say when the compiler can compute them. *)

Definition INTMAX_MIN : Z := -9223372036854775808.
Definition INTMAX_MAX : Z := 9223372036854775807.

Definition intmax_t (z : Z) : bool := (INTMAX_MIN <=? z) && (z <=? INTMAX_MAX).

(** [std::ratio<N, D>] is well formed when [D] is not zero and the absolute
    values of [N] and [D] are representable ([ratio.ratio]): neither is
    [INTMAX_MIN]. *)
Definition ratio_well_formed (N D : Z) : bool :=
  intmax_t N && intmax_t D && negb (D =? 0)
  && negb (N =? INTMAX_MIN) && negb (D =? INTMAX_MIN).

(** The class [RationalTypeReduced<T, t>] is instantiated: the seven
    [std::ratio] of its assertions are well formed, the assertions hold, and
    the prefix is an [intmax_t]. *)
Definition class_builds (t : Tag) : bool :=
  forallb
    (fun TP =>
       ratio_well_formed (t_n TP t) (t_d TP t) && static_assert_holds TP t)
    ALL_UNITS
  && intmax_t (t_pref t).

(** The alias [RationalType<T, t>], when it names a class: the seven
    [std::ratio] it reduces with are well formed and the prefix is an
    [intmax_t]. *)
Definition RationalType_built (t : Tag) : option Tag :=
  if forallb (fun TP => ratio_well_formed (t_n TP t) (t_d TP t)) ALL_UNITS
     && intmax_t (t_pref t)
  then Some (RationalType t)
  else None.

(** The alias [Type<T, t_m, ..., t_pref>], likewise. *)
Definition Type_built (m s kg A K mol cd pref : Z) : option Tag :=
  RationalType_built (mk_Tag m 1 s 1 kg 1 A 1 K 1 mol 1 cd 1 pref).

(** [ADD_FRAC(TP)] and [SUB_FRAC(TP)] are well formed when the two
    [std::ratio] are and the reduced sum, respectively difference, is a well
    formed [std::ratio] ([ratio.arithmetic]: when its numerator or
    denominator is not representable the program is ill-formed).  Where
    only the unreduced numerator or denominator leaves [intmax_t] the
    standard lets the implementation decide; such a sum is taken as well
    formed here, so that what is refused here is refused by every
    implementation. *)
Definition ADD_FRAC_well_formed (a b : Tag) (TP : unit_name) : bool :=
  ratio_well_formed (t_n TP a) (t_d TP a)
  && ratio_well_formed (t_n TP b) (t_d TP b)
  && ratio_well_formed (num (ADD_FRAC a b TP)) (den (ADD_FRAC a b TP)).

Definition SUB_FRAC_well_formed (a b : Tag) (TP : unit_name) : bool :=
  ratio_well_formed (t_n TP a) (t_d TP a)
  && ratio_well_formed (t_n TP b) (t_d TP b)
  && ratio_well_formed (num (SUB_FRAC a b TP)) (den (SUB_FRAC a b TP)).

(** The result type of [operator*], when the program is well formed: the
    seven [ADD_FRAC] are and [t_pref + t_pref2] is an [intmax_t]. *)
Definition times_type_built (a b : Tag) : option Tag :=
  if forallb (ADD_FRAC_well_formed a b) ALL_UNITS
     && intmax_t (t_pref a + t_pref b)
  then Some (times_type a b)
  else None.

(** The result type of [operator/], with [SUB_FRAC] and
    [t_pref - t_pref2]. *)
Definition div_type_built (a b : Tag) : option Tag :=
  if forallb (SUB_FRAC_well_formed a b) ALL_UNITS
     && intmax_t (t_pref a - t_pref b)
  then Some (div_type a b)
  else None.

(** A sum or a difference whose unreduced numerator and denominator are
    representable already: every implementation computes it. *)
Definition ADD_FRAC_in_range (a b : Tag) (TP : unit_name) : bool :=
  let R1 := std_ratio (t_n TP a) (t_d TP a) in
  let R2 := std_ratio (t_n TP b) (t_d TP b) in
  ratio_well_formed (t_n TP a) (t_d TP a)
  && ratio_well_formed (t_n TP b) (t_d TP b)
  && ratio_well_formed (num R1 * den R2 + num R2 * den R1) (den R1 * den R2).

Definition SUB_FRAC_in_range (a b : Tag) (TP : unit_name) : bool :=
  let R1 := std_ratio (t_n TP a) (t_d TP a) in
  let R2 := std_ratio (t_n TP b) (t_d TP b) in
  ratio_well_formed (t_n TP a) (t_d TP a)
  && ratio_well_formed (t_n TP b) (t_d TP b)
  && ratio_well_formed (num R1 * den R2 - num R2 * den R1) (den R1 * den R2).

Definition times_in_range (a b : Tag) : bool :=
  forallb (ADD_FRAC_in_range a b) ALL_UNITS && intmax_t (t_pref a + t_pref b).

Definition div_in_range (a b : Tag) : bool :=
  forallb (SUB_FRAC_in_range a b) ALL_UNITS && intmax_t (t_pref a - t_pref b).

Section BuiltOperators.

Context {T : Type} {ST : Storage T}.

(** [operator*] and [operator/] with the build of their result type: an
    expression whose result type is not well formed does not build. *)
Definition operator_times_built (left right : RationalTypeReduced T)
  : outcome T :=
  match times_type_built (tag left) (tag right) with
  | Some t => construct t (st_mul (val left) (val right))
  | None => IllFormed
  end.

Definition operator_div_built (left right : RationalTypeReduced T)
  : outcome T :=
  match div_type_built (tag left) (tag right) with
  | Some t => construct t (st_div (val left) (val right))
  | None => IllFormed
  end.

(** The laws of [==] and [<] of a storage type, outside the values [ok]
    leaves out: every value of an integer type is [ok], every value of a
    floating type but the NaN. *)
Record ordered_values (ok : T -> bool) : Prop := {
  ov_eqb_refl : forall x, ok x = true -> st_eqb x x = true;
  ov_eqb_sym : forall x y, st_eqb x y = st_eqb y x;
  ov_eqb_trans : forall x y z,
      st_eqb x y = true -> st_eqb y z = true -> st_eqb x z = true;
  ov_ltb_irrefl : forall x, st_ltb x x = false;
  ov_ltb_trans : forall x y z,
      st_ltb x y = true -> st_ltb y z = true -> st_ltb x z = true;
  ov_ltb_total : forall x y,
      ok x = true -> ok y = true ->
      st_ltb x y = true \/ st_eqb x y = true \/ st_ltb y x = true;
  ov_ltb_not_eqb : forall x y, st_ltb x y = true -> st_eqb x y = false;
  ov_not_ok : forall x y,
      ok x = false ->
      st_eqb x y = false /\ st_eqb y x = false
      /\ st_ltb x y = false /\ st_ltb y x = false }.

End BuiltOperators.

Arguments ordered_values T {ST} ok.

Definition every_int (_ : Z) : bool := true.

Definition not_NaN (x : spec_float) : bool :=
  match x with
  | S754_nan => false
  | _ => true
  end.

(** A key of the floats that are not NaN, whose lexicographic order is the
    one [SFcompare] computes: the sign class, then the exponent, then the
    mantissa, the last two negated below zero. *)
Definition SFkey (x : spec_float) : Z * (Z * Z) :=
  match x with
  | S754_nan => (0, (0, 0))
  | S754_infinity true => (-2, (0, 0))
  | S754_infinity false => (2, (0, 0))
  | S754_zero _ => (0, (0, 0))
  | S754_finite true m e => (-1, (- e, - Z.pos m))
  | S754_finite false m e => (1, (e, Z.pos m))
  end.

Definition lex_compare (p q : Z * (Z * Z)) : comparison :=
  match fst p ?= fst q with
  | Eq => match fst (snd p) ?= fst (snd q) with
          | Eq => snd (snd p) ?= snd (snd q)
          | c => c
          end
  | c => c
  end.

Definition lex_lt (p q : Z * (Z * Z)) : Prop :=
  fst p < fst q
  \/ (fst p = fst q /\
      (fst (snd p) < fst (snd q)
       \/ (fst (snd p) = fst (snd q) /\ snd (snd p) < snd (snd q)))).

(** ** Facts on [std_ratio] *)

Lemma sgn_mul_abs (N D : Z) : Z.sgn N * Z.sgn D * Z.abs N = Z.sgn D * N.
Proof.
  destruct (Z.sgn_spec N) as [[? S]|[[? S]|[? S]]]; rewrite S;
    destruct (Z.abs_spec N) as [[? E]|[? E]]; rewrite E; lia.
Qed.

Lemma std_ratio_num_mul (N D : Z) :
  D <> 0 -> num (std_ratio N D) * Z.gcd N D = Z.sgn D * N.
Proof.
  intros HD. unfold std_ratio; simpl. rewrite sgn_mul_abs.
  assert (Hg : Z.gcd N D <> 0).
  { intro H0. apply Z.gcd_eq_0_r in H0. contradiction. }
  destruct (Z.gcd_divide_l N D) as [k Hk].
  rewrite Hk at 1.
  rewrite Z.mul_assoc, Z.div_mul by assumption.
  rewrite Hk at 2. ring.
Qed.

Lemma std_ratio_den_mul (N D : Z) :
  D <> 0 -> den (std_ratio N D) * Z.gcd N D = Z.abs D.
Proof.
  intros HD. unfold std_ratio; simpl.
  assert (Hg : Z.gcd N D <> 0).
  { intro H0. apply Z.gcd_eq_0_r in H0. contradiction. }
  destruct (Z.gcd_divide_r N D) as [k Hk].
  assert (Hd : (Z.gcd N D | Z.abs D)).
  { apply Z.divide_abs_r. exists k. exact Hk. }
  destruct Hd as [j Hj]. rewrite Hj.
  rewrite Z.div_mul by assumption. reflexivity.
Qed.

Lemma gcd_pos_r (N D : Z) : D <> 0 -> 0 < Z.gcd N D.
Proof.
  intros HD. pose proof (Z.gcd_nonneg N D) as H0.
  destruct (Z.eq_dec (Z.gcd N D) 0) as [E|E]; [|lia].
  apply Z.gcd_eq_0_r in E. contradiction.
Qed.

Lemma std_ratio_den_pos (N D : Z) : D <> 0 -> 0 < den (std_ratio N D).
Proof.
  intros HD. pose proof (std_ratio_den_mul N D HD) as H.
  pose proof (gcd_pos_r N D HD) as Hg.
  assert (0 < Z.abs D) by lia. nia.
Qed.

(** The fraction keeps its value. *)
Lemma std_ratio_value (N D : Z) :
  D <> 0 -> num (std_ratio N D) * D = N * den (std_ratio N D).
Proof.
  intros HD.
  pose proof (std_ratio_num_mul N D HD) as Hn.
  pose proof (std_ratio_den_mul N D HD) as Hd.
  pose proof (gcd_pos_r N D HD) as Hg.
  apply (Z.mul_reg_r _ _ (Z.gcd N D)); [lia|].
  replace (num (std_ratio N D) * D * Z.gcd N D)
    with (num (std_ratio N D) * Z.gcd N D * D) by ring.
  replace (N * den (std_ratio N D) * Z.gcd N D)
    with (N * (den (std_ratio N D) * Z.gcd N D)) by ring.
  rewrite Hn, Hd.
  destruct (Z.abs_spec D) as [[_ E]|[_ E]]; rewrite E;
    destruct (Z.sgn_spec D) as [[? S]|[[? S]|[? S]]]; rewrite S; lia.
Qed.

(** Numerator and denominator of a [std_ratio] are coprime. *)
Lemma std_ratio_coprime (N D : Z) :
  D <> 0 -> Z.gcd (num (std_ratio N D)) (den (std_ratio N D)) = 1.
Proof.
  intros HD.
  pose proof (std_ratio_num_mul N D HD) as Hn.
  pose proof (std_ratio_den_mul N D HD) as Hd.
  pose proof (gcd_pos_r N D HD) as Hg.
  set (g := Z.gcd N D) in *.
  set (n' := num (std_ratio N D)) in *.
  set (d' := den (std_ratio N D)) in *.
  assert (E : Z.gcd (n' * g) (d' * g) = g).
  { rewrite Hn, Hd, Z.gcd_abs_r.
    destruct (Z.sgn_spec D) as [[? S]|[[? S]|[? S]]]; rewrite S.
    - rewrite Z.mul_1_l. reflexivity.
    - lia.
    - replace (-1 * N) with (- N) by ring. rewrite Z.gcd_opp_l. reflexivity. }
  rewrite Z.gcd_mul_mono_r_nonneg in E by lia.
  nia.
Qed.

(** Two fractions in lowest terms with the same value are the same. *)
Lemma lowest_terms_unique (n1 d1 n2 d2 : Z) :
  0 < d1 -> 0 < d2 -> Z.gcd n1 d1 = 1 -> Z.gcd n2 d2 = 1 ->
  n1 * d2 = n2 * d1 -> n1 = n2 /\ d1 = d2.
Proof.
  intros H1 H2 G1 G2 E.
  assert (D12 : (d1 | d2)).
  { apply Z.gauss with n1.
    - exists n2. lia.
    - rewrite Z.gcd_comm. exact G1. }
  assert (D21 : (d2 | d1)).
  { apply Z.gauss with n2.
    - exists n1. lia.
    - rewrite Z.gcd_comm. exact G2. }
  assert (Ed : d1 = d2).
  { apply Z.divide_antisym_nonneg; [lia|lia|exact D12|exact D21]. }
  split; [|exact Ed]. subst d2. nia.
Qed.

(** [std_ratio] only depends on the value of the fraction. *)
Lemma std_ratio_complete (N1 D1 N2 D2 : Z) :
  D1 <> 0 -> D2 <> 0 -> N1 * D2 = N2 * D1 -> std_ratio N1 D1 = std_ratio N2 D2.
Proof.
  intros H1 H2 E.
  pose proof (std_ratio_value N1 D1 H1) as V1.
  pose proof (std_ratio_value N2 D2 H2) as V2.
  pose proof (std_ratio_den_pos N1 D1 H1) as P1.
  pose proof (std_ratio_den_pos N2 D2 H2) as P2.
  pose proof (std_ratio_coprime N1 D1 H1) as C1.
  pose proof (std_ratio_coprime N2 D2 H2) as C2.
  destruct (std_ratio N1 D1) as [n1 d1], (std_ratio N2 D2) as [n2 d2];
    simpl in *.
  destruct (lowest_terms_unique n1 d1 n2 d2 P1 P2 C1 C2) as [-> ->];
    [|reflexivity].
  apply (Z.mul_reg_r _ _ (D1 * D2)).
  { apply Z.neq_mul_0. split; assumption. }
  replace (n1 * d2 * (D1 * D2)) with ((n1 * D1) * (d2 * D2)) by ring.
  replace (n2 * d1 * (D1 * D2)) with ((n2 * D2) * (d1 * D1)) by ring.
  rewrite V1, V2.
  replace (N1 * d1 * (d2 * D2)) with ((N1 * D2) * (d1 * d2)) by ring.
  rewrite E. ring.
Qed.

(** A fraction in lowest terms is left as it is. *)
Lemma std_ratio_lowest (n d : Z) :
  0 < d -> Z.gcd n d = 1 -> std_ratio n d = mk_ratio n d.
Proof.
  intros Hd Hg. unfold std_ratio. rewrite Hg, !Z.div_1_r, sgn_mul_abs.
  rewrite Z.sgn_pos, Z.abs_eq by lia. f_equal. ring.
Qed.

(** Reducing twice is reducing once. *)
Lemma std_ratio_idem (N D : Z) :
  D <> 0 ->
  std_ratio (num (std_ratio N D)) (den (std_ratio N D)) = std_ratio N D.
Proof.
  intros HD.
  pose proof (std_ratio_den_pos N D HD). pose proof (std_ratio_coprime N D HD).
  rewrite std_ratio_lowest by assumption. destruct (std_ratio N D); reflexivity.
Qed.

(** The specification's [reduce] is [std::ratio]. *)
Lemma reduce_std_ratio (n d : Z) :
  d <> 0 -> reduce n d = (num (std_ratio n d), den (std_ratio n d)).
Proof.
  intros Hd. unfold reduce, std_ratio; simpl.
  rewrite Z.gcd_abs_l, Z.gcd_abs_r, sgn_mul_abs. f_equal. f_equal.
  destruct (Z.ltb_spec d 0).
  - rewrite Z.sgn_neg by lia. ring.
  - rewrite Z.sgn_pos by lia. ring.
Qed.

(** ** Facts on fractions as pairs *)

Lemma norm_same_value (x : Z * Z) : snd x <> 0 -> same_value (norm x) x.
Proof.
  intros H. unfold same_value, norm, pair_of; cbn [fst snd].
  exact (std_ratio_value _ _ H).
Qed.

Lemma norm_den_pos (x : Z * Z) : snd x <> 0 -> 0 < snd (norm x).
Proof. intros H. apply std_ratio_den_pos. exact H. Qed.

Lemma norm_complete (x y : Z * Z) :
  snd x <> 0 -> snd y <> 0 -> same_value x y -> norm x = norm y.
Proof.
  intros Hx Hy E. unfold norm. f_equal.
  apply std_ratio_complete; assumption.
Qed.

Lemma norm_idem (x : Z * Z) : snd x <> 0 -> norm (norm x) = norm x.
Proof.
  intros H. unfold norm, pair_of; cbn [fst snd].
  rewrite std_ratio_idem by exact H. reflexivity.
Qed.

Lemma fadd_den (x y : Z * Z) : snd x <> 0 -> snd y <> 0 -> snd (fadd x y) <> 0.
Proof. intros; simpl; apply Z.neq_mul_0; split; assumption. Qed.

Lemma fsub_den (x y : Z * Z) : snd x <> 0 -> snd y <> 0 -> snd (fsub x y) <> 0.
Proof. intros; simpl; apply Z.neq_mul_0; split; assumption. Qed.

Lemma fadd_same_value (x x' y y' : Z * Z) :
  same_value x x' -> same_value y y' -> same_value (fadd x y) (fadd x' y').
Proof.
  unfold same_value, fadd. destruct x as [a b], x' as [a' b'],
    y as [c d], y' as [c' d']; simpl. intros H1 H2.
  replace ((a * d + c * b) * (b' * d'))
    with ((a * b') * (d * d') + (c * d') * (b * b')) by ring.
  rewrite H1, H2. ring.
Qed.

Lemma fsub_same_value (x x' y y' : Z * Z) :
  same_value x x' -> same_value y y' -> same_value (fsub x y) (fsub x' y').
Proof.
  unfold same_value, fsub. destruct x as [a b], x' as [a' b'],
    y as [c d], y' as [c' d']; simpl. intros H1 H2.
  replace ((a * d - c * b) * (b' * d'))
    with ((a * b') * (d * d') - (c * d') * (b * b')) by ring.
  rewrite H1, H2. ring.
Qed.

Lemma same_value_refl (x : Z * Z) : same_value x x.
Proof. reflexivity. Qed.

Lemma addFrac_norm (x y : Z * Z) :
  snd x <> 0 -> snd y <> 0 -> addFrac x y = norm (fadd x y).
Proof.
  intros Hx Hy. unfold addFrac. rewrite reduce_std_ratio.
  - reflexivity.
  - apply (fadd_den x y Hx Hy).
Qed.

Lemma subFrac_norm (x y : Z * Z) :
  snd x <> 0 -> snd y <> 0 -> subFrac x y = norm (fsub x y).
Proof.
  intros Hx Hy. unfold subFrac. rewrite reduce_std_ratio.
  - reflexivity.
  - apply (fsub_den x y Hx Hy).
Qed.

(** What [operator*] and [operator/] compute for one unit: [std::ratio] on
    both exponents, [ratio_add] or [ratio_subtract], and [std::ratio] once
    more in [RationalType]. *)
Lemma times_component (x y : Z * Z) :
  snd x <> 0 -> snd y <> 0 ->
  norm (pair_of (ratio_add (std_ratio (fst x) (snd x))
                           (std_ratio (fst y) (snd y))))
  = addFrac x y.
Proof.
  intros Hx Hy. rewrite addFrac_norm by assumption.
  change (pair_of (ratio_add (std_ratio (fst x) (snd x))
                             (std_ratio (fst y) (snd y))))
    with (norm (fadd (norm x) (norm y))).
  pose proof (norm_den_pos x Hx). pose proof (norm_den_pos y Hy).
  rewrite norm_idem by (apply fadd_den; lia).
  apply norm_complete.
  - apply fadd_den; lia.
  - apply fadd_den; assumption.
  - apply fadd_same_value; apply norm_same_value; assumption.
Qed.

Lemma div_component (x y : Z * Z) :
  snd x <> 0 -> snd y <> 0 ->
  norm (pair_of (ratio_subtract (std_ratio (fst x) (snd x))
                                (std_ratio (fst y) (snd y))))
  = subFrac x y.
Proof.
  intros Hx Hy. rewrite subFrac_norm by assumption.
  change (pair_of (ratio_subtract (std_ratio (fst x) (snd x))
                                  (std_ratio (fst y) (snd y))))
    with (norm (fsub (norm x) (norm y))).
  pose proof (norm_den_pos x Hx). pose proof (norm_den_pos y Hy).
  rewrite norm_idem by (apply fsub_den; lia).
  apply norm_complete.
  - apply fsub_den; lia.
  - apply fsub_den; assumption.
  - apply fsub_same_value; apply norm_same_value; assumption.
Qed.

(** ** Facts on tags *)

Lemma Tag_eqb_eq (a b : Tag) : Tag_eqb a b = true <-> a = b.
Proof.
  unfold Tag_eqb; simpl.
  repeat rewrite Bool.andb_true_iff. repeat rewrite Z.eqb_eq.
  destruct a, b; simpl. split.
  - intros H. decompose [and] H. subst. reflexivity.
  - intros H. injection H as -> -> -> -> -> -> -> -> -> -> -> -> -> -> ->.
    repeat split.
Qed.

Lemma Tag_eqb_refl (a : Tag) : Tag_eqb a a = true.
Proof. apply Tag_eqb_eq. reflexivity. Qed.

Lemma Tag_eqb_neq (a b : Tag) : a <> b -> Tag_eqb a b = false.
Proof.
  intros H. destruct (Tag_eqb a b) eqn:E; [|reflexivity].
  apply Tag_eqb_eq in E. contradiction.
Qed.

Lemma exponent_make_Tag (TP : unit_name) (f : unit_name -> ratio) (p : Z) :
  exponent TP (make_Tag f p) = pair_of (f TP).
Proof. destruct TP; reflexivity. Qed.

Lemma make_Tag_ext (f g : unit_name -> ratio) (p q : Z) :
  (forall TP, f TP = g TP) -> p = q -> make_Tag f p = make_Tag g q.
Proof. intros H ->. unfold make_Tag. rewrite !H. reflexivity. Qed.

Lemma Tag_ext (a b : Tag) :
  (forall TP, exponent TP a = exponent TP b) -> t_pref a = t_pref b -> a = b.
Proof.
  intros H Hp.
  pose proof (H u_m) as Hm. pose proof (H u_s) as Hs.
  pose proof (H u_kg) as Hkg. pose proof (H u_A) as HA.
  pose proof (H u_K) as HK. pose proof (H u_mol) as Hmol.
  pose proof (H u_cd) as Hcd.
  clear H. destruct a, b; unfold exponent in *; cbn in *.
  injection Hm as -> ->. injection Hs as -> ->. injection Hkg as -> ->.
  injection HA as -> ->. injection HK as -> ->. injection Hmol as -> ->.
  injection Hcd as -> ->. subst. reflexivity.
Qed.

Lemma exponent_RationalType (TP : unit_name) (t : Tag) :
  exponent TP (RationalType t) = norm (exponent TP t).
Proof. unfold RationalType. rewrite exponent_make_Tag. reflexivity. Qed.

Lemma exponent_with_pref (TP : unit_name) (t : Tag) (p : Z) :
  exponent TP (with_pref t p) = exponent TP t.
Proof. destruct TP; reflexivity. Qed.

Lemma DimensionVector_exponent (a b : Tag) :
  DimensionVector a = DimensionVector b <->
  forall TP, exponent TP a = exponent TP b.
Proof.
  unfold DimensionVector; simpl. split.
  - intros H TP. injection H as ? ? ? ? ? ? ? ? ? ? ? ? ? ?.
    destruct TP; unfold exponent; simpl; congruence.
  - intros H.
    pose proof (H u_m) as Hm. pose proof (H u_s) as Hs.
    pose proof (H u_kg) as Hkg. pose proof (H u_A) as HA.
    pose proof (H u_K) as HK. pose proof (H u_mol) as Hmol.
    pose proof (H u_cd) as Hcd.
    unfold exponent in *; simpl in *. congruence.
Qed.

(** The named types are the expected tags. *)
Lemma named_types :
  Meters = mk_Tag 1 1 0 1 0 1 0 1 0 1 0 1 0 1 0
  /\ MetersSq = mk_Tag 2 1 0 1 0 1 0 1 0 1 0 1 0 1 0
  /\ Newtons = mk_Tag 1 1 (-2) 1 1 1 0 1 0 1 0 1 0 1 0
  /\ Pascals = mk_Tag (-1) 1 (-2) 1 1 1 0 1 0 1 0 1 0 1 0
  /\ Kilo = with_pref Scalar 3
  /\ Milli = with_pref Scalar (-3)
  /\ times_type Amperes Seconds = mk_Tag 0 1 1 1 0 1 1 1 0 1 0 1 0 1 0.
Proof. repeat split. Qed.

(** *** Which classes are instantiated *)

Lemma flat_map_nil {A B : Type} (f : A -> list B) (l : list A) :
  flat_map f l = [] <-> forall x, In x l -> f x = [].
Proof.
  induction l as [|a l IH]; simpl.
  - split; [intros _ x []|reflexivity].
  - split.
    + intros H x [<-|Hx].
      * apply app_eq_nil in H. apply H.
      * apply app_eq_nil in H. apply IH; [apply H|exact Hx].
    + intros H. rewrite (H a) by (left; reflexivity). simpl.
      apply IH. intros x Hx. apply H. right. exact Hx.
Qed.

Lemma In_ALL_UNITS (TP : unit_name) : In TP ALL_UNITS.
Proof. destruct TP; simpl; tauto. Qed.

Lemma instantiates_iff (t : Tag) :
  instantiates t = true <->
  forall TP, t_d TP t <> 0 /\ static_assert_holds TP t = true.
Proof.
  unfold instantiates.
  assert (E : diagnostics t = [] <->
              forall TP, t_d TP t <> 0 /\ static_assert_holds TP t = true).
  { unfold diagnostics. rewrite flat_map_nil. split.
    - intros H TP. specialize (H TP (In_ALL_UNITS TP)).
      destruct (Z.eqb_spec (t_d TP t) 0); [discriminate|].
      destruct (static_assert_holds TP t); [auto|discriminate].
    - intros H TP _. destruct (H TP) as [Hd Ha].
      destruct (Z.eqb_spec (t_d TP t) 0); [contradiction|].
      rewrite Ha. reflexivity. }
  destruct (diagnostics t); split; intros H.
  - apply E. reflexivity.
  - reflexivity.
  - discriminate.
  - apply E in H. discriminate.
Qed.

Lemma instantiates_den (t : Tag) (TP : unit_name) :
  instantiates t = true -> snd (exponent TP t) <> 0.
Proof. intros H. exact (proj1 (proj1 (instantiates_iff t) H TP)). Qed.

(** The [static_assert] of a unit, read on the fraction: with a non-zero
    numerator it holds exactly for a fraction in lowest terms; with a zero
    numerator it holds whatever the denominator. *)
Lemma static_assert_holds_iff (TP : unit_name) (t : Tag) :
  t_d TP t <> 0 ->
  (static_assert_holds TP t = true <->
   t_n TP t = 0 \/ lowest_terms (t_n TP t) (t_d TP t) = true).
Proof.
  intros Hd. unfold static_assert_holds, lowest_terms.
  set (n := t_n TP t) in *. set (d := t_d TP t) in *.
  rewrite Z.eqb_eq, Bool.andb_true_iff, Z.ltb_lt, Z.eqb_eq, Z.gcd_abs_l.
  pose proof (std_ratio_num_mul n d Hd) as Hn.
  pose proof (gcd_pos_r n d Hd) as Hg.
  split.
  - intros E. rewrite E in Hn.
    destruct (Z.eq_dec n 0) as [H0|H0]; [left; exact H0|right].
    assert (Hs : Z.gcd n d = Z.sgn d).
    { apply (Z.mul_reg_l _ _ n); [exact H0|]. rewrite Hn. ring. }
    destruct (Z.sgn_spec d) as [[? S]|[[? S]|[? S]]]; rewrite S in Hs; lia.
  - intros [H0|[Hpos H1]].
    + rewrite H0. unfold std_ratio; simpl. reflexivity.
    + rewrite std_ratio_lowest by assumption. reflexivity.
Qed.


(** *** The result types of [operator*] and [operator/] *)

Lemma exponent_times_type (TP : unit_name) (a b : Tag) :
  snd (exponent TP a) <> 0 -> snd (exponent TP b) <> 0 ->
  exponent TP (times_type a b) = addFrac (exponent TP a) (exponent TP b).
Proof.
  intros Ha Hb. unfold times_type.
  rewrite exponent_RationalType, exponent_make_Tag.
  apply (times_component (exponent TP a) (exponent TP b) Ha Hb).
Qed.

Lemma exponent_div_type (TP : unit_name) (a b : Tag) :
  snd (exponent TP a) <> 0 -> snd (exponent TP b) <> 0 ->
  exponent TP (div_type a b) = subFrac (exponent TP a) (exponent TP b).
Proof.
  intros Ha Hb. unfold div_type.
  rewrite exponent_RationalType, exponent_make_Tag.
  apply (div_component (exponent TP a) (exponent TP b) Ha Hb).
Qed.

Lemma DimensionVector_times_type (a b : Tag) :
  instantiates a = true -> instantiates b = true ->
  DimensionVector (times_type a b)
  = combine_under_multiply (DimensionVector a) (DimensionVector b).
Proof.
  intros Ha Hb. unfold combine_under_multiply, DimensionVector.
  induction ALL_UNITS as [|TP l IH]; cbn [map combine fst snd].
  - reflexivity.
  - f_equal; [|exact IH].
    apply exponent_times_type; apply instantiates_den; assumption.
Qed.

Lemma DimensionVector_div_type (a b : Tag) :
  instantiates a = true -> instantiates b = true ->
  DimensionVector (div_type a b)
  = combine_under_divide (DimensionVector a) (DimensionVector b).
Proof.
  intros Ha Hb. unfold combine_under_divide, DimensionVector.
  induction ALL_UNITS as [|TP l IH]; cbn [map combine fst snd].
  - reflexivity.
  - f_equal; [|exact IH].
    apply exponent_div_type; apply instantiates_den; assumption.
Qed.

(** [RationalType] always names a class that is instantiated. *)
Lemma instantiates_RationalType (t : Tag) :
  (forall TP, snd (exponent TP t) <> 0) -> instantiates (RationalType t) = true.
Proof.
  intros H. apply instantiates_iff. intros TP.
  pose proof (exponent_RationalType TP t) as E.
  pose proof (norm_den_pos (exponent TP t) (H TP)) as Hpos.
  pose proof (norm_idem (exponent TP t) (H TP)) as Hid.
  rewrite <- E in Hpos, Hid.
  split.
  - change (t_d TP (RationalType t)) with (snd (exponent TP (RationalType t))).
    lia.
  - unfold static_assert_holds. apply Z.eqb_eq.
    change (fst (norm (exponent TP (RationalType t)))
            = fst (exponent TP (RationalType t))).
    rewrite Hid. reflexivity.
Qed.

Lemma ratio_add_den (R1 R2 : ratio) :
  den R1 <> 0 -> den R2 <> 0 -> den (ratio_add R1 R2) <> 0.
Proof.
  intros H1 H2. unfold ratio_add.
  pose proof (std_ratio_den_pos (num R1 * den R2 + num R2 * den R1)
                                (den R1 * den R2)) as H.
  assert (den R1 * den R2 <> 0) by (apply Z.neq_mul_0; split; assumption).
  specialize (H ltac:(assumption)). lia.
Qed.

Lemma ratio_subtract_den (R1 R2 : ratio) :
  den R1 <> 0 -> den R2 <> 0 -> den (ratio_subtract R1 R2) <> 0.
Proof.
  intros H1 H2. unfold ratio_subtract.
  pose proof (std_ratio_den_pos (num R1 * den R2 - num R2 * den R1)
                                (den R1 * den R2)) as H.
  assert (den R1 * den R2 <> 0) by (apply Z.neq_mul_0; split; assumption).
  specialize (H ltac:(assumption)). lia.
Qed.

Lemma std_ratio_den (N D : Z) : D <> 0 -> den (std_ratio N D) <> 0.
Proof. intros H. pose proof (std_ratio_den_pos N D H). lia. Qed.

Lemma instantiates_times_type (a b : Tag) :
  instantiates a = true -> instantiates b = true ->
  instantiates (times_type a b) = true.
Proof.
  intros Ha Hb. apply instantiates_RationalType. intros TP.
  rewrite exponent_make_Tag. unfold ADD_FRAC, pair_of; cbn [snd].
  apply ratio_add_den; apply std_ratio_den;
    apply (instantiates_den _ TP); assumption.
Qed.

Lemma instantiates_div_type (a b : Tag) :
  instantiates a = true -> instantiates b = true ->
  instantiates (div_type a b) = true.
Proof.
  intros Ha Hb. apply instantiates_RationalType. intros TP.
  rewrite exponent_make_Tag. unfold SUB_FRAC, pair_of; cbn [snd].
  apply ratio_subtract_den; apply std_ratio_den;
    apply (instantiates_den _ TP); assumption.
Qed.

(** ** Multiplication and division of quantities *)

(** ** The algebra of dimensions *)

Lemma addFrac_norm_l (p z : Z * Z) :
  snd p <> 0 -> snd z <> 0 -> addFrac (norm p) z = norm (fadd p z).
Proof.
  intros Hp Hz. pose proof (norm_den_pos p Hp).
  rewrite addFrac_norm by lia.
  apply norm_complete; try (apply fadd_den; lia).
  apply fadd_same_value; [apply norm_same_value; exact Hp|reflexivity].
Qed.

Lemma addFrac_norm_r (x p : Z * Z) :
  snd x <> 0 -> snd p <> 0 -> addFrac x (norm p) = norm (fadd x p).
Proof.
  intros Hx Hp. pose proof (norm_den_pos p Hp).
  rewrite addFrac_norm by lia.
  apply norm_complete; try (apply fadd_den; lia).
  apply fadd_same_value; [reflexivity|apply norm_same_value; exact Hp].
Qed.

Lemma subFrac_norm_l (p z : Z * Z) :
  snd p <> 0 -> snd z <> 0 -> subFrac (norm p) z = norm (fsub p z).
Proof.
  intros Hp Hz. pose proof (norm_den_pos p Hp).
  rewrite subFrac_norm by lia.
  apply norm_complete; try (apply fsub_den; lia).
  apply fsub_same_value; [apply norm_same_value; exact Hp|reflexivity].
Qed.

Lemma subFrac_norm_r (x p : Z * Z) :
  snd x <> 0 -> snd p <> 0 -> subFrac x (norm p) = norm (fsub x p).
Proof.
  intros Hx Hp. pose proof (norm_den_pos p Hp).
  rewrite subFrac_norm by lia.
  apply norm_complete; try (apply fsub_den; lia).
  apply fsub_same_value; [reflexivity|apply norm_same_value; exact Hp].
Qed.

Ltac raw_fraction_identity :=
  intros [? ?] [? ?] [? ?]; unfold fadd, fsub; cbn [fst snd]; f_equal; ring.

Lemma fadd_assoc : forall x y z, fadd (fadd x y) z = fadd x (fadd y z).
Proof. raw_fraction_identity. Qed.

Lemma fsub_fadd : forall x y z, fsub (fadd x y) z = fadd x (fsub y z).
Proof. raw_fraction_identity. Qed.

Lemma fsub_fadd_swap : forall x y z, fsub (fadd x y) z = fadd (fsub x z) y.
Proof. raw_fraction_identity. Qed.

Lemma fsub_fsub_swap : forall x y z, fsub (fsub x y) z = fsub (fsub x z) y.
Proof. raw_fraction_identity. Qed.

Lemma fsub_fsub : forall x y z, fsub (fsub x y) z = fsub x (fadd y z).
Proof. raw_fraction_identity. Qed.

Section FractionAlgebra.

Variables x y z : Z * Z.
Hypothesis Hx : snd x <> 0.
Hypothesis Hy : snd y <> 0.
Hypothesis Hz : snd z <> 0.

Lemma addFrac_comm : addFrac x y = addFrac y x.
Proof.
  unfold addFrac. f_equal; ring.
Qed.

Lemma addFrac_assoc : addFrac (addFrac x y) z = addFrac x (addFrac y z).
Proof.
  rewrite (addFrac_norm x y), (addFrac_norm y z) by assumption.
  rewrite addFrac_norm_l, addFrac_norm_r;
    try assumption; try (apply fadd_den; assumption).
  rewrite fadd_assoc. reflexivity.
Qed.

Lemma subFrac_addFrac : subFrac (addFrac x y) z = addFrac x (subFrac y z).
Proof.
  rewrite (addFrac_norm x y), (subFrac_norm y z) by assumption.
  rewrite subFrac_norm_l, addFrac_norm_r;
    try assumption; try (apply fadd_den; assumption);
    try (apply fsub_den; assumption).
  rewrite fsub_fadd. reflexivity.
Qed.

Lemma subFrac_addFrac_swap :
  subFrac (addFrac x y) z = addFrac (subFrac x z) y.
Proof.
  rewrite (addFrac_norm x y), (subFrac_norm x z) by assumption.
  rewrite subFrac_norm_l, addFrac_norm_l;
    try assumption; try (apply fadd_den; assumption);
    try (apply fsub_den; assumption).
  rewrite fsub_fadd_swap. reflexivity.
Qed.

Lemma subFrac_subFrac_swap :
  subFrac (subFrac x y) z = subFrac (subFrac x z) y.
Proof.
  rewrite (subFrac_norm x y), (subFrac_norm x z) by assumption.
  rewrite !subFrac_norm_l;
    try assumption; try (apply fsub_den; assumption).
  rewrite fsub_fsub_swap. reflexivity.
Qed.

Lemma subFrac_subFrac :
  subFrac (subFrac x y) z = subFrac x (addFrac y z).
Proof.
  rewrite (subFrac_norm x y), (addFrac_norm y z) by assumption.
  rewrite subFrac_norm_l, subFrac_norm_r;
    try assumption; try (apply fadd_den; assumption);
    try (apply fsub_den; assumption).
  rewrite fsub_fsub. reflexivity.
Qed.

End FractionAlgebra.

Lemma addFrac_den (x y : Z * Z) :
  snd x <> 0 -> snd y <> 0 -> snd (addFrac x y) <> 0.
Proof.
  intros Hx Hy. rewrite addFrac_norm by assumption.
  pose proof (norm_den_pos (fadd x y) (fadd_den x y Hx Hy)). lia.
Qed.

Lemma subFrac_den (x y : Z * Z) :
  snd x <> 0 -> snd y <> 0 -> snd (subFrac x y) <> 0.
Proof.
  intros Hx Hy. rewrite subFrac_norm by assumption.
  pose proof (norm_den_pos (fsub x y) (fsub_den x y Hx Hy)). lia.
Qed.

Lemma times_type_comm (a b : Tag) : times_type a b = times_type b a.
Proof.
  unfold times_type. f_equal. apply make_Tag_ext.
  - intros TP. unfold ADD_FRAC, ratio_add. f_equal; ring.
  - ring.
Qed.

(** Rewrites the exponents of nested result types into [addFrac] and
    [subFrac] of the exponents of the operands. *)
Ltac nonzero_den :=
  repeat match goal with
    | |- _ => assumption
    | |- snd (addFrac _ _) <> 0 => apply addFrac_den
    | |- snd (subFrac _ _) <> 0 => apply subFrac_den
    | |- snd (exponent _ _) <> 0 => apply instantiates_den
    | |- instantiates (times_type _ _) = true => apply instantiates_times_type
    | |- instantiates (div_type _ _) = true => apply instantiates_div_type
    end.

Ltac exponents :=
  repeat first
    [ rewrite exponent_times_type by nonzero_den
    | rewrite exponent_div_type by nonzero_den ].

Section TypeAlgebra.

Variables a b c : Tag.
Hypothesis Ha : instantiates a = true.
Hypothesis Hb : instantiates b = true.
Hypothesis Hc : instantiates c = true.

Lemma times_type_assoc :
  times_type (times_type a b) c = times_type a (times_type b c).
Proof.
  apply Tag_ext.
  - intros TP. exponents.
    apply addFrac_assoc; nonzero_den.
  - unfold times_type, RationalType, make_Tag; cbn [t_pref]. ring.
Qed.

Lemma div_times_type :
  div_type (times_type a b) c = times_type a (div_type b c).
Proof.
  apply Tag_ext.
  - intros TP. exponents.
    apply subFrac_addFrac; nonzero_den.
  - unfold times_type, div_type, RationalType, make_Tag; cbn [t_pref]. ring.
Qed.

Lemma div_times_type_swap :
  div_type (times_type a b) c = times_type (div_type a c) b.
Proof.
  apply Tag_ext.
  - intros TP. exponents.
    apply subFrac_addFrac_swap; nonzero_den.
  - unfold times_type, div_type, RationalType, make_Tag; cbn [t_pref]. ring.
Qed.

Lemma div_div_type_swap :
  div_type (div_type a b) c = div_type (div_type a c) b.
Proof.
  apply Tag_ext.
  - intros TP. exponents.
    apply subFrac_subFrac_swap; nonzero_den.
  - unfold div_type, RationalType, make_Tag; cbn [t_pref]. ring.
Qed.

Lemma div_div_type :
  div_type (div_type a b) c = div_type a (times_type b c).
Proof.
  apply Tag_ext.
  - intros TP. exponents.
    apply subFrac_subFrac; nonzero_den.
  - unfold times_type, div_type, RationalType, make_Tag; cbn [t_pref]. ring.
Qed.

End TypeAlgebra.

Lemma type_of_operator_times
  (T : Type) (ST : Storage T) (a b : RationalTypeReduced T) :
  type_of (operator_times a b) = Some (times_type (tag a) (tag b)).
Proof. unfold operator_times. destruct (st_mul (val a) (val b)); reflexivity. Qed.

Lemma type_of_operator_div
  (T : Type) (ST : Storage T) (a b : RationalTypeReduced T) :
  type_of (operator_div a b) = Some (div_type (tag a) (tag b)).
Proof. unfold operator_div. destruct (st_div (val a) (val b)); reflexivity. Qed.

(** ** Addition, subtraction and comparison *)

(** Two classes are the same when the Dimension Vectors and the prefixes
    are. *)
Lemma same_tag_iff (a b : Tag) :
  a = b <-> DimensionVector a = DimensionVector b /\ t_pref a = t_pref b.
Proof.
  split.
  - intros ->. split; reflexivity.
  - intros [HD Hp]. apply Tag_ext; [|exact Hp].
    apply DimensionVector_exponent. exact HD.
Qed.

(** C7.  [a + b] and [a - b] build exactly when [a] and [b] have the same
    Dimension Vector and the same prefix; the result then has that tag and
    the raw value [a.val + b.val], respectively [a.val - b.val], of the
    storage type.  With a different Dimension Vector or a different prefix
    the call is ill-formed.  A length of 2 plus a length of 3 is a length of
    5; a length of 2 plus a length of 3 at prefix 3 does not build. *)
Theorem operator_plus_minus_same_tag
  (T : Type) (ST : Storage T) (a b : RationalTypeReduced T) :
  (DimensionVector (tag a) = DimensionVector (tag b) /\
   t_pref (tag a) = t_pref (tag b) ->
   (forall v, st_add (val a) (val b) = Some v ->
              operator_plus a b = Returns (mk_RTR (tag a) v))
   /\ (st_add (val a) (val b) = None -> operator_plus a b = Undefined (tag a))
   /\ (forall v, st_sub (val a) (val b) = Some v ->
                 operator_minus a b = Returns (mk_RTR (tag a) v))
   /\ (st_sub (val a) (val b) = None ->
       operator_minus a b = Undefined (tag a)))
  /\ (DimensionVector (tag a) <> DimensionVector (tag b) \/
      t_pref (tag a) <> t_pref (tag b) ->
      operator_plus a b = IllFormed /\ operator_minus a b = IllFormed)
  /\ operator_plus (mk_RTR Meters 2) (mk_RTR Meters 3)
     = Returns (mk_RTR Meters 5)
  /\ operator_plus (mk_RTR Meters 2) (mk_RTR (with_pref Meters 3) 3)
     = IllFormed
  /\ operator_plus (mk_RTR Meters 2) (mk_RTR Seconds 3) = IllFormed.
Proof.
  split; [|split; [|repeat split]].
  - intros H. apply same_tag_iff in H.
    unfold operator_plus, operator_minus. rewrite H, Tag_eqb_refl.
    repeat split; intros; rewrite H0 || rewrite H1; reflexivity.
  - intros H.
    assert (Hne : tag a <> tag b).
    { intros E. apply same_tag_iff in E. destruct E. destruct H; contradiction. }
    unfold operator_plus, operator_minus.
    rewrite (Tag_eqb_neq _ _ Hne). split; reflexivity.
Qed.

Lemma operator_plus_minus_same_tag_witness :
  (DimensionVector Meters = DimensionVector Meters /\
   t_pref Meters = t_pref Meters) /\
  operator_plus (mk_RTR Meters 2) (mk_RTR Meters 3)
  = Returns (mk_RTR Meters 5) /\
  operator_minus (mk_RTR Meters 2) (mk_RTR Meters 3)
  = Returns (mk_RTR Meters (-1)) /\
  (t_pref Meters <> t_pref (with_pref Meters 3)) /\
  operator_minus (mk_RTR Meters 2) (mk_RTR (with_pref Meters 3) 3)
  = IllFormed.
Proof.
  destruct (operator_plus_minus_same_tag Z int_Storage
              (mk_RTR Meters 2) (mk_RTR Meters 3)) as (Hsame & _).
  destruct (Hsame (conj eq_refl eq_refl)) as (Hp & _ & Hm & _).
  destruct (operator_plus_minus_same_tag Z int_Storage
              (mk_RTR Meters 2) (mk_RTR (with_pref Meters 3) 3))
    as (_ & Hdiff & _).
  assert (Hpref : t_pref Meters <> t_pref (with_pref Meters 3))
    by (simpl; lia).
  split; [split; reflexivity|].
  split; [apply Hp; reflexivity|].
  split; [apply Hm; reflexivity|].
  split; [exact Hpref|].
  apply (Hdiff (or_intror Hpref)).
Defined.

Lemma int_ordered_storage : ordered_storage Z.
Proof.
  constructor; simpl.
  - apply Z.eqb_refl.
  - apply Z.eqb_sym.
  - intros x y z H1 H2. apply Z.eqb_eq in H1, H2. apply Z.eqb_eq. lia.
  - apply Z.ltb_irrefl.
  - intros x y z H1 H2. apply Z.ltb_lt in H1, H2. apply Z.ltb_lt. lia.
  - intros x y. rewrite !Z.ltb_lt, Z.eqb_eq. lia.
  - intros x y H. apply Z.ltb_lt in H. apply Z.eqb_neq. lia.
Qed.

(** [==] of [float] is symmetric. *)
Lemma float_eqb_sym (x y : spec_float) : SFeqb x y = SFeqb y x.
Proof.
  unfold SFeqb, SFcompare.
  destruct x as [sx|sx| |sx mx ex], y as [sy|sy| |sy my ey];
    try reflexivity;
    try (destruct sx; reflexivity);
    try (destruct sy; reflexivity);
    try (destruct sx, sy; reflexivity).
  assert (H : CompOpp (PosDef.Pos.compare_cont Eq mx my)
              = PosDef.Pos.compare_cont Eq my mx)
    by exact (Pos.compare_cont_antisym mx my Eq).
  rewrite (Z.compare_antisym ex ey), <- H.
  destruct sx, sy; try reflexivity;
    destruct (ex ?= ey); simpl; try reflexivity;
    destruct (PosDef.Pos.compare_cont Eq mx my); reflexivity.
Qed.

Section Comparison.

Context {T : Type} {ST : Storage T}.

Variables a b : RationalTypeReduced T.

Lemma comparisons_same_tag :
  tag a = tag b ->
  operator_eq a b = Some (st_eqb (val a) (val b))
  /\ operator_lt a b = Some (st_ltb (val a) (val b))
  /\ operator_ne a b = Some (negb (st_eqb (val b) (val a)))
  /\ operator_le a b
     = Some (st_ltb (val a) (val b) || st_eqb (val a) (val b))
  /\ operator_gt a b = Some (st_ltb (val b) (val a))
  /\ operator_ge a b
     = Some (st_ltb (val b) (val a) || st_eqb (val a) (val b)).
Proof.
  intros E.
  unfold operator_ge, operator_gt, operator_le, operator_ne,
    operator_lt, operator_eq.
  rewrite E, !Tag_eqb_refl. simpl. repeat split.
Qed.

Lemma comparisons_other_tag :
  tag a <> tag b ->
  operator_eq a b = None /\ operator_lt a b = None /\ operator_ne a b = None
  /\ operator_le a b = None /\ operator_gt a b = None
  /\ operator_ge a b = None.
Proof.
  intros E.
  unfold operator_ge, operator_gt, operator_le, operator_ne,
    operator_lt, operator_eq.
  rewrite (Tag_eqb_neq _ _ E). repeat split.
Qed.

Lemma operator_eq_true_tag :
  operator_eq a b = Some true -> tag a = tag b /\ st_eqb (val a) (val b) = true.
Proof.
  unfold operator_eq. destruct (Tag_eqb (tag a) (tag b)) eqn:E; [|discriminate].
  apply Tag_eqb_eq in E. intros H. injection H as H. split; assumption.
Qed.

Lemma operator_lt_true_tag :
  operator_lt a b = Some true -> tag a = tag b /\ st_ltb (val a) (val b) = true.
Proof.
  unfold operator_lt. destruct (Tag_eqb (tag a) (tag b)) eqn:E; [|discriminate].
  apply Tag_eqb_eq in E. intros H. injection H as H. split; assumption.
Qed.

End Comparison.

(** The comparisons of [float] are not those of an ordered storage: a NaN
    is not equal to itself, and neither below nor above itself or any
    other value. *)
Lemma float_NaN_unordered :
  operator_eq (mk_RTR Meters S754_nan) (mk_RTR Meters S754_nan) = Some false
  /\ operator_lt (mk_RTR Meters S754_nan) (mk_RTR Meters (float_of_Z 1))
     = Some false
  /\ operator_eq (mk_RTR Meters S754_nan) (mk_RTR Meters (float_of_Z 1))
     = Some false
  /\ operator_lt (mk_RTR Meters (float_of_Z 1)) (mk_RTR Meters S754_nan)
     = Some false.
Proof. repeat split. Qed.

(** ** Conversion to another prefix *)

Section Conversion.

Context {T : Type} {ST : Storage T}.

(** The first loop multiplies [pref_diff] times when [pref_diff] is
    positive and leaves with [pref_diff] at zero; it does nothing
    otherwise. *)
Lemma while_positive_repeat (fuel : nat) :
  forall (nv : T) (pref_diff : Z),
    (Z.to_nat pref_diff <= fuel)%nat ->
    while_positive fuel nv pref_diff
    = match repeat_op (fun x => st_mul x st_ten) (Z.to_nat pref_diff) nv with
      | Some v => Exit v (Z.min pref_diff 0)
      | None => NoResult
      end.
Proof.
  induction fuel as [|fuel IH]; intros nv d Hfuel.
  - assert (E : Z.to_nat d = 0%nat) by lia.
    rewrite E. simpl. destruct (Z.ltb_spec 0 d); [lia|].
    rewrite Z.min_l by lia. reflexivity.
  - simpl. destruct (Z.ltb_spec 0 d) as [Hd|Hd].
    + replace (Z.to_nat d) with (S (Z.to_nat (d - 1))) by lia. simpl.
      destruct (st_mul nv st_ten) as [nv'|]; [|reflexivity].
      rewrite IH by lia.
      destruct (repeat_op _ _ nv'); [|reflexivity].
      f_equal. lia.
    + replace (Z.to_nat d) with 0%nat by lia. simpl.
      rewrite Z.min_l by lia. reflexivity.
Qed.

(** The second loop divides [- pref_diff] times when [pref_diff] is
    negative. *)
Lemma while_negative_repeat (fuel : nat) :
  forall (nv : T) (pref_diff : Z),
    (Z.to_nat (- pref_diff) <= fuel)%nat ->
    while_negative fuel nv pref_diff
    = match repeat_op (fun x => st_div x st_ten) (Z.to_nat (- pref_diff)) nv
      with
      | Some v => Exit v (Z.max pref_diff 0)
      | None => NoResult
      end.
Proof.
  induction fuel as [|fuel IH]; intros nv d Hfuel.
  - assert (E : Z.to_nat (- d) = 0%nat) by lia.
    rewrite E. simpl. destruct (Z.ltb_spec d 0); [lia|].
    rewrite Z.max_l by lia. reflexivity.
  - simpl. destruct (Z.ltb_spec d 0) as [Hd|Hd].
    + replace (Z.to_nat (- d)) with (S (Z.to_nat (- (d + 1)))) by lia. simpl.
      destruct (st_div nv st_ten) as [nv'|]; [|reflexivity].
      rewrite IH by lia.
      destruct (repeat_op _ _ nv'); [|reflexivity].
      f_equal. lia.
    + replace (Z.to_nat (- d)) with 0%nat by lia. simpl.
      rewrite Z.max_l by lia. reflexivity.
Qed.

(** With fuel for [|t_pref - pref2|] iterations the conversion returns, and
    returns the rescaled value. *)
Lemma convert_with_rescale
  (fuel : nat) (pref2 : Z) (this : RationalTypeReduced T) :
  (Z.to_nat (Z.abs (t_pref (tag this) - pref2)) <= fuel)%nat ->
  convert_with fuel pref2 this
  = Some (construct (with_pref (tag this) pref2)
                    (rescale (val this) (t_pref (tag this) - pref2))).
Proof.
  intros Hfuel. unfold convert_with, rescale.
  set (d := t_pref (tag this) - pref2) in *.
  rewrite while_positive_repeat by lia.
  destruct (Z.ltb_spec 0 d) as [Hd|Hd].
  - destruct (repeat_op _ (Z.to_nat d) (val this)) as [v|]; [|reflexivity].
    rewrite while_negative_repeat by lia.
    replace (Z.to_nat (- Z.min d 0)) with 0%nat by lia. reflexivity.
  - replace (Z.to_nat d) with 0%nat by lia. simpl.
    rewrite while_negative_repeat by lia.
    rewrite Z.min_l by lia.
    destruct (repeat_op _ (Z.to_nat (- d)) (val this)); reflexivity.
Qed.


End Conversion.

Lemma int_result_in_range (z : Z) :
  INT_MIN <= z <= INT_MAX -> int_result z = Some z.
Proof.
  intros H. unfold int_result.
  destruct (Z.leb_spec INT_MIN z); [|lia].
  destruct (Z.leb_spec z INT_MAX); [|lia]. reflexivity.
Qed.

Lemma int_result_out_of_range (z : Z) :
  z < INT_MIN \/ INT_MAX < z -> int_result z = None.
Proof.
  intros H. unfold int_result.
  destruct (Z.leb_spec INT_MIN z); [|reflexivity].
  destruct (Z.leb_spec z INT_MAX); [lia|reflexivity].
Qed.

Lemma int_repeat_mul (n : nat) :
  forall v : Z,
    INT_MIN <= v <= INT_MAX ->
    repeat_op (fun x => st_mul x st_ten) n v = int_result (v * 10 ^ Z.of_nat n).
Proof.
  induction n as [|n IH]; intros v Hv.
  - simpl. rewrite Z.mul_1_r, int_result_in_range by assumption. reflexivity.
  - cbn [repeat_op]. cbn [st_mul st_ten int_Storage].
    assert (Hpow : 0 < 10 ^ Z.of_nat n) by (apply Z.pow_pos_nonneg; lia).
    replace (10 ^ Z.of_nat (S n)) with (10 * 10 ^ Z.of_nat n)
      by (rewrite Nat2Z.inj_succ, Z.pow_succ_r by lia; reflexivity).
    destruct (Z_le_dec INT_MIN (v * 10)) as [Hlo|Hlo];
      [destruct (Z_le_dec (v * 10) INT_MAX) as [Hhi|Hhi]|].
    + rewrite int_result_in_range by lia.
      rewrite IH by lia. f_equal. ring.
    + rewrite !int_result_out_of_range; [reflexivity| |]; unfold INT_MIN, INT_MAX in *; nia.
    + rewrite !int_result_out_of_range; [reflexivity| |]; unfold INT_MIN, INT_MAX in *; nia.
Qed.

Lemma int_repeat_div (n : nat) :
  forall v : Z,
    INT_MIN <= v <= INT_MAX ->
    repeat_op (fun x => st_div x st_ten) n v = Some (Z.quot v (10 ^ Z.of_nat n)).
Proof.
  induction n as [|n IH]; intros v Hv.
  - simpl. rewrite Z.quot_1_r. reflexivity.
  - cbn [repeat_op]. cbn [st_div st_ten int_Storage].
    assert (Hpow : 0 < 10 ^ Z.of_nat n) by (apply Z.pow_pos_nonneg; lia).
    replace (10 ^ Z.of_nat (S n)) with (10 * 10 ^ Z.of_nat n)
      by (rewrite Nat2Z.inj_succ, Z.pow_succ_r by lia; reflexivity).
    change (10 =? 0) with false. cbv iota.
    assert (Hq : INT_MIN <= Z.quot v 10 <= INT_MAX).
    { unfold INT_MIN, INT_MAX in *. Z.to_euclidean_division_equations. lia. }
    rewrite int_result_in_range by exact Hq.
    rewrite IH by exact Hq. rewrite Z.quot_quot by lia. reflexivity.
Qed.

(** With [int], rescaling is the multiplication by the power of ten, when
    it fits, and the truncating division by the power of ten. *)
Lemma int_rescale_power (v k : Z) :
  INT_MIN <= v <= INT_MAX ->
  rescale v k
  = if 0 <? k then int_result (v * 10 ^ k) else Some (Z.quot v (10 ^ (- k))).
Proof.
  intros Hv. unfold rescale. destruct (Z.ltb_spec 0 k).
  - rewrite int_repeat_mul by exact Hv. rewrite Z2Nat.id by lia. reflexivity.
  - rewrite int_repeat_div by exact Hv. rewrite Z2Nat.id by lia. reflexivity.
Qed.



(** C2, with the directions of the code.  With [int] storage, the raw value 5 at prefix 0
    converted to prefix 3 is 0 (5 / 10 / 10 / 10) and stays 0 when converted
    back to prefix 0; converted to prefix -3 it is 5000, and converted back
    to prefix 0 it is 5 again. *)
Theorem int_prefix_round_trip (t : Tag) :
  t_pref t = 0 ->
  operator_convert 3 (mk_RTR t 5) = Some (Returns (mk_RTR (with_pref t 3) 0))
  /\ round_trip 3 (mk_RTR t 5) = Some (Returns (mk_RTR t 0))
  /\ operator_convert (-3) (mk_RTR t 5)
     = Some (Returns (mk_RTR (with_pref t (-3)) 5000))
  /\ round_trip (-3) (mk_RTR t 5) = Some (Returns (mk_RTR t 5)).
Proof.
  intros H. destruct t; simpl in H; subst. repeat split.
Qed.

Lemma int_prefix_round_trip_witness :
  t_pref Meters = 0 /\
  round_trip 3 (mk_RTR Meters 5) = Some (Returns (mk_RTR Meters 0)) /\
  round_trip (-3) (mk_RTR Meters 5) = Some (Returns (mk_RTR Meters 5)).
Proof.
  destruct (int_prefix_round_trip Meters eq_refl) as (_ & H3 & _ & Hm3).
  split; [reflexivity|]. split; [exact H3|exact Hm3].
Defined.

(** The round trips do not give 5 through prefix 3 and 0 through prefix
    -3. *)
Lemma round_trip_directions_exchanged :
  round_trip 3 (mk_RTR Meters 5) <> Some (Returns (mk_RTR Meters 5))
  /\ round_trip (-3) (mk_RTR Meters 5) <> Some (Returns (mk_RTR Meters 0)).
Proof. split; intros H; vm_compute in H; discriminate H. Qed.

(** ** Which tags the class accepts *)

Lemma instantiates_lowest_or_zero (t : Tag) :
  instantiates t = true <->
  forall TP,
    t_d TP t <> 0 /\
    (t_n TP t = 0 \/ lowest_terms (t_n TP t) (t_d TP t) = true).
Proof.
  rewrite instantiates_iff. split; intros H TP; destruct (H TP) as [Hd Ha];
    (split; [exact Hd|]); apply (static_assert_holds_iff TP t Hd); exact Ha.
Qed.

Lemma all_lowest_terms_iff (t : Tag) :
  all_lowest_terms t = true <->
  forall TP, lowest_terms (t_n TP t) (t_d TP t) = true.
Proof.
  unfold all_lowest_terms. rewrite forallb_forall. split.
  - intros H TP. apply H. apply In_ALL_UNITS.
  - intros H TP _. apply H.
Qed.

Lemma lowest_terms_den (n d : Z) : lowest_terms n d = true -> 0 < d.
Proof.
  unfold lowest_terms. rewrite Bool.andb_true_iff, Z.ltb_lt. tauto.
Qed.

(** Fractions in lowest terms are accepted. *)
Lemma lowest_terms_instantiates (t : Tag) :
  all_lowest_terms t = true -> instantiates t = true.
Proof.
  intros H. apply instantiates_lowest_or_zero. intros TP.
  pose proof (proj1 (all_lowest_terms_iff t) H TP) as L.
  pose proof (lowest_terms_den _ _ L). split; [lia|right; exact L].
Qed.

(** A fraction that is refused is named in the diagnostics. *)
Lemma diagnostics_name_the_unit (t : Tag) (TP : unit_name) :
  t_d TP t <> 0 -> static_assert_holds TP t = false ->
  In (assertion_failed (static_assert_message TP)) (diagnostics t).
Proof.
  intros Hd Ha. unfold diagnostics. apply in_flat_map.
  exists TP. split; [apply In_ALL_UNITS|].
  destruct (Z.eqb_spec (t_d TP t) 0); [contradiction|].
  rewrite Ha. left. reflexivity.
Qed.

(** C3.  The class is instantiated for the meter exponent 0/2, which is not
    in lowest terms: the [static_assert] compares the numerators only, and
    [std::ratio<0, 2>::num] is 0.  Nothing is reported.  The exponent 2/4 is
    refused, with the message of the meter. *)
Theorem zero_numerator_not_rejected :
  let t := mk_Tag 0 2 0 1 0 1 0 1 0 1 0 1 0 1 0 in
  instantiates t = true
  /\ diagnostics t = []
  /\ lowest_terms 0 2 = false
  /\ all_lowest_terms t = false
  /\ diagnostics (mk_Tag 2 4 0 1 0 1 0 1 0 1 0 1 0 1 0)
     = [assertion_failed "The meter exponent fraction is not irreducible"].
Proof. repeat split. Qed.

(** ** Scalars and compound assignment *)

Lemma lowest_terms_norm (x : Z * Z) :
  lowest_terms (fst x) (snd x) = true -> norm x = x.
Proof.
  destruct x as [n d]. unfold lowest_terms; cbn [fst snd].
  rewrite Bool.andb_true_iff, Z.ltb_lt, Z.eqb_eq, Z.gcd_abs_l.
  intros [Hd Hg]. unfold norm; cbn [fst snd].
  rewrite std_ratio_lowest by assumption. reflexivity.
Qed.

Lemma t_pref_times_type (a b : Tag) :
  t_pref (times_type a b) = t_pref a + t_pref b.
Proof. reflexivity. Qed.

Lemma t_pref_div_type (a b : Tag) :
  t_pref (div_type a b) = t_pref a - t_pref b.
Proof. reflexivity. Qed.

Lemma exponent_Scalar (TP : unit_name) : exponent TP Scalar = (0, 1).
Proof. destruct TP; reflexivity. Qed.

Lemma exponent_ScalarType (TP : unit_name) (t : Tag) :
  exponent TP (ScalarType t) = (0, 1).
Proof. destruct TP; reflexivity. Qed.

Lemma ScalarType_zero_prefix (t : Tag) : t_pref t = 0 -> ScalarType t = Scalar.
Proof. intros H. unfold ScalarType. rewrite H. reflexivity. Qed.

(** Multiplying or dividing a reduced tag by the dimensionless tag of
    prefix 0 leaves it as it is. *)
Lemma times_type_Scalar (t : Tag) :
  all_lowest_terms t = true -> times_type t Scalar = t.
Proof.
  intros H. pose proof (proj1 (all_lowest_terms_iff t) H) as L.
  apply Tag_ext.
  - intros TP. pose proof (lowest_terms_den _ _ (L TP)) as Hd.
    rewrite exponent_times_type, exponent_Scalar;
      [|cbn [exponent snd]; lia|rewrite exponent_Scalar; cbn [snd]; lia].
    rewrite addFrac_norm by (cbn [exponent snd]; lia).
    replace (fadd (exponent TP t) (0, 1)) with (exponent TP t).
    + apply lowest_terms_norm. apply L.
    + unfold fadd, exponent; cbn [fst snd]. f_equal; ring.
  - rewrite t_pref_times_type. change (t_pref Scalar) with 0. ring.
Qed.

Lemma div_type_Scalar (t : Tag) :
  all_lowest_terms t = true -> div_type t Scalar = t.
Proof.
  intros H. pose proof (proj1 (all_lowest_terms_iff t) H) as L.
  apply Tag_ext.
  - intros TP. pose proof (lowest_terms_den _ _ (L TP)) as Hd.
    rewrite exponent_div_type, exponent_Scalar;
      [|cbn [exponent snd]; lia|rewrite exponent_Scalar; cbn [snd]; lia].
    rewrite subFrac_norm by (cbn [exponent snd]; lia).
    replace (fsub (exponent TP t) (0, 1)) with (exponent TP t).
    + apply lowest_terms_norm. apply L.
    + unfold fsub, exponent; cbn [fst snd]. f_equal; ring.
  - rewrite t_pref_div_type. change (t_pref Scalar) with 0. ring.
Qed.

Section ScalarsAndAssignment.

Context {T : Type} {ST : Storage T}.

Variable this : RationalTypeReduced T.

Lemma assign_same_type (e : outcome T) :
  type_of e = Some (tag this) -> assign this e = e.
Proof.
  destruct e as [[t v]|t|]; simpl; intros H; try discriminate;
    injection H as ->; rewrite Tag_eqb_refl; reflexivity.
Qed.

Lemma assign_other_type (e : outcome T) :
  type_of e <> Some (tag this) -> assign this e = IllFormed.
Proof.
  destruct e as [[t v]|t|]; simpl; intros H; try reflexivity.
  - destruct (Tag_eqb (tag this) t) eqn:E; [|reflexivity].
    apply Tag_eqb_eq in E. subst t. contradiction H. reflexivity.
  - destruct (Tag_eqb (tag this) t) eqn:E; [|reflexivity].
    apply Tag_eqb_eq in E. subst t. contradiction H. reflexivity.
Qed.

(** Unary plus copies its operand. *)
Lemma operator_pos_copies : operator_pos this = Returns this.
Proof. destruct this; reflexivity. Qed.

(** Unary minus keeps the tag. *)
Lemma operator_neg_type : type_of (operator_neg this) = Some (tag this).
Proof. unfold operator_neg. destruct (st_neg (val this)); reflexivity. Qed.

(** [q * s] is the product by [s] wrapped at prefix 0. *)
Lemma operator_times_S_wraps (s : T) :
  all_lowest_terms (tag this) = true ->
  operator_times_S this s = operator_times this (mk_RTR Scalar s).
Proof.
  intros H. unfold operator_times_S, operator_times; cbn [tag val].
  rewrite times_type_Scalar by exact H. reflexivity.
Qed.

(** At prefix 0, [q / s] and [s / q] are the quotients with [s] wrapped at
    prefix 0. *)
Lemma operator_div_S_wraps_at_prefix_0 (s : T) :
  t_pref (tag this) = 0 ->
  operator_div_S this s = operator_div this (mk_RTR Scalar s)
  /\ S_operator_div s this = operator_div (mk_RTR Scalar s) this.
Proof.
  intros H. unfold operator_div_S, S_operator_div.
  rewrite ScalarType_zero_prefix by exact H. split; reflexivity.
Qed.

(** Whatever the prefix of [q], the types of [q / s] and [s / q] have
    prefix 0. *)
Lemma operator_div_S_prefix (s : T) (t : Tag) :
  type_of (operator_div_S this s) = Some t \/
  type_of (S_operator_div s this) = Some t ->
  t_pref t = 0.
Proof.
  unfold operator_div_S, S_operator_div.
  rewrite !type_of_operator_div; cbn [tag].
  intros [H|H]; injection H as <-; rewrite t_pref_div_type;
    unfold ScalarType; cbn [t_pref]; ring.
Qed.

(** [+=], [-=] and [*=] by a number are the binary operators. *)
Lemma operator_plus_assign_plus (rhs : RationalTypeReduced T) :
  tag rhs = tag this ->
  operator_plus_assign this rhs = operator_plus this rhs
  /\ operator_minus_assign this rhs = operator_minus this rhs.
Proof.
  intros E. unfold operator_plus_assign, operator_minus_assign.
  rewrite E, Tag_eqb_refl.
  split; apply assign_same_type;
    unfold operator_plus, operator_minus; rewrite E, Tag_eqb_refl.
  - destruct (st_add (val this) (val rhs)); reflexivity.
  - destruct (st_sub (val this) (val rhs)); reflexivity.
Qed.

Lemma operator_times_assign_T_times (rhs : T) :
  operator_times_assign_T this rhs = operator_times_S this rhs.
Proof.
  unfold operator_times_assign_T. apply assign_same_type.
  unfold operator_times_S. destruct (st_mul (val this) rhs); reflexivity.
Qed.

(** At prefix 0 and with reduced exponents, [/=] by a number and [*=] and
    [/=] by a [ScalarType] are the binary operators too. *)
Lemma assign_at_prefix_0 (rhs : T) (srhs : RationalTypeReduced T) :
  all_lowest_terms (tag this) = true -> t_pref (tag this) = 0 ->
  tag srhs = ScalarType (tag this) ->
  operator_div_assign_T this rhs = operator_div_S this rhs
  /\ operator_times_assign_Scalar this srhs = operator_times this srhs
  /\ operator_div_assign_Scalar this srhs = operator_div this srhs.
Proof.
  intros HL Hp Hs.
  unfold operator_div_assign_T, operator_times_assign_Scalar,
    operator_div_assign_Scalar.
  rewrite Hs, Tag_eqb_refl.
  repeat split; apply assign_same_type.
  - unfold operator_div_S. rewrite type_of_operator_div; cbn [tag].
    rewrite ScalarType_zero_prefix, div_type_Scalar by assumption.
    reflexivity.
  - rewrite type_of_operator_times, Hs.
    rewrite ScalarType_zero_prefix, times_type_Scalar by assumption.
    reflexivity.
  - rewrite type_of_operator_div, Hs.
    rewrite ScalarType_zero_prefix, div_type_Scalar by assumption.
    reflexivity.
Qed.

(** At any other prefix they do not build. *)
Lemma assign_at_other_prefix (rhs : T) (srhs : RationalTypeReduced T) :
  t_pref (tag this) <> 0 ->
  operator_div_assign_T this rhs = IllFormed
  /\ operator_times_assign_Scalar this srhs = IllFormed
  /\ operator_div_assign_Scalar this srhs = IllFormed.
Proof.
  intros Hp.
  unfold operator_div_assign_T, operator_times_assign_Scalar,
    operator_div_assign_Scalar.
  repeat split.
  - apply assign_other_type. unfold operator_div_S.
    rewrite type_of_operator_div; cbn [tag]. intros H. injection H as H.
    apply (f_equal t_pref) in H. rewrite t_pref_div_type in H.
    unfold ScalarType in H; cbn [t_pref] in H. lia.
  - destruct (Tag_eqb (tag srhs) (ScalarType (tag this))) eqn:E;
      [|reflexivity].
    apply Tag_eqb_eq in E. apply assign_other_type.
    rewrite type_of_operator_times, E. intros H. injection H as H.
    apply (f_equal t_pref) in H. rewrite t_pref_times_type in H.
    unfold ScalarType in H; cbn [t_pref] in H. lia.
  - destruct (Tag_eqb (tag srhs) (ScalarType (tag this))) eqn:E;
      [|reflexivity].
    apply Tag_eqb_eq in E. apply assign_other_type.
    rewrite type_of_operator_div, E. intros H. injection H as H.
    apply (f_equal t_pref) in H. rewrite t_pref_div_type in H.
    unfold ScalarType in H; cbn [t_pref] in H. lia.
Qed.

End ScalarsAndAssignment.

(** C1.  Six kilometres (a length of raw value 6 at prefix 3) and the bare
    number 2, with [int] storage.  [q * 2] and [2 * q] keep the type of
    [q], as the product with 2 wrapped at prefix 0 does.  [q / 2] has
    prefix 0 and not prefix 3, and [12 / q] has prefix 0 and not prefix -3:
    the number is wrapped in [ScalarType], which has the prefix of [q], and
    the division subtracts the prefixes. *)
Theorem scalar_division_loses_prefix :
  let q := mk_RTR (with_pref Meters 3) 6 in
  operator_times_S q 2 = Returns (mk_RTR (with_pref Meters 3) 12)
  /\ S_operator_times 2 q = Returns (mk_RTR (with_pref Meters 3) 12)
  /\ operator_times q (mk_RTR Scalar 2)
     = Returns (mk_RTR (with_pref Meters 3) 12)
  /\ operator_div_S q 2 = Returns (mk_RTR (with_pref Meters 0) 3)
  /\ operator_div q (mk_RTR Scalar 2)
     = Returns (mk_RTR (with_pref Meters 3) 3)
  /\ S_operator_div 12 q
     = Returns (mk_RTR (with_pref (div_type Scalar Meters) 0) 2)
  /\ operator_div (mk_RTR Scalar 12) q
     = Returns (mk_RTR (with_pref (div_type Scalar Meters) (-3)) 2).
Proof. repeat split. Qed.

(** C10.  Six kilometres again.  [a += b], [a -= b] and [a *= 2] give [a]
    the value of the binary operator.  [a /= 2] does not build: [a / 2] has
    prefix 0, and no implicit conversion brings it back to the type of [a].
    Neither do [a *= s] and [a /= s] for [s] of [a]'s [ScalarType], whose
    product with [a] has prefix 6 and whose quotient has prefix 0.  The
    same statements build at prefix 0. *)
Theorem compound_assignment_at_prefix_3 :
  let a := mk_RTR (with_pref Meters 3) 6 in
  let b := mk_RTR (with_pref Meters 3) 4 in
  let s := mk_RTR (ScalarType (with_pref Meters 3)) 2 in
  operator_plus_assign a b = Returns (mk_RTR (with_pref Meters 3) 10)
  /\ operator_minus_assign a b = Returns (mk_RTR (with_pref Meters 3) 2)
  /\ operator_times_assign_T a 2 = Returns (mk_RTR (with_pref Meters 3) 12)
  /\ operator_div_S a 2 = Returns (mk_RTR (with_pref Meters 0) 3)
  /\ operator_div_assign_T a 2 = IllFormed
  /\ operator_times a s = Returns (mk_RTR (with_pref Meters 6) 12)
  /\ operator_times_assign_Scalar a s = IllFormed
  /\ operator_div a s = Returns (mk_RTR (with_pref Meters 0) 3)
  /\ operator_div_assign_Scalar a s = IllFormed
  /\ operator_div_assign_T (mk_RTR Meters 6) 2 = Returns (mk_RTR Meters 3)
  /\ operator_times_assign_Scalar (mk_RTR Meters 6) (mk_RTR Scalar 2)
     = Returns (mk_RTR Meters 12)
  /\ operator_div_assign_Scalar (mk_RTR Meters 6) (mk_RTR Scalar 2)
     = Returns (mk_RTR Meters 3).
Proof. repeat split. Qed.

(** ** The unit string *)

Section Strings.

Local Open Scope string_scope.

Lemma string_app_assoc (a b c : string) : (a ++ b) ++ c = a ++ (b ++ c).
Proof. induction a as [|x a IH]; simpl; [reflexivity|rewrite IH; reflexivity]. Qed.

Lemma string_app_nil_r (a : string) : a ++ "" = a.
Proof. induction a as [|x a IH]; simpl; [reflexivity|rewrite IH; reflexivity]. Qed.

Lemma string_app_eq_nil (a b : string) : a ++ b = "" -> a = "" /\ b = "".
Proof. destruct a; simpl; [auto|discriminate]. Qed.

Lemma string_length_app (a b : string) :
  String.length (a ++ b) = (String.length a + String.length b)%nat.
Proof. induction a as [|x a IH]; simpl; [reflexivity|rewrite IH; reflexivity]. Qed.

Lemma substring_0_length_app (a b : string) :
  String.substring 0 (String.length a) (a ++ b) = a.
Proof.
  induction a as [|x a IH]; simpl.
  - destruct b; reflexivity.
  - rewrite IH. reflexivity.
Qed.

Lemma separated_app (a b : string) :
  separated a -> separated b -> separated (a ++ b).
Proof.
  intros Ha [->|(body & Hb & ->)].
  - rewrite string_app_nil_r. exact Ha.
  - right. exists (a ++ body). split.
    + intros E. apply string_app_eq_nil in E. apply Hb, E.
    + rewrite string_app_assoc. reflexivity.
Qed.

Lemma DIM_TO_STRING_part (t : Tag) (s : string) (TP : unit_name) :
  DIM_TO_STRING t s TP = s ++ dim_part t TP.
Proof.
  unfold dim_part, DIM_TO_STRING.
  destruct ((t_n TP t =? 1) && (t_d TP t =? 1))%Z; [reflexivity|].
  destruct (negb (t_n TP t =? 0) && (t_d TP t =? 1))%Z; [reflexivity|].
  destruct (negb (t_n TP t =? 0))%Z; [reflexivity|].
  rewrite string_app_nil_r. reflexivity.
Qed.

Lemma fold_DIM_TO_STRING (t : Tag) (l : list unit_name) :
  forall s, fold_left (DIM_TO_STRING t) l s = s ++ units_part t l.
Proof.
  induction l as [|TP l IH]; intros s; simpl.
  - rewrite string_app_nil_r. reflexivity.
  - rewrite IH, DIM_TO_STRING_part, string_app_assoc. reflexivity.
Qed.

Lemma build_unit_string_parts (t : Tag) (s : string) :
  build_unit_string t s = s ++ (pref_part t ++ units_part t ALL_UNITS).
Proof.
  unfold build_unit_string, pref_part. rewrite fold_DIM_TO_STRING.
  destruct (negb (t_pref t =? 0)%Z).
  - rewrite !string_app_assoc. reflexivity.
  - reflexivity.
Qed.

Lemma unit_symbol_app_nonempty (TP : unit_name) (s : string) :
  unit_symbol TP ++ s <> "".
Proof. destruct TP; discriminate. Qed.

Lemma dim_part_separated (t : Tag) (TP : unit_name) : separated (dim_part t TP).
Proof.
  unfold dim_part, DIM_TO_STRING.
  destruct ((t_n TP t =? 1) && (t_d TP t =? 1))%Z.
  { right. exists (unit_symbol TP). split; [|reflexivity].
    destruct TP; discriminate. }
  destruct (negb (t_n TP t =? 0) && (t_d TP t =? 1))%Z.
  { right. eexists. split; [|reflexivity].
    rewrite string_app_assoc. apply unit_symbol_app_nonempty. }
  destruct (negb (t_n TP t =? 0))%Z.
  { right.
    exists (((((unit_symbol TP ++ "^(") ++ to_string (t_n TP t)) ++ "/")
             ++ to_string (t_d TP t)) ++ ")").
    split; [|rewrite (string_app_assoc _ ")" " "); reflexivity].
    rewrite !string_app_assoc. apply unit_symbol_app_nonempty. }
  left. reflexivity.
Qed.

Lemma dim_part_empty_iff (t : Tag) (TP : unit_name) :
  dim_part t TP = "" <-> t_n TP t = 0%Z.
Proof.
  unfold dim_part, DIM_TO_STRING.
  destruct (Z.eqb_spec (t_n TP t) 0) as [E|E].
  - rewrite E. simpl. tauto.
  - split; [|contradiction]. simpl.
    destruct ((t_n TP t =? 1) && (t_d TP t =? 1))%Z;
      [|destruct (t_d TP t =? 1)%Z]; intros H; exfalso;
      revert H; simpl; rewrite ?string_app_assoc;
      apply unit_symbol_app_nonempty.
Qed.

Lemma units_part_separated (t : Tag) (l : list unit_name) :
  separated (units_part t l).
Proof.
  induction l as [|TP l IH]; simpl.
  - left. reflexivity.
  - apply separated_app; [apply dim_part_separated|exact IH].
Qed.

Lemma units_part_empty_iff (t : Tag) (l : list unit_name) :
  units_part t l = "" <-> forall TP, In TP l -> t_n TP t = 0%Z.
Proof.
  induction l as [|TP l IH]; simpl.
  - split; [intros _ TP []|reflexivity].
  - split.
    + intros H. apply string_app_eq_nil in H. destruct H as [H1 H2].
      intros TP' [<-|Hin].
      * apply dim_part_empty_iff. exact H1.
      * apply IH; assumption.
    + intros H.
      rewrite (proj2 (dim_part_empty_iff t TP) (H TP (or_introl eq_refl))).
      apply IH. intros TP' Hin. apply H. right. exact Hin.
Qed.

Lemma pref_part_separated (t : Tag) : separated (pref_part t).
Proof.
  unfold pref_part. destruct (negb (t_pref t =? 0)%Z).
  - right. eexists. split; [|reflexivity]. discriminate.
  - left. reflexivity.
Qed.

Lemma pref_part_empty_iff (t : Tag) : pref_part t = "" <-> t_pref t = 0%Z.
Proof.
  unfold pref_part. destruct (Z.eqb_spec (t_pref t) 0) as [E|E]; simpl.
  - tauto.
  - split; [discriminate|contradiction].
Qed.

Lemma substr_empty (count : Z) : substr "" 0 count = "".
Proof.
  unfold substr, size; simpl.
  destruct (Z.to_nat (Z.min count 0)); reflexivity.
Qed.

(** [substr(0, size() - 1)] takes the last character off. *)
Lemma substr_drops_last (body : string) :
  (size (body ++ " ") < 2 ^ 64)%Z ->
  substr (body ++ " ") 0 (size_t (size (body ++ " ") - 1)) = body.
Proof.
  unfold substr, size_t, size. rewrite string_length_app; simpl String.length.
  intros H.
  rewrite Z.mod_small by lia.
  replace (Z.to_nat (Z.min _ _)) with (String.length body) by lia.
  apply substring_0_length_app.
Qed.

(** The string of a class, from its parts. *)
Lemma unit_string_parts (t : Tag) :
  unit_string t
  = substr (build_unit_string t "") 0
           (size_t (size (build_unit_string t "") - 1)).
Proof. reflexivity. Qed.

Lemma build_unit_string_separated (t : Tag) :
  separated (build_unit_string t "").
Proof.
  rewrite build_unit_string_parts.
  change ("" ++ (pref_part t ++ units_part t ALL_UNITS))
    with (pref_part t ++ units_part t ALL_UNITS).
  apply separated_app; [apply pref_part_separated|apply units_part_separated].
Qed.

Lemma unit_string_separator (t : Tag) :
  (size (build_unit_string t "") < 2 ^ 64)%Z ->
  (build_unit_string t "" = "" /\ unit_string t = "")
  \/ (unit_string t <> "" /\ build_unit_string t "" = unit_string t ++ " ").
Proof.
  intros Hsize. rewrite unit_string_parts.
  destruct (build_unit_string_separated t) as [E|(body & Hb & E)].
  - left. rewrite E. split; [reflexivity|apply substr_empty].
  - right. rewrite E in *. rewrite substr_drops_last by exact Hsize.
    split; [exact Hb|reflexivity].
Qed.

End Strings.

Section UnitString.

Local Open Scope string_scope.

Lemma getUnit_from_empty (t : Tag) (sigma : statics) :
  sigma t = "" ->
  getUnit t sigma = (unit_string t, set_static sigma t (unit_string t)).
Proof.
  intros H. unfold unit_string, getUnit, statics_initial. rewrite H.
  reflexivity.
Qed.


Lemma set_static_same (sigma : statics) (t : Tag) (s : string) :
  set_static sigma t s t = s.
Proof. unfold set_static. rewrite Tag_eqb_refl. reflexivity. Qed.


Lemma string_eq_dec_nil (s : string) : {s = ""} + {s <> ""}.
Proof. destruct s; [left; reflexivity|right; discriminate]. Qed.

Lemma starts_with_space_app (s x : string) :
  s <> "" -> starts_with_space (s ++ x) = starts_with_space s.
Proof. destruct s; [contradiction|reflexivity]. Qed.

Lemma dim_part_no_space (t : Tag) (TP : unit_name) (acc : string) :
  dim_part t TP <> "" -> starts_with_space (dim_part t TP ++ acc) = false.
Proof.
  intros H. rewrite starts_with_space_app by exact H. revert H.
  unfold dim_part, DIM_TO_STRING.
  destruct ((t_n TP t =? 1) && (t_d TP t =? 1))%Z;
    [|destruct (negb (t_n TP t =? 0) && (t_d TP t =? 1))%Z;
      [|destruct (negb (t_n TP t =? 0))%Z]];
    intros H; try (contradiction H; reflexivity);
    destruct TP; reflexivity.
Qed.

Lemma units_part_no_space (t : Tag) (l : list unit_name) :
  starts_with_space (units_part t l) = false.
Proof.
  induction l as [|TP l IH]; simpl; [reflexivity|].
  destruct (string_eq_dec_nil (dim_part t TP)) as [E|E].
  - rewrite E. exact IH.
  - apply dim_part_no_space. exact E.
Qed.

Lemma dim_part_RationalType (t : Tag) (TP : unit_name) :
  instantiates t = true -> dim_part (RationalType t) TP = dim_part t TP.
Proof.
  intros H.
  destruct (proj1 (instantiates_lowest_or_zero t) H TP) as [Hd [H0|HL]].
  - rewrite (proj2 (dim_part_empty_iff t TP) H0).
    apply dim_part_empty_iff.
    change (fst (exponent TP (RationalType t)) = 0%Z).
    rewrite exponent_RationalType. unfold norm, exponent, pair_of, std_ratio.
    cbn [fst snd num]. rewrite H0. reflexivity.
  - pose proof (exponent_RationalType TP t) as E.
    rewrite (lowest_terms_norm (exponent TP t) HL) in E.
    unfold exponent in E. injection E as En Ed.
    unfold dim_part, DIM_TO_STRING. rewrite En, Ed. reflexivity.
Qed.

End UnitString.



(** X2.  The string is empty exactly for the classes of prefix 0 whose
    seven numerators are 0 (for these the cache stays empty and the string
    is built again at every call); otherwise it is what was built without
    its last character, the space that follows the last unit, so that
    nothing but this separator is cut.  The built string has to be shorter
    than [2^64] characters, as every [std::string] is. *)
Theorem unit_string_empty_or_trimmed (t : Tag) :
  (size (build_unit_string t "") < 2 ^ 64) ->
  (unit_string t = ""%string <->
   t_pref t = 0 /\ forall TP, t_n TP t = 0)
  /\ (unit_string t <> ""%string ->
      build_unit_string t "" = (unit_string t ++ " ")%string)
  /\ (unit_string t = ""%string ->
      forall sigma, sigma t = ""%string ->
                    snd (getUnit t sigma) t = ""%string).
Proof.
  intros Hsize.
  pose proof (unit_string_separator t Hsize) as Hsep.
  assert (Hbuild : build_unit_string t "" = ""%string <->
                   t_pref t = 0 /\ forall TP, t_n TP t = 0).
  { rewrite build_unit_string_parts.
    change (pref_part t ++ units_part t ALL_UNITS = "" <->
            t_pref t = 0 /\ (forall TP, t_n TP t = 0))%string.
    split.
    - intros H. apply string_app_eq_nil in H. destruct H as [Hp Hu].
      split; [apply pref_part_empty_iff; exact Hp|].
      intros TP. apply (proj1 (units_part_empty_iff t ALL_UNITS) Hu).
      apply In_ALL_UNITS.
    - intros [Hp Hu].
      rewrite (proj2 (pref_part_empty_iff t) Hp).
      apply units_part_empty_iff. intros TP _. apply Hu. }
  split; [|split].
  - split.
    + intros E. apply Hbuild.
      destruct Hsep as [[Hb _]|[Hne _]]; [exact Hb|contradiction].
    + intros H. apply Hbuild in H.
      destruct Hsep as [[_ Hu]|[_ Hb]]; [exact Hu|].
      rewrite H in Hb. destruct (unit_string t); discriminate.
  - intros Hne. destruct Hsep as [[_ Hu]|[_ Hb]]; [contradiction|exact Hb].
  - intros E sigma Hs. rewrite (getUnit_from_empty t sigma Hs). cbn [snd].
    rewrite set_static_same. exact E.
Qed.

Lemma unit_string_empty_or_trimmed_witness :
  (size (build_unit_string Newtons "") < 2 ^ 64) /\
  build_unit_string Newtons "" = "m s^-2 kg "%string /\
  unit_string Scalar = ""%string.
Proof.
  assert (H : size (build_unit_string Newtons "") < 2 ^ 64)
    by (vm_compute; reflexivity).
  assert (HS : size (build_unit_string Scalar "") < 2 ^ 64)
    by (vm_compute; reflexivity).
  destruct (unit_string_empty_or_trimmed Newtons H) as (_ & Hb & _).
  destruct (unit_string_empty_or_trimmed Scalar HS) as (He & _ & _).
  split; [exact H|]. split.
  - rewrite Hb; [vm_compute; reflexivity|vm_compute; discriminate].
  - apply He. split; [reflexivity|]. intros TP; destruct TP; reflexivity.
Defined.

(** X3.  The string of a class starts with a space exactly when the prefix
    is not 0: the prefix is written [" * 10^p "], with a leading space, and
    no unit starts with one. *)
Theorem unit_string_leading_space (t : Tag) :
  (size (build_unit_string t "") < 2 ^ 64) ->
  starts_with_space (unit_string t) = negb (t_pref t =? 0).
Proof.
  intros Hsize.
  pose proof (unit_string_separator t Hsize) as Hsep.
  pose proof (build_unit_string_parts t "") as Hparts.
  change (build_unit_string t ""
          = (pref_part t ++ units_part t ALL_UNITS)%string) in Hparts.
  unfold pref_part in Hparts.
  destruct (Z.eqb_spec (t_pref t) 0) as [E|E]; cbn [negb] in *.
  - cbn [String.append] in Hparts.
    destruct Hsep as [[_ Hu]|[Hne Hb]]; [rewrite Hu; reflexivity|].
    rewrite <- (starts_with_space_app _ " " Hne), <- Hb, Hparts.
    apply units_part_no_space.
  - destruct Hsep as [[Hb _]|[Hne Hb]].
    + rewrite Hb in Hparts. discriminate Hparts.
    + rewrite <- (starts_with_space_app _ " " Hne), <- Hb, Hparts.
      reflexivity.
Qed.

Lemma unit_string_leading_space_witness :
  (size (build_unit_string (with_pref Meters 3) "") < 2 ^ 64) /\
  unit_string (with_pref Meters 3) = " * 10^3 m"%string /\
  starts_with_space (unit_string (with_pref Meters 3)) = true.
Proof.
  assert (H : size (build_unit_string (with_pref Meters 3) "") < 2 ^ 64)
    by (vm_compute; reflexivity).
  split; [exact H|]. split; [vm_compute; reflexivity|].
  rewrite (unit_string_leading_space (with_pref Meters 3) H). reflexivity.
Defined.

(** X4.  The string only shows the value of the exponents: a class that
    the assertions accept has the string of its reduced form, so a
    dimension with the exponent 0/2 prints like the one with 0/1. *)
Theorem unit_string_of_reduced_form (t : Tag) :
  instantiates t = true -> unit_string (RationalType t) = unit_string t.
Proof.
  intros H. rewrite !unit_string_parts.
  assert (E : build_unit_string (RationalType t) ""
              = build_unit_string t "").
  { rewrite !build_unit_string_parts. f_equal. f_equal.
    unfold units_part.
    induction ALL_UNITS as [|TP l IH]; simpl; [reflexivity|].
    rewrite IH, (dim_part_RationalType t TP H). reflexivity. }
  rewrite E. reflexivity.
Qed.

Lemma unit_string_of_reduced_form_witness :
  instantiates (mk_Tag 1 1 0 2 0 1 0 1 0 1 0 1 0 1 0) = true /\
  unit_string (mk_Tag 1 1 0 2 0 1 0 1 0 1 0 1 0 1 0) = unit_string Meters.
Proof.
  split; [reflexivity|].
  rewrite <- (unit_string_of_reduced_form
                (mk_Tag 1 1 0 2 0 1 0 1 0 1 0 1 0 1 0) eq_refl).
  vm_compute. reflexivity.
Defined.

(** ** Accepted classes, reduced classes *)

Lemma static_assert_message_inj (TP TP' : unit_name) :
  static_assert_message TP = static_assert_message TP' -> TP = TP'.
Proof. destruct TP, TP'; simpl; intros H; try reflexivity; discriminate H. Qed.

Lemma norm_lowest_terms (x : Z * Z) :
  snd x <> 0 -> lowest_terms (fst (norm x)) (snd (norm x)) = true.
Proof.
  intros H. unfold lowest_terms, norm, pair_of; cbn [fst snd].
  pose proof (std_ratio_den_pos (fst x) (snd x) H) as Hpos.
  pose proof (std_ratio_coprime (fst x) (snd x) H) as Hco.
  apply Bool.andb_true_iff. split.
  - apply Z.ltb_lt. exact Hpos.
  - apply Z.eqb_eq. rewrite Z.gcd_abs_l. exact Hco.
Qed.

Lemma RationalType_lowest_terms (t : Tag) :
  (forall TP, t_d TP t <> 0) -> all_lowest_terms (RationalType t) = true.
Proof.
  intros H. apply all_lowest_terms_iff. intros TP.
  change (lowest_terms (fst (exponent TP (RationalType t)))
                       (snd (exponent TP (RationalType t))) = true).
  rewrite exponent_RationalType. apply norm_lowest_terms. apply H.
Qed.

Lemma RationalType_of_lowest_terms (t : Tag) :
  all_lowest_terms t = true -> RationalType t = t.
Proof.
  intros H. apply Tag_ext; [|reflexivity]. intros TP.
  rewrite exponent_RationalType. apply lowest_terms_norm.
  apply (proj1 (all_lowest_terms_iff t) H TP).
Qed.


Lemma div_type_lowest_terms (a b : Tag) :
  instantiates a = true -> instantiates b = true ->
  all_lowest_terms (div_type a b) = true.
Proof.
  intros Ha Hb. apply RationalType_lowest_terms. intros TP.
  change (snd (exponent TP (make_Tag (SUB_FRAC a b) (t_pref a - t_pref b)))
          <> 0).
  rewrite exponent_make_Tag. unfold SUB_FRAC, pair_of; cbn [snd].
  apply ratio_subtract_den; apply std_ratio_den;
    apply (instantiates_den _ TP); assumption.
Qed.



Lemma lowest_terms_gcd (n d : Z) :
  lowest_terms n d = true -> 0 < d /\ Z.gcd n d = 1.
Proof.
  unfold lowest_terms.
  rewrite Bool.andb_true_iff, Z.ltb_lt, Z.eqb_eq, Z.gcd_abs_l. tauto.
Qed.

Lemma reduced_tags_equal (a b : Tag) :
  all_lowest_terms a = true -> all_lowest_terms b = true ->
  (forall TP, same_value (exponent TP a) (exponent TP b)) ->
  t_pref a = t_pref b -> a = b.
Proof.
  intros Ha Hb Hv Hp. apply Tag_ext; [|exact Hp]. intros TP.
  destruct (lowest_terms_gcd _ _ (proj1 (all_lowest_terms_iff a) Ha TP))
    as [Pa Ga].
  destruct (lowest_terms_gcd _ _ (proj1 (all_lowest_terms_iff b) Hb TP))
    as [Pb Gb].
  specialize (Hv TP). unfold same_value, exponent in *; cbn [fst snd] in Hv.
  destruct (lowest_terms_unique _ _ _ _ Pa Pb Ga Gb Hv) as [-> ->].
  reflexivity.
Qed.

(** X10.  In lowest terms a dimension has one class: two quantities of
    reduced classes whose exponents have the same values and whose prefixes
    are equal have the same type, so their sum and their comparison build.
    It is not so for the classes accepted with a zero numerator: a
    dimensionless quantity with the meter exponent 0/2 cannot be added to
    one with 0/1. *)
Theorem same_dimension_same_type
  (T : Type) (ST : Storage T) (x y : RationalTypeReduced T) :
  all_lowest_terms (tag x) = true -> all_lowest_terms (tag y) = true ->
  (forall TP, same_value (exponent TP (tag x)) (exponent TP (tag y))) ->
  t_pref (tag x) = t_pref (tag y) ->
  tag x = tag y
  /\ type_of (operator_plus x y) = Some (tag x)
  /\ type_of (operator_minus x y) = Some (tag x)
  /\ operator_eq x y = Some (st_eqb (val x) (val y))
  /\ instantiates (mk_Tag 0 2 0 1 0 1 0 1 0 1 0 1 0 1 0) = true
  /\ operator_plus (mk_RTR (mk_Tag 0 2 0 1 0 1 0 1 0 1 0 1 0 1 0) 1)
                   (mk_RTR Scalar 1)
     = IllFormed.
Proof.
  intros Hx Hy Hv Hp.
  pose proof (reduced_tags_equal _ _ Hx Hy Hv Hp) as E.
  split; [exact E|].
  unfold operator_plus, operator_minus, operator_eq.
  rewrite E, Tag_eqb_refl.
  split; [destruct (st_add (val x) (val y)); reflexivity|].
  split; [destruct (st_sub (val x) (val y)); reflexivity|].
  repeat split.
Qed.

Lemma same_dimension_same_type_witness :
  all_lowest_terms Newtons = true /\
  all_lowest_terms (div_type (times_type Kilograms Meters) SecondsSq) = true /\
  type_of (operator_plus
             (mk_RTR Newtons 2)
             (mk_RTR (div_type (times_type Kilograms Meters) SecondsSq) 3))
  = Some Newtons.
Proof.
  split; [reflexivity|]. split; [reflexivity|].
  assert (Hv : forall TP,
             same_value
               (exponent TP Newtons)
               (exponent TP (div_type (times_type Kilograms Meters) SecondsSq)))
    by (intros TP; destruct TP; reflexivity).
  apply (same_dimension_same_type Z int_Storage
           (mk_RTR Newtons 2)
           (mk_RTR (div_type (times_type Kilograms Meters) SecondsSq) 3)
           eq_refl eq_refl Hv eq_refl).
Defined.

Lemma times_type_Scalar_l (t : Tag) :
  all_lowest_terms t = true -> times_type Scalar t = t.
Proof. intros H. rewrite times_type_comm. apply times_type_Scalar. exact H. Qed.

Lemma div_type_self (t : Tag) : instantiates t = true -> div_type t t = Scalar.
Proof.
  intros H. apply Tag_ext.
  - intros TP. pose proof (instantiates_den t TP H) as Hd.
    rewrite exponent_div_type, exponent_Scalar by exact Hd.
    rewrite subFrac_norm by exact Hd.
    change (0, 1) with (norm (0, 1)).
    apply norm_complete.
    + apply fsub_den; exact Hd.
    + cbn [snd]. lia.
    + unfold same_value, fsub; cbn [fst snd]. ring.
  - rewrite t_pref_div_type. change (t_pref Scalar) with 0. ring.
Qed.

Lemma div_times_cancel (a b : Tag) :
  all_lowest_terms a = true -> instantiates b = true ->
  div_type (times_type a b) b = a.
Proof.
  intros Ha Hb. pose proof (lowest_terms_instantiates a Ha) as Ia.
  rewrite (div_times_type a b b Ia Hb Hb), (div_type_self b Hb).
  apply times_type_Scalar. exact Ha.
Qed.

(** X12.  The table of named types builds as its names say: every unit
    and derived unit is instantiated, in lowest terms, with integer
    exponents and prefix 0; the prefixes from [Kilo] to [Yota] and from
    [Milli] to [Yocto] are dimensionless with the prefixes 3 to 24 and -3
    to -24, in steps of 3. *)
Theorem named_types_table :
  forallb
    (fun t =>
       instantiates t && all_lowest_terms t
       && forallb (fun TP => t_d TP t =? 1) ALL_UNITS && (t_pref t =? 0))
    named_units = true
  /\ prefixes_up = map (with_pref Scalar) [3; 6; 9; 12; 15; 18; 21; 24]
  /\ prefixes_down
     = map (with_pref Scalar) [-3; -6; -9; -12; -15; -18; -21; -24].
Proof. repeat split; vm_compute; reflexivity. Qed.

(** X13.  The derived units of the table satisfy the relations of physics:
    volts times amperes are watts, watts times seconds are joules, ohms
    times siemens and hertz times seconds are dimensionless, farads times
    ohms are seconds, henries are ohms times seconds, teslas times square
    meters are webers, pascals times square meters are newtons, coulombs
    per second are amperes, and a prefix times its opposite is [Scalar]. *)
Theorem derived_units_relations :
  times_type Volts Amperes = Watts
  /\ times_type Watts Seconds = Joules
  /\ times_type Ohms Siemens = Scalar
  /\ times_type Hertz Seconds = Scalar
  /\ times_type Farads Ohms = Seconds
  /\ times_type Ohms Seconds = Henry
  /\ times_type Tesla MetersSq = Webers
  /\ times_type Pascals MetersSq = Newtons
  /\ div_type Coulombs Seconds = Amperes
  /\ times_type Newtons Newtons = NewtonsSq
  /\ times_type MetersCu (div_type Scalar Meters) = MetersSq
  /\ map (fun p => times_type (fst p) (snd p))
         (combine prefixes_up prefixes_down)
     = map (fun _ => Scalar) prefixes_up.
Proof. repeat split; vm_compute; reflexivity. Qed.

(** ** Arithmetic with [int] and [float] storage *)

Lemma int_range_bounds :
  INT_MIN = - 2 ^ 31 /\ INT_MAX = 2 ^ 31 - 1.
Proof. split; reflexivity. Qed.

Lemma SFopp_involutive (x : spec_float) : SFopp (SFopp x) = x.
Proof. destruct x as [s|s| |s m e]; simpl; try rewrite Bool.negb_involutive; reflexivity. Qed.

(** X14.  Unary minus keeps the tag.  With [int] it negates the raw value
    of every quantity but the one holding [INT_MIN], for which it has no
    result; negating twice gives the quantity back, and [a + (-b)] is
    [a - b] whenever [-b] has a value.  With [float] it always has a value
    and negating twice gives the quantity back. *)
Theorem unary_minus (q : RationalTypeReduced Z) :
  INT_MIN <= val q <= INT_MAX ->
  (val q <> INT_MIN -> operator_neg q = Returns (mk_RTR (tag q) (- val q)))
  /\ (val q = INT_MIN -> operator_neg q = Undefined (tag q))
  /\ (forall nq, operator_neg q = Returns nq -> operator_neg nq = Returns q)
  /\ (forall a nq, operator_neg q = Returns nq ->
                   operator_plus a nq = operator_minus a q)
  /\ (forall f : RationalTypeReduced spec_float,
         exists nf, operator_neg f = Returns nf /\ tag nf = tag f
                    /\ operator_neg nf = Returns f).
Proof.
  intros Hr. unfold operator_neg; cbn [st_neg int_Storage].
  destruct int_range_bounds as [Emin Emax].
  split; [|split; [|split; [|split]]].
  - intros Hne. rewrite int_result_in_range by lia. reflexivity.
  - intros E. rewrite int_result_out_of_range by lia. reflexivity.
  - intros nq H.
    destruct (Z.eq_dec (val q) INT_MIN) as [E|E].
    + rewrite int_result_out_of_range in H by lia. discriminate H.
    + rewrite int_result_in_range in H by lia. injection H as <-.
      cbn [val tag]. rewrite Z.opp_involutive.
      rewrite int_result_in_range by lia. destruct q; reflexivity.
  - intros a nq H.
    destruct (Z.eq_dec (val q) INT_MIN) as [E|E].
    + rewrite int_result_out_of_range in H by lia. discriminate H.
    + rewrite int_result_in_range in H by lia. injection H as <-.
      unfold operator_plus, operator_minus; cbn [val tag st_add st_sub int_Storage].
      replace (val a + - val q) with (val a - val q) by ring. reflexivity.
  - intros f. exists (mk_RTR (tag f) (SFopp (val f))).
    cbn [st_neg float_Storage construct tag val].
    rewrite SFopp_involutive. destruct f; repeat split.
Qed.

Lemma unary_minus_witness :
  INT_MIN <= val (mk_RTR Meters 5) <= INT_MAX /\
  operator_neg (mk_RTR Meters 5) = Returns (mk_RTR Meters (-5)) /\
  operator_plus (mk_RTR Meters 7) (mk_RTR Meters (-5))
  = operator_minus (mk_RTR Meters 7) (mk_RTR Meters 5).
Proof.
  assert (Hr : INT_MIN <= val (mk_RTR Meters 5) <= INT_MAX)
    by (vm_compute; split; discriminate).
  destruct (unary_minus (mk_RTR Meters 5) Hr) as (Hn & _ & _ & Hs & _).
  assert (Hne : val (mk_RTR Meters 5) <> INT_MIN) by discriminate.
  split; [exact Hr|]. split; [apply Hn; exact Hne|].
  apply Hs. apply Hn. exact Hne.
Defined.


(** X16.  With [int] storage subtraction undoes addition and division
    undoes multiplication: if [a + b] has a value [c] then [c - b] is [a],
    and if [a * b] has a value [c], [b] is not 0 and the class of [a] is
    reduced, then [c / b] is [a], type and raw value. *)
Theorem int_inverse_operations (a b c : RationalTypeReduced Z) :
  INT_MIN <= val a <= INT_MAX ->
  (operator_plus a b = Returns c -> operator_minus c b = Returns a)
  /\ (operator_times a b = Returns c -> val b <> 0 ->
      all_lowest_terms (tag a) = true -> instantiates (tag b) = true ->
      operator_div c b = Returns a).
Proof.
  intros Hr. split.
  - unfold operator_plus, operator_minus; cbn [st_add st_sub int_Storage].
    destruct (Tag_eqb (tag a) (tag b)) eqn:E; [|discriminate].
    apply Tag_eqb_eq in E.
    destruct (int_result (val a + val b)) eqn:Ec; [|discriminate].
    intros H. injection H as <-. cbn [tag val].
    unfold int_result in Ec.
    destruct ((INT_MIN <=? val a + val b) && (val a + val b <=? INT_MAX));
      [|discriminate Ec].
    injection Ec as <-.
    rewrite E, Tag_eqb_refl.
    replace (val a + val b - val b) with (val a) by ring.
    rewrite int_result_in_range by exact Hr. rewrite <- E.
    destruct a; reflexivity.
  - unfold operator_times, operator_div; cbn [st_mul st_div int_Storage].
    destruct (int_result (val a * val b)) eqn:Ec; [|discriminate].
    intros H Hb HL Hi. injection H as <-. cbn [tag val].
    unfold int_result in Ec.
    destruct ((INT_MIN <=? val a * val b) && (val a * val b <=? INT_MAX));
      [|discriminate Ec].
    injection Ec as <-.
    destruct (Z.eqb_spec (val b) 0) as [E0|_]; [contradiction|].
    rewrite Z.quot_mul by exact Hb.
    rewrite int_result_in_range by exact Hr.
    rewrite (div_times_cancel (tag a) (tag b) HL Hi).
    destruct a; reflexivity.
Qed.

Lemma int_inverse_operations_witness :
  INT_MIN <= val (mk_RTR Newtons 6) <= INT_MAX /\
  operator_times (mk_RTR Newtons 6) (mk_RTR Meters 7)
  = Returns (mk_RTR Joules 42) /\
  operator_div (mk_RTR Joules 42) (mk_RTR Meters 7)
  = Returns (mk_RTR Newtons 6).
Proof.
  assert (Hr : INT_MIN <= val (mk_RTR Newtons 6) <= INT_MAX)
    by (vm_compute; split; discriminate).
  destruct (int_inverse_operations
              (mk_RTR Newtons 6) (mk_RTR Meters 7) (mk_RTR Joules 42) Hr)
    as (_ & Hd).
  split; [exact Hr|]. split; [reflexivity|].
  apply Hd; [reflexivity|discriminate|reflexivity|reflexivity].
Defined.

(** ** Conversions in sequence *)

Section ConversionSteps.

Context {T : Type} {ST : Storage T}.

Lemma operator_convert_rescale (pref2 : Z) (q : RationalTypeReduced T) :
  operator_convert pref2 q
  = Some (construct (with_pref (tag q) pref2)
                    (rescale (val q) (t_pref (tag q) - pref2))).
Proof. apply convert_with_rescale. apply Nat.le_refl. Qed.



Lemma with_pref_with_pref (t : Tag) (p p' : Z) :
  with_pref (with_pref t p) p' = with_pref t p'.
Proof. reflexivity. Qed.

End ConversionSteps.



Lemma pow10_pos (k : Z) : 0 <= k -> 0 < 10 ^ k.
Proof. intros H. apply Z.pow_pos_nonneg; lia. Qed.






(** X20.  With [int] storage a conversion never reverses the order of two
    quantities of one type: if [a] is at most [b] and both conversions to
    a prefix have a value, the converted [a] is at most the converted [b],
    they have the same type, and [b < a] is false after the conversion
    (distinct values can become equal). *)
Theorem int_conversion_monotone
  (a b qa qb : RationalTypeReduced Z) (pref2 : Z) :
  tag a = tag b ->
  INT_MIN <= val a <= INT_MAX -> INT_MIN <= val b <= INT_MAX ->
  val a <= val b ->
  operator_convert pref2 a = Some (Returns qa) ->
  operator_convert pref2 b = Some (Returns qb) ->
  tag qa = tag qb /\ val qa <= val qb /\ operator_lt qb qa = Some false.
Proof.
  intros Et Ha Hb Hab Ca Cb.
  rewrite operator_convert_rescale in Ca, Cb.
  rewrite int_rescale_power in Ca by exact Ha.
  rewrite int_rescale_power in Cb by exact Hb.
  rewrite <- Et in Cb.
  assert (Hv : tag qa = tag qb /\ val qa <= val qb).
  { destruct (Z.ltb_spec 0 (t_pref (tag a) - pref2)) as [Hk|Hk].
    - assert (Hpow : 0 < 10 ^ (t_pref (tag a) - pref2))
        by (apply pow10_pos; lia).
      unfold int_result in Ca, Cb.
      destruct ((INT_MIN <=? _) && (_ <=? INT_MAX)) in Ca; [|discriminate Ca].
      destruct ((INT_MIN <=? _) && (_ <=? INT_MAX)) in Cb; [|discriminate Cb].
      cbn [construct] in Ca, Cb.
      injection Ca as <-. injection Cb as <-. cbn [tag val].
      split; [reflexivity|]. apply Z.mul_le_mono_nonneg_r; lia.
    - assert (Hpow : 0 < 10 ^ (- (t_pref (tag a) - pref2)))
        by (apply pow10_pos; lia).
      cbn [construct] in Ca, Cb.
      injection Ca as <-. injection Cb as <-. cbn [tag val].
      split; [reflexivity|]. apply Z.quot_le_mono; lia. }
  destruct Hv as [Etq Hle]. split; [exact Etq|]. split; [exact Hle|].
  unfold operator_lt. rewrite Etq, Tag_eqb_refl. cbn [st_ltb int_Storage].
  f_equal. apply Z.ltb_ge. exact Hle.
Qed.

Lemma int_conversion_monotone_witness :
  tag (mk_RTR Meters 5) = tag (mk_RTR Meters 7) /\
  INT_MIN <= val (mk_RTR Meters 5) <= INT_MAX /\
  INT_MIN <= val (mk_RTR Meters 7) <= INT_MAX /\
  val (mk_RTR Meters 5) <= val (mk_RTR Meters 7) /\
  operator_convert 3 (mk_RTR Meters 5)
  = Some (Returns (mk_RTR (with_pref Meters 3) 0)) /\
  operator_convert 3 (mk_RTR Meters 7)
  = Some (Returns (mk_RTR (with_pref Meters 3) 0)) /\
  operator_lt (mk_RTR (with_pref Meters 3) 0) (mk_RTR (with_pref Meters 3) 0)
  = Some false.
Proof.
  assert (H5 : INT_MIN <= val (mk_RTR Meters 5) <= INT_MAX)
    by (vm_compute; split; discriminate).
  assert (H7 : INT_MIN <= val (mk_RTR Meters 7) <= INT_MAX)
    by (vm_compute; split; discriminate).
  assert (Hle : val (mk_RTR Meters 5) <= val (mk_RTR Meters 7))
    by (vm_compute; discriminate).
  split; [reflexivity|]. split; [exact H5|]. split; [exact H7|].
  split; [exact Hle|]. split; [reflexivity|]. split; [reflexivity|].
  apply (int_conversion_monotone
           (mk_RTR Meters 5) (mk_RTR Meters 7)
           (mk_RTR (with_pref Meters 3) 0) (mk_RTR (with_pref Meters 3) 0) 3
           eq_refl H5 H7 Hle eq_refl eq_refl).
Defined.

(** X21.  For a storage type whose [==] is an equivalence and whose [<] is
    a strict total order, the six comparisons of two quantities of one type
    are tied together: [a <= b] is the negation of [a > b], [a >= b] is
    the negation of [a < b] and is [b <= a], [a > b] is [b < a], and
    [a <= b] with [b <= a] gives [a == b].  With [float] a NaN breaks the
    first tie: it is neither [<=] nor [>] a number. *)
Theorem comparison_relations
  (T : Type) (ST : Storage T) (a b : RationalTypeReduced T) :
  ordered_storage T -> tag a = tag b ->
  operator_le a b = option_map negb (operator_gt a b)
  /\ operator_ge a b = option_map negb (operator_lt a b)
  /\ operator_ge a b = operator_le b a
  /\ operator_gt a b = operator_lt b a
  /\ (operator_le a b = Some true -> operator_le b a = Some true ->
      operator_eq a b = Some true)
  /\ operator_le (mk_RTR Meters S754_nan) (mk_RTR Meters (float_of_Z 1))
     = Some false
  /\ operator_gt (mk_RTR Meters S754_nan) (mk_RTR Meters (float_of_Z 1))
     = Some false.
Proof.
  intros O E.
  destruct (comparisons_same_tag a b E) as (Heq & Hlt & _ & Hle & Hgt & Hge).
  destruct (comparisons_same_tag b a (eq_sym E))
    as (Heq' & Hlt' & _ & Hle' & _ & _).
  rewrite Heq, Hlt, Hle, Hgt, Hge, Hle', Hlt'. cbn [option_map].
  assert (Hasym : st_ltb (val a) (val b) = true ->
                  st_ltb (val b) (val a) = false).
  { intros H. destruct (st_ltb (val b) (val a)) eqn:H'; [|reflexivity].
    pose proof (st_ltb_trans O _ _ _ H H') as Haa.
    rewrite (st_ltb_irrefl O) in Haa. discriminate Haa. }
  assert (Hle_gt : (st_ltb (val a) (val b) || st_eqb (val a) (val b))%bool
                   = negb (st_ltb (val b) (val a))).
  { destruct (st_ltb (val a) (val b)) eqn:Hab.
    - rewrite (Hasym eq_refl). reflexivity.
    - destruct (st_eqb (val a) (val b)) eqn:Eab.
      + destruct (st_ltb (val b) (val a)) eqn:Hba; [|reflexivity].
        pose proof (st_ltb_not_eqb O _ _ Hba) as N.
        rewrite (st_eqb_sym O) in N. rewrite N in Eab. discriminate Eab.
      + destruct (st_ltb_total O (val a) (val b)) as [H|[H|H]];
          try congruence. rewrite H. reflexivity. }
  assert (Hge_lt : (st_ltb (val b) (val a) || st_eqb (val a) (val b))%bool
                   = negb (st_ltb (val a) (val b))).
  { destruct (st_ltb (val b) (val a)) eqn:Hba.
    - destruct (st_ltb (val a) (val b)) eqn:Hab; [|reflexivity].
      discriminate (Hasym eq_refl).
    - destruct (st_eqb (val a) (val b)) eqn:Eab.
      + destruct (st_ltb (val a) (val b)) eqn:Hab; [|reflexivity].
        rewrite (st_ltb_not_eqb O _ _ Hab) in Eab. discriminate Eab.
      + destruct (st_ltb_total O (val a) (val b)) as [H|[H|H]];
          try congruence. rewrite H. reflexivity. }
  split; [f_equal; exact Hle_gt|].
  split; [f_equal; exact Hge_lt|].
  split; [rewrite (st_eqb_sym O (val b) (val a)); reflexivity|].
  split; [reflexivity|].
  split; [|split; reflexivity].
  intros H1 H2. injection H1 as H1. injection H2 as H2. f_equal.
  destruct (st_eqb (val a) (val b)) eqn:Eab; [reflexivity|].
  rewrite Bool.orb_false_r in H1.
  rewrite (st_eqb_sym O), Eab, Bool.orb_false_r in H2.
  rewrite (Hasym H1) in H2. discriminate H2.
Qed.

Lemma comparison_relations_witness :
  ordered_storage Z /\ tag (mk_RTR Meters 2) = tag (mk_RTR Meters 3) /\
  operator_le (mk_RTR Meters 2) (mk_RTR Meters 3)
  = option_map negb (operator_gt (mk_RTR Meters 2) (mk_RTR Meters 3)) /\
  operator_ge (mk_RTR Meters 2) (mk_RTR Meters 3)
  = operator_le (mk_RTR Meters 3) (mk_RTR Meters 2).
Proof.
  destruct (comparison_relations Z int_Storage
              (mk_RTR Meters 2) (mk_RTR Meters 3)
              int_ordered_storage eq_refl) as (H1 & _ & H3 & _).
  split; [exact int_ordered_storage|]. split; [reflexivity|].
  split; [exact H1|exact H3].
Defined.

(** ** Scalars and compound assignment at every prefix *)

(** X22.  For every quantity [q] and bare number [s]: [q * s] and [s * q]
    have the type of [q]; [q / s] and [s / q] have prefix 0 whatever the
    prefix of [q]; when the prefix of [q] is 0 they are the quotients with
    [s] wrapped as a dimensionless quantity of prefix 0, and when moreover
    the class of [q] is reduced so is [q * s] the product. *)
Theorem scalar_operators_types
  (T : Type) (ST : Storage T) (q : RationalTypeReduced T) (s : T) :
  type_of (operator_times_S q s) = Some (tag q)
  /\ type_of (S_operator_times s q) = Some (tag q)
  /\ (exists t, type_of (operator_div_S q s) = Some t /\ t_pref t = 0)
  /\ (exists t, type_of (S_operator_div s q) = Some t /\ t_pref t = 0)
  /\ (t_pref (tag q) = 0 ->
      operator_div_S q s = operator_div q (mk_RTR Scalar s)
      /\ S_operator_div s q = operator_div (mk_RTR Scalar s) q)
  /\ (all_lowest_terms (tag q) = true ->
      operator_times_S q s = operator_times q (mk_RTR Scalar s)).
Proof.
  split; [|split; [|split; [|split; [|split]]]].
  - unfold operator_times_S. destruct (st_mul (val q) s); reflexivity.
  - unfold S_operator_times, operator_times_S.
    destruct (st_mul (val q) s); reflexivity.
  - eexists. split.
    + unfold operator_div_S. apply type_of_operator_div.
    + rewrite t_pref_div_type. cbn [tag t_pref ScalarType]. ring.
  - eexists. split.
    + unfold S_operator_div. apply type_of_operator_div.
    + rewrite t_pref_div_type. cbn [tag t_pref ScalarType]. ring.
  - apply operator_div_S_wraps_at_prefix_0.
  - apply operator_times_S_wraps.
Qed.

(** X23.  The compound assignments build as follows.  [a += b] and
    [a -= b] for [b] of the type of [a], and [a *= s] for a number [s],
    are the binary operators at every prefix.  [a /= s] for a number and
    [a *= r], [a /= r] for [r] of [a]'s [ScalarType] do not build when the
    prefix of [a] is not 0; when it is 0 and the class of [a] is reduced
    they are the binary operators. *)
Theorem compound_assignment_builds
  (T : Type) (ST : Storage T) (a b r : RationalTypeReduced T) (s : T) :
  (tag b = tag a ->
   operator_plus_assign a b = operator_plus a b
   /\ operator_minus_assign a b = operator_minus a b)
  /\ operator_times_assign_T a s = operator_times_S a s
  /\ (t_pref (tag a) <> 0 ->
      operator_div_assign_T a s = IllFormed
      /\ operator_times_assign_Scalar a r = IllFormed
      /\ operator_div_assign_Scalar a r = IllFormed)
  /\ (all_lowest_terms (tag a) = true -> t_pref (tag a) = 0 ->
      tag r = ScalarType (tag a) ->
      operator_div_assign_T a s = operator_div_S a s
      /\ operator_times_assign_Scalar a r = operator_times a r
      /\ operator_div_assign_Scalar a r = operator_div a r).
Proof.
  split; [|split; [|split]].
  - apply operator_plus_assign_plus.
  - apply operator_times_assign_T_times.
  - apply assign_at_other_prefix.
  - apply assign_at_prefix_0.
Qed.

(** ** The range of the template arguments *)

Lemma intmax_t_iff (z : Z) :
  intmax_t z = true <-> INTMAX_MIN <= z <= INTMAX_MAX.
Proof.
  unfold intmax_t. rewrite Bool.andb_true_iff, !Z.leb_le. tauto.
Qed.

Lemma ratio_well_formed_iff (N D : Z) :
  ratio_well_formed N D = true <->
  INTMAX_MIN < N <= INTMAX_MAX /\ INTMAX_MIN < D <= INTMAX_MAX /\ D <> 0.
Proof.
  unfold ratio_well_formed.
  rewrite !Bool.andb_true_iff, !Bool.negb_true_iff, !intmax_t_iff, !Z.eqb_neq.
  lia.
Qed.

Lemma ratio_well_formed_den (N D : Z) : ratio_well_formed N D = true -> D <> 0.
Proof. intros H. apply ratio_well_formed_iff in H. tauto. Qed.

(** Reducing brings a fraction closer to zero. *)
Lemma std_ratio_bounds (N D : Z) :
  D <> 0 ->
  Z.abs (num (std_ratio N D)) <= Z.abs N
  /\ 0 < den (std_ratio N D) <= Z.abs D.
Proof.
  intros HD.
  pose proof (std_ratio_num_mul N D HD) as Hn.
  pose proof (std_ratio_den_mul N D HD) as Hd.
  pose proof (std_ratio_den_pos N D HD) as Hpos.
  pose proof (gcd_pos_r N D HD) as Hg.
  set (g := Z.gcd N D) in *.
  set (n' := num (std_ratio N D)) in *.
  set (d' := den (std_ratio N D)) in *.
  assert (Habs : Z.abs n' * g = Z.abs N).
  { assert (E : Z.abs (n' * g) = Z.abs (Z.sgn D * N))
      by (rewrite Hn; reflexivity).
    rewrite !Z.abs_mul, (Z.abs_eq g) in E by lia. rewrite E.
    destruct (Z.sgn_spec D) as [[? S]|[[? S]|[? S]]]; rewrite S.
    - change (Z.abs 1) with 1. lia.
    - lia.
    - change (Z.abs (-1)) with 1. lia. }
  pose proof (Z.abs_nonneg n'). split; [nia|]. split; [exact Hpos|nia].
Qed.

Lemma ratio_well_formed_std_ratio (N D : Z) :
  ratio_well_formed N D = true ->
  ratio_well_formed (num (std_ratio N D)) (den (std_ratio N D)) = true.
Proof.
  intros H. apply ratio_well_formed_iff in H. destruct H as (HN & HD & H0).
  destruct (std_ratio_bounds N D H0) as (Bn & Bd).
  apply ratio_well_formed_iff. unfold INTMAX_MIN, INTMAX_MAX in *. lia.
Qed.

Lemma class_builds_iff (t : Tag) :
  class_builds t = true <->
  (forall TP,
      ratio_well_formed (t_n TP t) (t_d TP t) = true
      /\ static_assert_holds TP t = true)
  /\ intmax_t (t_pref t) = true.
Proof.
  unfold class_builds. rewrite Bool.andb_true_iff, forallb_forall. split.
  - intros [H Hp]. split; [|exact Hp]. intros TP.
    apply Bool.andb_true_iff. apply H. apply In_ALL_UNITS.
  - intros [H Hp]. split; [|exact Hp]. intros TP _.
    apply Bool.andb_true_iff. apply H.
Qed.

Lemma class_builds_instantiates (t : Tag) :
  class_builds t = true -> instantiates t = true.
Proof.
  intros H. apply class_builds_iff in H. destruct H as [H _].
  apply instantiates_iff. intros TP. destruct (H TP) as [Hw Ha].
  split; [exact (ratio_well_formed_den _ _ Hw)|exact Ha].
Qed.

Lemma class_builds_ratio (t : Tag) (TP : unit_name) :
  class_builds t = true -> ratio_well_formed (t_n TP t) (t_d TP t) = true.
Proof. intros H. apply class_builds_iff in H. apply H. Qed.

(** The exponents of a result type are the [ADD_FRAC], respectively
    [SUB_FRAC], themselves: the [std::ratio] of [RationalType] finds them
    reduced. *)
Lemma exponent_times_type_ADD_FRAC (TP : unit_name) (a b : Tag) :
  t_d TP a <> 0 -> t_d TP b <> 0 ->
  exponent TP (times_type a b) = pair_of (ADD_FRAC a b TP).
Proof.
  intros Ha Hb. unfold times_type.
  rewrite exponent_RationalType, exponent_make_Tag.
  unfold ADD_FRAC, ratio_add, norm, pair_of; cbn [fst snd].
  rewrite std_ratio_idem; [reflexivity|].
  pose proof (std_ratio_den_pos (t_n TP a) (t_d TP a) Ha).
  pose proof (std_ratio_den_pos (t_n TP b) (t_d TP b) Hb).
  apply Z.neq_mul_0. split; lia.
Qed.

Lemma exponent_div_type_SUB_FRAC (TP : unit_name) (a b : Tag) :
  t_d TP a <> 0 -> t_d TP b <> 0 ->
  exponent TP (div_type a b) = pair_of (SUB_FRAC a b TP).
Proof.
  intros Ha Hb. unfold div_type.
  rewrite exponent_RationalType, exponent_make_Tag.
  unfold SUB_FRAC, ratio_subtract, norm, pair_of; cbn [fst snd].
  rewrite std_ratio_idem; [reflexivity|].
  pose proof (std_ratio_den_pos (t_n TP a) (t_d TP a) Ha).
  pose proof (std_ratio_den_pos (t_n TP b) (t_d TP b) Hb).
  apply Z.neq_mul_0. split; lia.
Qed.

Lemma times_type_built_iff (a b t : Tag) :
  times_type_built a b = Some t <->
  t = times_type a b
  /\ (forall TP, ADD_FRAC_well_formed a b TP = true)
  /\ intmax_t (t_pref a + t_pref b) = true.
Proof.
  unfold times_type_built.
  destruct (forallb (ADD_FRAC_well_formed a b) ALL_UNITS) eqn:Ef; simpl.
  - destruct (intmax_t (t_pref a + t_pref b)) eqn:Ep.
    + split.
      * intros H. injection H as <-. split; [reflexivity|]. split; [|reflexivity].
        intros TP. apply (proj1 (forallb_forall _ _) Ef). apply In_ALL_UNITS.
      * intros (-> & _). reflexivity.
    + split; [discriminate|]. intros (_ & _ & H). discriminate H.
  - split; [discriminate|]. intros (_ & H & _).
    assert (E : forallb (ADD_FRAC_well_formed a b) ALL_UNITS = true)
      by (apply forallb_forall; intros TP _; apply H).
    rewrite E in Ef. discriminate Ef.
Qed.

Lemma div_type_built_iff (a b t : Tag) :
  div_type_built a b = Some t <->
  t = div_type a b
  /\ (forall TP, SUB_FRAC_well_formed a b TP = true)
  /\ intmax_t (t_pref a - t_pref b) = true.
Proof.
  unfold div_type_built.
  destruct (forallb (SUB_FRAC_well_formed a b) ALL_UNITS) eqn:Ef; simpl.
  - destruct (intmax_t (t_pref a - t_pref b)) eqn:Ep.
    + split.
      * intros H. injection H as <-. split; [reflexivity|]. split; [|reflexivity].
        intros TP. apply (proj1 (forallb_forall _ _) Ef). apply In_ALL_UNITS.
      * intros (-> & _). reflexivity.
    + split; [discriminate|]. intros (_ & _ & H). discriminate H.
  - split; [discriminate|]. intros (_ & H & _).
    assert (E : forallb (SUB_FRAC_well_formed a b) ALL_UNITS = true)
      by (apply forallb_forall; intros TP _; apply H).
    rewrite E in Ef. discriminate Ef.
Qed.

Lemma ADD_FRAC_well_formed_parts (a b : Tag) (TP : unit_name) :
  ADD_FRAC_well_formed a b TP = true ->
  ratio_well_formed (t_n TP a) (t_d TP a) = true
  /\ ratio_well_formed (t_n TP b) (t_d TP b) = true
  /\ ratio_well_formed (num (ADD_FRAC a b TP)) (den (ADD_FRAC a b TP)) = true.
Proof.
  unfold ADD_FRAC_well_formed. rewrite !Bool.andb_true_iff. tauto.
Qed.

Lemma SUB_FRAC_well_formed_parts (a b : Tag) (TP : unit_name) :
  SUB_FRAC_well_formed a b TP = true ->
  ratio_well_formed (t_n TP a) (t_d TP a) = true
  /\ ratio_well_formed (t_n TP b) (t_d TP b) = true
  /\ ratio_well_formed (num (SUB_FRAC a b TP)) (den (SUB_FRAC a b TP)) = true.
Proof.
  unfold SUB_FRAC_well_formed. rewrite !Bool.andb_true_iff. tauto.
Qed.

(** A class whose exponents are well formed reduced fractions builds. *)
Lemma class_builds_of_reduced (t : Tag) :
  (forall TP, ratio_well_formed (t_n TP t) (t_d TP t) = true) ->
  all_lowest_terms t = true -> intmax_t (t_pref t) = true ->
  class_builds t = true.
Proof.
  intros Hw HL Hp. apply class_builds_iff. split; [|exact Hp].
  intros TP. split; [apply Hw|].
  apply (static_assert_holds_iff TP t (ratio_well_formed_den _ _ (Hw TP))).
  right. apply (proj1 (all_lowest_terms_iff t) HL).
Qed.

(** A result type that is well formed is the type of a class that builds. *)
Lemma times_type_built_builds (a b t : Tag) :
  times_type_built a b = Some t -> class_builds t = true.
Proof.
  intros H. apply times_type_built_iff in H. destruct H as (-> & Hw & Hp).
  assert (Hd : forall TP, t_d TP a <> 0 /\ t_d TP b <> 0).
  { intros TP. destruct (ADD_FRAC_well_formed_parts a b TP (Hw TP))
      as (Ha & Hb & _).
    split; eapply ratio_well_formed_den; eassumption. }
  apply class_builds_of_reduced.
  - intros TP. destruct (Hd TP) as [Ha Hb].
    pose proof (exponent_times_type_ADD_FRAC TP a b Ha Hb) as E.
    unfold exponent, pair_of in E. injection E as -> ->.
    apply (ADD_FRAC_well_formed_parts a b TP (Hw TP)).
  - apply RationalType_lowest_terms. intros TP. destruct (Hd TP) as [Ha Hb].
    change (snd (exponent TP (make_Tag (ADD_FRAC a b) (t_pref a + t_pref b)))
            <> 0).
    rewrite exponent_make_Tag. unfold ADD_FRAC, pair_of; cbn [snd].
    apply ratio_add_den; apply std_ratio_den; assumption.
  - exact Hp.
Qed.

Lemma div_type_built_builds (a b t : Tag) :
  div_type_built a b = Some t -> class_builds t = true.
Proof.
  intros H. apply div_type_built_iff in H. destruct H as (-> & Hw & Hp).
  assert (Hd : forall TP, t_d TP a <> 0 /\ t_d TP b <> 0).
  { intros TP. destruct (SUB_FRAC_well_formed_parts a b TP (Hw TP))
      as (Ha & Hb & _).
    split; eapply ratio_well_formed_den; eassumption. }
  apply class_builds_of_reduced.
  - intros TP. destruct (Hd TP) as [Ha Hb].
    pose proof (exponent_div_type_SUB_FRAC TP a b Ha Hb) as E.
    unfold exponent, pair_of in E. injection E as -> ->.
    apply (SUB_FRAC_well_formed_parts a b TP (Hw TP)).
  - apply RationalType_lowest_terms. intros TP. destruct (Hd TP) as [Ha Hb].
    change (snd (exponent TP (make_Tag (SUB_FRAC a b) (t_pref a - t_pref b)))
            <> 0).
    rewrite exponent_make_Tag. unfold SUB_FRAC, pair_of; cbn [snd].
    apply ratio_subtract_den; apply std_ratio_den; assumption.
  - exact Hp.
Qed.

(** Sums and differences that are in range unreduced are well formed. *)
Lemma times_in_range_built (a b : Tag) :
  times_in_range a b = true -> times_type_built a b = Some (times_type a b).
Proof.
  unfold times_in_range. rewrite Bool.andb_true_iff, forallb_forall.
  intros [H Hp]. apply times_type_built_iff.
  split; [reflexivity|]. split; [|exact Hp].
  intros TP. specialize (H TP (In_ALL_UNITS TP)).
  unfold ADD_FRAC_in_range in H. rewrite !Bool.andb_true_iff in H.
  destruct H as [[Ha Hb] Hs].
  unfold ADD_FRAC_well_formed. rewrite Ha, Hb. simpl.
  unfold ADD_FRAC, ratio_add. apply ratio_well_formed_std_ratio. exact Hs.
Qed.

Lemma div_in_range_built (a b : Tag) :
  div_in_range a b = true -> div_type_built a b = Some (div_type a b).
Proof.
  unfold div_in_range. rewrite Bool.andb_true_iff, forallb_forall.
  intros [H Hp]. apply div_type_built_iff.
  split; [reflexivity|]. split; [|exact Hp].
  intros TP. specialize (H TP (In_ALL_UNITS TP)).
  unfold SUB_FRAC_in_range in H. rewrite !Bool.andb_true_iff in H.
  destruct H as [[Ha Hb] Hs].
  unfold SUB_FRAC_well_formed. rewrite Ha, Hb. simpl.
  unfold SUB_FRAC, ratio_subtract. apply ratio_well_formed_std_ratio. exact Hs.
Qed.

(** ** Multiplication and division of quantities, with the build *)

(** C5.  The product of two quantities whose classes build.  The type of
    the product is well formed when the seven reduced sums of exponents are
    well formed [std::ratio] and the sum of the prefixes is an [intmax_t],
    and not otherwise; every implementation builds it when the sums are in
    range before they are reduced.  When the product builds, its Dimension
    Vector is the component-wise reduced sum of the exponents
    (combine-under-multiply), its prefix the sum of the prefixes, its class
    builds, and its raw value is the product of the raw values in the
    storage type.  When a sum is not representable, as the sum of the
    prefixes [INTMAX_MAX] and 3, the product does not build.  A length of 3
    times a length of 2 is the value 6 whose Dimension Vector is length
    2/1, the type of the area alias [MetersSq]. *)
Theorem operator_times_built_combines
  (T : Type) (ST : Storage T) (a b : RationalTypeReduced T) :
  class_builds (tag a) = true -> class_builds (tag b) = true ->
  (forall t,
      times_type_built (tag a) (tag b) = Some t ->
      DimensionVector t
      = combine_under_multiply (DimensionVector (tag a))
                               (DimensionVector (tag b))
      /\ t_pref t = t_pref (tag a) + t_pref (tag b)
      /\ class_builds t = true
      /\ (forall v, st_mul (val a) (val b) = Some v ->
                    operator_times_built a b = Returns (mk_RTR t v))
      /\ (st_mul (val a) (val b) = None ->
          operator_times_built a b = Undefined t))
  /\ (times_in_range (tag a) (tag b) = true ->
      times_type_built (tag a) (tag b) = Some (times_type (tag a) (tag b)))
  /\ (times_type_built (tag a) (tag b) = None ->
      operator_times_built a b = IllFormed)
  /\ (times_type_built (tag a) (tag b) = Some (times_type (tag a) (tag b))
      <-> (forall TP,
              ratio_well_formed (num (ADD_FRAC (tag a) (tag b) TP))
                                (den (ADD_FRAC (tag a) (tag b) TP)) = true)
          /\ intmax_t (t_pref (tag a) + t_pref (tag b)) = true)
  /\ (intmax_t (t_pref (tag a) + t_pref (tag b)) = false ->
      times_type_built (tag a) (tag b) = None)
  /\ operator_times_built (mk_RTR Meters 3) (mk_RTR Meters 2)
     = Returns (mk_RTR MetersSq 6)
  /\ DimensionVector MetersSq
     = [(2, 1); (0, 1); (0, 1); (0, 1); (0, 1); (0, 1); (0, 1)].
Proof.
  intros Ha Hb.
  split; [|split; [|split; [|split; [|split; [|split]]]]].
  - intros t Ht. pose proof (times_type_built_builds _ _ _ Ht) as Hbuilds.
    unfold operator_times_built. rewrite Ht.
    apply times_type_built_iff in Ht. destruct Ht as (-> & _ & _).
    split; [|split; [reflexivity|split; [exact Hbuilds|split]]].
    + apply DimensionVector_times_type; apply class_builds_instantiates;
        assumption.
    + intros v Hv. rewrite Hv. reflexivity.
    + intros Hv. rewrite Hv. reflexivity.
  - apply times_in_range_built.
  - intros H. unfold operator_times_built. rewrite H. reflexivity.
  - rewrite times_type_built_iff. split.
    + intros (_ & Hwf & Hp). split; [|exact Hp].
      intros TP. apply (ADD_FRAC_well_formed_parts _ _ _ (Hwf TP)).
    + intros (Hwf & Hp). split; [reflexivity|]. split; [|exact Hp].
      intros TP. unfold ADD_FRAC_well_formed.
      rewrite (class_builds_ratio _ TP Ha), (class_builds_ratio _ TP Hb).
      exact (Hwf TP).
  - intros H. unfold times_type_built. rewrite H, Bool.andb_false_r.
    reflexivity.
  - vm_compute. reflexivity.
  - vm_compute. reflexivity.
Qed.

Lemma operator_times_built_combines_witness :
  class_builds Meters = true /\
  times_type_built Meters Meters = Some MetersSq /\
  DimensionVector MetersSq
  = combine_under_multiply (DimensionVector Meters) (DimensionVector Meters)
  /\ operator_times_built (mk_RTR Meters 3) (mk_RTR Meters 2)
     = Returns (mk_RTR MetersSq 6).
Proof.
  assert (Hc : class_builds Meters = true) by (vm_compute; reflexivity).
  assert (Ht : times_type_built Meters Meters = Some MetersSq)
    by (vm_compute; reflexivity).
  destruct (operator_times_built_combines Z int_Storage
              (mk_RTR Meters 3) (mk_RTR Meters 2) Hc Hc) as (H & _).
  destruct (H MetersSq Ht) as (HD & _ & _ & Hv & _).
  split; [exact Hc|]. split; [exact Ht|]. split; [exact HD|].
  apply Hv. reflexivity.
Defined.

(** The product of a quantity of prefix [INTMAX_MAX] and one of prefix 3
    does not build, although both classes do. *)
Lemma product_prefix_overflow :
  class_builds (with_pref Meters INTMAX_MAX) = true
  /\ class_builds (with_pref Meters 3) = true
  /\ operator_times_built (mk_RTR (with_pref Meters INTMAX_MAX) 3)
                          (mk_RTR (with_pref Meters 3) 2)
     = IllFormed.
Proof. repeat split; vm_compute; reflexivity. Qed.

(** C6.  The quotient of two quantities whose classes build.  The type of
    the quotient is well formed when the seven reduced differences of
    exponents are well formed [std::ratio] and the difference of the
    prefixes is an [intmax_t], and not otherwise; every implementation
    builds it when the differences are in range before they are reduced.
    When the quotient builds, its Dimension Vector is the component-wise
    reduced difference of the exponents (combine-under-divide), its prefix
    the difference of the prefixes, its class builds, and its raw value is
    the quotient of the raw values by the division of the storage type,
    nothing checked: with [int] a zero divisor leaves the quotient
    undefined, with [float] it gives an infinity or a NaN.  When a
    difference is not representable, as the difference of the prefixes
    [INTMAX_MIN] and 1, the quotient does not build. *)
Theorem operator_div_built_combines
  (T : Type) (ST : Storage T) (a b : RationalTypeReduced T) :
  class_builds (tag a) = true -> class_builds (tag b) = true ->
  (forall t,
      div_type_built (tag a) (tag b) = Some t ->
      DimensionVector t
      = combine_under_divide (DimensionVector (tag a))
                             (DimensionVector (tag b))
      /\ t_pref t = t_pref (tag a) - t_pref (tag b)
      /\ class_builds t = true
      /\ (forall v, st_div (val a) (val b) = Some v ->
                    operator_div_built a b = Returns (mk_RTR t v))
      /\ (st_div (val a) (val b) = None ->
          operator_div_built a b = Undefined t))
  /\ (div_in_range (tag a) (tag b) = true ->
      div_type_built (tag a) (tag b) = Some (div_type (tag a) (tag b)))
  /\ (div_type_built (tag a) (tag b) = None ->
      operator_div_built a b = IllFormed)
  /\ (div_type_built (tag a) (tag b) = Some (div_type (tag a) (tag b))
      <-> (forall TP,
              ratio_well_formed (num (SUB_FRAC (tag a) (tag b) TP))
                                (den (SUB_FRAC (tag a) (tag b) TP)) = true)
          /\ intmax_t (t_pref (tag a) - t_pref (tag b)) = true)
  /\ (intmax_t (t_pref (tag a) - t_pref (tag b)) = false ->
      div_type_built (tag a) (tag b) = None)
  /\ operator_div_built (mk_RTR Meters 1) (mk_RTR Seconds 0)
     = Undefined (div_type Meters Seconds)
  /\ operator_div_built (mk_RTR Meters (float_of_Z 1))
                        (mk_RTR Seconds (float_of_Z 0))
     = Returns (mk_RTR (div_type Meters Seconds) (S754_infinity false))
  /\ operator_div_built (mk_RTR Meters (float_of_Z 0))
                        (mk_RTR Seconds (float_of_Z 0))
     = Returns (mk_RTR (div_type Meters Seconds) S754_nan).
Proof.
  intros Ha Hb.
  split; [|split; [|split; [|split; [|split; [|split; [|split]]]]]].
  - intros t Ht. pose proof (div_type_built_builds _ _ _ Ht) as Hbuilds.
    unfold operator_div_built. rewrite Ht.
    apply div_type_built_iff in Ht. destruct Ht as (-> & _ & _).
    split; [|split; [reflexivity|split; [exact Hbuilds|split]]].
    + apply DimensionVector_div_type; apply class_builds_instantiates;
        assumption.
    + intros v Hv. rewrite Hv. reflexivity.
    + intros Hv. rewrite Hv. reflexivity.
  - apply div_in_range_built.
  - intros H. unfold operator_div_built. rewrite H. reflexivity.
  - rewrite div_type_built_iff. split.
    + intros (_ & Hwf & Hp). split; [|exact Hp].
      intros TP. apply (SUB_FRAC_well_formed_parts _ _ _ (Hwf TP)).
    + intros (Hwf & Hp). split; [reflexivity|]. split; [|exact Hp].
      intros TP. unfold SUB_FRAC_well_formed.
      rewrite (class_builds_ratio _ TP Ha), (class_builds_ratio _ TP Hb).
      exact (Hwf TP).
  - intros H. unfold div_type_built. rewrite H, Bool.andb_false_r.
    reflexivity.
  - vm_compute. reflexivity.
  - vm_compute. reflexivity.
  - vm_compute. reflexivity.
Qed.

Lemma operator_div_built_combines_witness :
  class_builds Newtons = true /\ class_builds MetersSq = true /\
  div_type_built Newtons MetersSq = Some Pascals /\
  DimensionVector Pascals
  = [(-1, 1); (-2, 1); (1, 1); (0, 1); (0, 1); (0, 1); (0, 1)]
  /\ operator_div_built (mk_RTR Newtons 12) (mk_RTR MetersSq 4)
     = Returns (mk_RTR Pascals 3).
Proof.
  assert (Hn : class_builds Newtons = true) by (vm_compute; reflexivity).
  assert (Hm : class_builds MetersSq = true) by (vm_compute; reflexivity).
  assert (Ht : div_type_built Newtons MetersSq = Some Pascals)
    by (vm_compute; reflexivity).
  destruct (operator_div_built_combines Z int_Storage
              (mk_RTR Newtons 12) (mk_RTR MetersSq 4) Hn Hm) as (H & _).
  destruct (H Pascals Ht) as (_ & _ & _ & Hv & _).
  split; [exact Hn|]. split; [exact Hm|]. split; [exact Ht|].
  split; [vm_compute; reflexivity|]. apply Hv. reflexivity.
Defined.

(** The quotient of a quantity of prefix [INTMAX_MIN] by one of prefix 1
    does not build, although both classes do. *)
Lemma quotient_prefix_overflow :
  class_builds (with_pref Meters INTMAX_MIN) = true
  /\ class_builds (with_pref Seconds 1) = true
  /\ operator_div_built (mk_RTR (with_pref Meters INTMAX_MIN) 3)
                        (mk_RTR (with_pref Seconds 1) 2)
     = IllFormed.
Proof. repeat split; vm_compute; reflexivity. Qed.

(** ** The algebra of dimensions, where the types build *)

Lemma times_type_built_comm (a b : Tag) :
  times_type_built a b = times_type_built b a.
Proof.
  unfold times_type_built.
  rewrite (times_type_comm a b), (Z.add_comm (t_pref a) (t_pref b)).
  assert (E : forall TP, ADD_FRAC_well_formed a b TP
                         = ADD_FRAC_well_formed b a TP).
  { intros TP. unfold ADD_FRAC_well_formed.
    assert (EA : ADD_FRAC a b TP = ADD_FRAC b a TP)
      by (unfold ADD_FRAC, ratio_add; f_equal; ring).
    rewrite EA.
    destruct (ratio_well_formed (t_n TP a) (t_d TP a)),
             (ratio_well_formed (t_n TP b) (t_d TP b)); reflexivity. }
  assert (EF : forallb (ADD_FRAC_well_formed a b) ALL_UNITS
               = forallb (ADD_FRAC_well_formed b a) ALL_UNITS).
  { induction ALL_UNITS as [|TP l IH]; simpl; [reflexivity|].
    rewrite E, IH. reflexivity. }
  rewrite EF. reflexivity.
Qed.

Lemma times_type_built_eq (a b t : Tag) :
  times_type_built a b = Some t -> t = times_type a b.
Proof. intros H. apply times_type_built_iff in H. tauto. Qed.

Lemma div_type_built_eq (a b t : Tag) :
  div_type_built a b = Some t -> t = div_type a b.
Proof. intros H. apply div_type_built_iff in H. tauto. Qed.

(** C9.  The type of a product does not depend on the order of its
    factors: [a * b] and [b * a] build for the same operands and then have
    the same Dimension Vector and prefix.  Nor does the type of a chain of
    products and quotients depend on how it is grouped, wherever both
    groupings build: the types of [(a * b) * c] and [a * (b * c)] are then
    the same, and a quotient can be taken at any point of the chain.  The
    alias [Newtons], declared as [Meters * Kilograms / Seconds / Seconds],
    is reached as well as [(Kilograms * Meters) / (Seconds * Seconds)]. *)
Theorem dimension_algebra_where_built
  (T : Type) (ST : Storage T) (a b c : RationalTypeReduced T) :
  class_builds (tag a) = true -> class_builds (tag b) = true ->
  class_builds (tag c) = true ->
  times_type_built (tag a) (tag b) = times_type_built (tag b) (tag a)
  /\ type_of (operator_times_built a b) = type_of (operator_times_built b a)
  /\ (forall ab bc t t',
         times_type_built (tag a) (tag b) = Some ab ->
         times_type_built ab (tag c) = Some t ->
         times_type_built (tag b) (tag c) = Some bc ->
         times_type_built (tag a) bc = Some t' -> t = t')
  /\ (forall ab bc t t',
         times_type_built (tag a) (tag b) = Some ab ->
         div_type_built ab (tag c) = Some t ->
         div_type_built (tag b) (tag c) = Some bc ->
         times_type_built (tag a) bc = Some t' -> t = t')
  /\ (forall ab ac t t',
         times_type_built (tag a) (tag b) = Some ab ->
         div_type_built ab (tag c) = Some t ->
         div_type_built (tag a) (tag c) = Some ac ->
         times_type_built ac (tag b) = Some t' -> t = t')
  /\ (forall ab ac t t',
         div_type_built (tag a) (tag b) = Some ab ->
         div_type_built ab (tag c) = Some t ->
         div_type_built (tag a) (tag c) = Some ac ->
         div_type_built ac (tag b) = Some t' -> t = t')
  /\ (forall ab bc t t',
         div_type_built (tag a) (tag b) = Some ab ->
         div_type_built ab (tag c) = Some t ->
         times_type_built (tag b) (tag c) = Some bc ->
         div_type_built (tag a) bc = Some t' -> t = t')
  /\ match times_type_built Kilograms Meters,
           times_type_built Seconds Seconds with
     | Some km, Some ss => div_type_built km ss
     | _, _ => None
     end = Some Newtons.
Proof.
  intros Ha Hb Hc.
  pose proof (class_builds_instantiates _ Ha) as Ia.
  pose proof (class_builds_instantiates _ Hb) as Ib.
  pose proof (class_builds_instantiates _ Hc) as Ic.
  split; [apply times_type_built_comm|].
  split.
  { unfold operator_times_built.
    rewrite (times_type_built_comm (tag a) (tag b)).
    destruct (times_type_built (tag b) (tag a)); [|reflexivity].
    destruct (st_mul (val a) (val b)), (st_mul (val b) (val a)); reflexivity. }
  split.
  { intros ab bc t t' H1 H2 H3 H4.
    apply times_type_built_eq in H1, H2, H3, H4. subst.
    apply times_type_assoc; assumption. }
  split.
  { intros ab bc t t' H1 H2 H3 H4.
    apply times_type_built_eq in H1, H4. apply div_type_built_eq in H2, H3.
    subst. apply div_times_type; assumption. }
  split.
  { intros ab ac t t' H1 H2 H3 H4.
    apply times_type_built_eq in H1, H4. apply div_type_built_eq in H2, H3.
    subst. apply div_times_type_swap; assumption. }
  split.
  { intros ab ac t t' H1 H2 H3 H4.
    apply div_type_built_eq in H1, H2, H3, H4. subst.
    apply div_div_type_swap; assumption. }
  split.
  { intros ab bc t t' H1 H2 H3 H4.
    apply div_type_built_eq in H1, H2, H4. apply times_type_built_eq in H3.
    subst. apply div_div_type; assumption. }
  vm_compute. reflexivity.
Qed.

Lemma dimension_algebra_where_built_witness :
  class_builds Meters = true /\ class_builds Kilograms = true /\
  class_builds Seconds = true /\
  times_type_built Meters Kilograms = times_type_built Kilograms Meters /\
  times_type (times_type Meters Kilograms) Seconds
  = times_type Meters (times_type Kilograms Seconds).
Proof.
  assert (Hm : class_builds Meters = true) by (vm_compute; reflexivity).
  assert (Hk : class_builds Kilograms = true) by (vm_compute; reflexivity).
  assert (Hs : class_builds Seconds = true) by (vm_compute; reflexivity).
  destruct (dimension_algebra_where_built Z int_Storage
              (mk_RTR Meters 2) (mk_RTR Kilograms 3) (mk_RTR Seconds 5)
              Hm Hk Hs) as (Hc & _ & Hassoc & _).
  split; [exact Hm|]. split; [exact Hk|]. split; [exact Hs|].
  split; [exact Hc|].
  apply (Hassoc (times_type Meters Kilograms) (times_type Kilograms Seconds));
    vm_compute; reflexivity.
Defined.

(** With the prefixes [INTMAX_MAX], 1 and -1 the grouping matters:
    [a * b] does not build, so [(a * b) * c] does not, while [b * c] and
    [a * (b * c)] build. *)
Lemma grouping_matters_at_the_range :
  let a := with_pref Scalar INTMAX_MAX in
  let b := with_pref Scalar 1 in
  let c := with_pref Scalar (-1) in
  class_builds a = true /\ class_builds b = true /\ class_builds c = true
  /\ times_type_built a b = None
  /\ times_type_built b c = Some Scalar
  /\ times_type_built a Scalar = Some a.
Proof. repeat split; vm_compute; reflexivity. Qed.

(** ** The order of the raw values *)

Lemma SFcompare_key (x y : spec_float) :
  not_NaN x = true -> not_NaN y = true ->
  SFcompare x y = Some (lex_compare (SFkey x) (SFkey y)).
Proof.
  destruct x as [sx|sx| |sx mx ex], y as [sy|sy| |sy my ey];
    try discriminate; intros _ _;
    try (destruct sx; reflexivity);
    try (destruct sy; reflexivity);
    try (destruct sx, sy; reflexivity).
  unfold SFcompare, lex_compare.
  change (PosDef.Pos.compare_cont Eq mx my) with (Pos.compare mx my).
  destruct sx, sy; cbn [SFkey fst snd]; try reflexivity.
  change (-1 ?= -1) with Eq. cbv iota.
  rewrite (Z.compare_opp ex ey), (Z.compare_antisym ex ey).
  destruct (ex ?= ey); reflexivity.
Qed.

Lemma SFcompare_NaN (x y : spec_float) :
  not_NaN x = false -> SFcompare x y = None /\ SFcompare y x = None.
Proof.
  destruct x; try discriminate. intros _. split; [reflexivity|].
  destruct y; reflexivity.
Qed.

Lemma SFcompare_Some (x y : spec_float) (c : comparison) :
  SFcompare x y = Some c -> not_NaN x = true /\ not_NaN y = true.
Proof.
  destruct x, y; try discriminate; intros _; split; reflexivity.
Qed.

Lemma lex_compare_Eq (p q : Z * (Z * Z)) : lex_compare p q = Eq <-> p = q.
Proof.
  destruct p as [p1 [p2 p3]], q as [q1 [q2 q3]]. unfold lex_compare.
  cbn [fst snd].
  destruct (Z.compare_spec p1 q1), (Z.compare_spec p2 q2),
    (Z.compare_spec p3 q3); split; intros E; try discriminate;
    try reflexivity; try (injection E as ? ? ?; lia); subst; reflexivity.
Qed.

Lemma lex_compare_Lt (p q : Z * (Z * Z)) : lex_compare p q = Lt <-> lex_lt p q.
Proof.
  destruct p as [p1 [p2 p3]], q as [q1 [q2 q3]]. unfold lex_compare, lex_lt.
  cbn [fst snd].
  destruct (Z.compare_spec p1 q1), (Z.compare_spec p2 q2),
    (Z.compare_spec p3 q3); split; intros E; try discriminate;
    try reflexivity; lia.
Qed.

Lemma lex_lt_trans (p q r : Z * (Z * Z)) : lex_lt p q -> lex_lt q r -> lex_lt p r.
Proof. unfold lex_lt. lia. Qed.

Lemma lex_lt_irrefl (p : Z * (Z * Z)) : ~ lex_lt p p.
Proof. unfold lex_lt. lia. Qed.

Lemma lex_total (p q : Z * (Z * Z)) : lex_lt p q \/ p = q \/ lex_lt q p.
Proof.
  destruct p as [p1 [p2 p3]], q as [q1 [q2 q3]]. unfold lex_lt. cbn [fst snd].
  destruct (Z.lt_total p1 q1) as [|[|]]; [lia| |lia].
  destruct (Z.lt_total p2 q2) as [|[|]]; [lia| |lia].
  destruct (Z.lt_total p3 q3) as [|[|]]; [lia| |lia].
  subst. auto.
Qed.

Lemma SFeqb_key (x y : spec_float) :
  SFeqb x y = true <-> not_NaN x = true /\ not_NaN y = true /\ SFkey x = SFkey y.
Proof.
  unfold SFeqb. split.
  - destruct (SFcompare x y) as [c|] eqn:E; [|discriminate].
    destruct (SFcompare_Some _ _ _ E) as [Hx Hy].
    rewrite (SFcompare_key _ _ Hx Hy) in E. injection E as E.
    destruct c; try discriminate. intros _. apply lex_compare_Eq in E. auto.
  - intros (Hx & Hy & E). rewrite (SFcompare_key _ _ Hx Hy).
    apply lex_compare_Eq in E. rewrite E. reflexivity.
Qed.

Lemma SFltb_key (x y : spec_float) :
  SFltb x y = true
  <-> not_NaN x = true /\ not_NaN y = true /\ lex_lt (SFkey x) (SFkey y).
Proof.
  unfold SFltb. split.
  - destruct (SFcompare x y) as [c|] eqn:E; [|discriminate].
    destruct (SFcompare_Some _ _ _ E) as [Hx Hy].
    rewrite (SFcompare_key _ _ Hx Hy) in E. injection E as E.
    destruct c; try discriminate. intros _. apply lex_compare_Lt in E. auto.
  - intros (Hx & Hy & E). rewrite (SFcompare_key _ _ Hx Hy).
    apply lex_compare_Lt in E. rewrite E. reflexivity.
Qed.

Lemma int_ordered_values : ordered_values Z every_int.
Proof.
  constructor; simpl.
  - intros x _. apply Z.eqb_refl.
  - apply Z.eqb_sym.
  - intros x y z H1 H2. apply Z.eqb_eq in H1, H2. apply Z.eqb_eq. lia.
  - apply Z.ltb_irrefl.
  - intros x y z H1 H2. apply Z.ltb_lt in H1, H2. apply Z.ltb_lt. lia.
  - intros x y _ _. rewrite !Z.ltb_lt, Z.eqb_eq. lia.
  - intros x y H. apply Z.ltb_lt in H. apply Z.eqb_neq. lia.
  - intros x y H. discriminate H.
Qed.

Lemma float_ordered_values : ordered_values spec_float not_NaN.
Proof.
  constructor; simpl.
  - intros x Hx. apply SFeqb_key. auto.
  - apply float_eqb_sym.
  - intros x y z H1 H2. apply SFeqb_key in H1, H2. apply SFeqb_key.
    destruct H1 as (? & ? & E1), H2 as (? & ? & E2).
    rewrite E1, E2. auto.
  - intros x. destruct (SFltb x x) eqn:E; [|reflexivity].
    apply SFltb_key in E. destruct E as (_ & _ & E).
    destruct (lex_lt_irrefl _ E).
  - intros x y z H1 H2. apply SFltb_key in H1, H2. apply SFltb_key.
    destruct H1 as (? & ? & E1), H2 as (? & ? & E2).
    split; [assumption|]. split; [assumption|].
    exact (lex_lt_trans _ _ _ E1 E2).
  - intros x y Hx Hy.
    destruct (lex_total (SFkey x) (SFkey y)) as [H|[H|H]].
    + left. apply SFltb_key. auto.
    + right; left. apply SFeqb_key. auto.
    + right; right. apply SFltb_key. auto.
  - intros x y H. apply SFltb_key in H. destruct H as (_ & _ & H).
    destruct (SFeqb x y) eqn:E; [|reflexivity].
    apply SFeqb_key in E. destruct E as (_ & _ & E).
    rewrite E in H. destruct (lex_lt_irrefl _ H).
  - intros x y Hx. destruct (SFcompare_NaN x y Hx) as [E1 E2].
    unfold SFeqb, SFltb. rewrite E1, E2. auto.
Qed.

Section OrderOfQuantities.

Context {T : Type} {ST : Storage T} (ok : T -> bool).

Hypothesis O : ordered_values T ok.

Lemma ov_ltb_asym (x y : T) : st_ltb x y = true -> st_ltb y x = false.
Proof.
  intros H. destruct (st_ltb y x) eqn:E; [|reflexivity].
  pose proof (ov_ltb_trans ok O _ _ _ H E) as Hxx.
  rewrite (ov_ltb_irrefl ok O) in Hxx. discriminate.
Qed.

Lemma ov_eqb_not_ltb (x y : T) :
  st_eqb x y = true -> st_ltb x y = false /\ st_ltb y x = false.
Proof.
  intros H. split.
  - destruct (st_ltb x y) eqn:E; [|reflexivity].
    rewrite (ov_ltb_not_eqb ok O _ _ E) in H. discriminate.
  - destruct (st_ltb y x) eqn:E; [|reflexivity].
    rewrite (ov_eqb_sym ok O), (ov_ltb_not_eqb ok O _ _ E) in H.
    discriminate.
Qed.

Lemma operator_eq_sym (a b : RationalTypeReduced T) :
  operator_eq a b = operator_eq b a.
Proof.
  unfold operator_eq.
  destruct (Tag_eqb (tag a) (tag b)) eqn:E.
  - apply Tag_eqb_eq in E. rewrite E, Tag_eqb_refl, (ov_eqb_sym ok O).
    reflexivity.
  - destruct (Tag_eqb (tag b) (tag a)) eqn:E'; [|reflexivity].
    apply Tag_eqb_eq in E'. rewrite E', Tag_eqb_refl in E. discriminate.
Qed.

Lemma operator_ne_negates (a b : RationalTypeReduced T) :
  operator_ne a b = option_map negb (operator_eq a b).
Proof.
  unfold operator_ne, operator_eq.
  destruct (Tag_eqb (tag a) (tag b)) eqn:E; [|reflexivity].
  apply Tag_eqb_eq in E. rewrite E, Tag_eqb_refl. simpl.
  rewrite (ov_eqb_sym ok O). reflexivity.
Qed.

End OrderOfQuantities.

(** C8.  For every storage type, the six comparisons build only for two
    quantities of the same Dimension Vector and prefix, and compare the raw
    values with the [==] and [<] of the storage type: [a == b] is
    [a.val == b.val], [a < b] is [a.val < b.val], [a != b] is the negation
    of [b == a], [a <= b] is [a < b || a == b], [a > b] is [b < a] and
    [a >= b] is [a > b || a == b].  For [int] and for [float], with no
    value left out, [!=] is the negation of [==], [==] is symmetric and
    transitive, and [<] is irreflexive, transitive and asymmetric and
    excludes [==].  On every [int] and on every [float] that is not a NaN,
    [==] is reflexive and two quantities of one tag are ordered one way:
    [a < b], [a == b] or [b < a].  A quantity whose raw value is a NaN is
    not equal to, below or above any quantity of its tag, itself included:
    [==], [<], [<=], [>] and [>=] are false and [!=] is true. *)
Theorem comparison_of_raw_values
  (T : Type) (ST : Storage T) (a b : RationalTypeReduced T) :
  (DimensionVector (tag a) = DimensionVector (tag b) /\
   t_pref (tag a) = t_pref (tag b) ->
   operator_eq a b = Some (st_eqb (val a) (val b))
   /\ operator_lt a b = Some (st_ltb (val a) (val b))
   /\ operator_ne a b = Some (negb (st_eqb (val b) (val a)))
   /\ operator_le a b
      = Some (st_ltb (val a) (val b) || st_eqb (val a) (val b))
   /\ operator_gt a b = Some (st_ltb (val b) (val a))
   /\ operator_ge a b
      = Some (st_ltb (val b) (val a) || st_eqb (val a) (val b)))
  /\ (DimensionVector (tag a) <> DimensionVector (tag b) \/
      t_pref (tag a) <> t_pref (tag b) ->
      operator_eq a b = None /\ operator_lt a b = None
      /\ operator_ne a b = None /\ operator_le a b = None
      /\ operator_gt a b = None /\ operator_ge a b = None)
  /\ (forall ok : T -> bool,
         ordered_values T ok ->
         operator_ne a b = option_map negb (operator_eq a b)
         /\ operator_eq a b = operator_eq b a
         /\ (forall c, operator_eq a b = Some true ->
                       operator_eq b c = Some true ->
                       operator_eq a c = Some true)
         /\ operator_lt a a = Some false
         /\ (forall c, operator_lt a b = Some true ->
                       operator_lt b c = Some true ->
                       operator_lt a c = Some true)
         /\ (operator_lt a b = Some true ->
             operator_eq a b = Some false /\ operator_lt b a = Some false)
         /\ (operator_eq a b = Some true ->
             operator_lt a b = Some false /\ operator_lt b a = Some false)
         /\ (ok (val a) = true -> operator_eq a a = Some true)
         /\ (tag a = tag b -> ok (val a) = true -> ok (val b) = true ->
             operator_lt a b = Some true \/ operator_eq a b = Some true
             \/ operator_lt b a = Some true)
         /\ (tag a = tag b -> ok (val a) = false ->
             operator_eq a a = Some false
             /\ operator_eq a b = Some false /\ operator_eq b a = Some false
             /\ operator_ne a b = Some true /\ operator_ne b a = Some true
             /\ operator_lt a b = Some false /\ operator_lt b a = Some false
             /\ operator_le a b = Some false /\ operator_le b a = Some false
             /\ operator_gt a b = Some false /\ operator_gt b a = Some false
             /\ operator_ge a b = Some false
             /\ operator_ge b a = Some false))
  /\ ordered_values Z every_int
  /\ (forall x : Z, every_int x = true)
  /\ ordered_values spec_float not_NaN
  /\ (forall x : spec_float, not_NaN x = false <-> x = S754_nan).
Proof.
  split.
  { intros H. apply same_tag_iff in H. apply comparisons_same_tag. exact H. }
  split.
  { intros H. apply comparisons_other_tag.
    intros E. apply same_tag_iff in E. destruct E. destruct H; contradiction. }
  split.
  { intros ok O.
    split; [exact (operator_ne_negates ok O a b)|].
    split; [exact (operator_eq_sym ok O a b)|].
    split.
    { intros c Hab Hbc.
      apply operator_eq_true_tag in Hab. apply operator_eq_true_tag in Hbc.
      destruct Hab as [Tab Vab], Hbc as [Tbc Vbc].
      unfold operator_eq. rewrite Tab, Tbc, Tag_eqb_refl.
      rewrite (ov_eqb_trans ok O _ _ _ Vab Vbc). reflexivity. }
    split.
    { unfold operator_lt. rewrite Tag_eqb_refl, (ov_ltb_irrefl ok O).
      reflexivity. }
    split.
    { intros c Hab Hbc.
      apply operator_lt_true_tag in Hab. apply operator_lt_true_tag in Hbc.
      destruct Hab as [Tab Vab], Hbc as [Tbc Vbc].
      unfold operator_lt. rewrite Tab, Tbc, Tag_eqb_refl.
      rewrite (ov_ltb_trans ok O _ _ _ Vab Vbc). reflexivity. }
    split.
    { intros Hab. apply operator_lt_true_tag in Hab.
      destruct Hab as [Tab Vab].
      unfold operator_eq, operator_lt. rewrite Tab, Tag_eqb_refl.
      rewrite (ov_ltb_not_eqb ok O _ _ Vab), (ov_ltb_asym ok O _ _ Vab).
      split; reflexivity. }
    split.
    { intros Hab. apply operator_eq_true_tag in Hab.
      destruct Hab as [Tab Vab].
      unfold operator_lt. rewrite Tab, Tag_eqb_refl.
      destruct (ov_eqb_not_ltb ok O _ _ Vab) as [E1 E2]. rewrite E1, E2.
      split; reflexivity. }
    split.
    { intros Ha. unfold operator_eq.
      rewrite Tag_eqb_refl, (ov_eqb_refl ok O _ Ha). reflexivity. }
    split.
    { intros Tab Ha Hb. unfold operator_eq, operator_lt.
      rewrite Tab, Tag_eqb_refl.
      destruct (ov_ltb_total ok O (val a) (val b) Ha Hb) as [H|[H|H]];
        rewrite H; auto. }
    intros Tab Ha.
    destruct (ov_not_ok ok O (val a) (val b) Ha) as (E1 & E2 & L1 & L2).
    destruct (ov_not_ok ok O (val a) (val a) Ha) as (E0 & _).
    unfold operator_ge, operator_gt, operator_le, operator_ne,
      operator_lt, operator_eq.
    rewrite <- Tab, !Tag_eqb_refl. cbn [both option_map].
    rewrite ?E0, ?E1, ?E2, ?L1, ?L2. repeat split. }
  split; [exact int_ordered_values|].
  split; [reflexivity|].
  split; [exact float_ordered_values|].
  intros x. destruct x; split; intros H; try discriminate; reflexivity.
Qed.

Lemma comparison_of_raw_values_witness :
  operator_lt (mk_RTR Meters (float_of_Z 2)) (mk_RTR Meters (float_of_Z 3))
  = Some true /\
  operator_eq (mk_RTR Meters (float_of_Z 2)) (mk_RTR Meters (float_of_Z 3))
  = Some false /\
  operator_eq (mk_RTR Meters (float_of_Z 2)) (mk_RTR Meters (float_of_Z 2))
  = Some true /\
  operator_ne (mk_RTR Meters (float_of_Z 2)) (mk_RTR Meters (float_of_Z 3))
  = option_map negb
      (operator_eq (mk_RTR Meters (float_of_Z 2))
                   (mk_RTR Meters (float_of_Z 3))).
Proof.
  destruct (comparison_of_raw_values spec_float float_Storage
              (mk_RTR Meters (float_of_Z 2)) (mk_RTR Meters (float_of_Z 3)))
    as (Hsame & _ & Hlaws & _ & _ & HF & _).
  destruct (Hlaws not_NaN HF)
    as (Hne & _ & _ & _ & _ & Hlt & _ & Hrefl & _).
  destruct (Hsame (conj eq_refl eq_refl)) as (_ & Hl & _).
  destruct (Hlt Hl) as (He & _).
  split; [exact Hl|]. split; [exact He|].
  split; [exact (Hrefl eq_refl)|exact Hne].
Defined.

(** ** The classes that build *)

Lemma forallb_ALL_UNITS (f : unit_name -> bool) :
  forallb f ALL_UNITS = true <-> forall TP, f TP = true.
Proof.
  rewrite forallb_forall. split.
  - intros H TP. apply H. apply In_ALL_UNITS.
  - intros H TP _. apply H.
Qed.

Lemma RationalType_built_iff (t r : Tag) :
  RationalType_built t = Some r <->
  r = RationalType t
  /\ (forall TP, ratio_well_formed (t_n TP t) (t_d TP t) = true)
  /\ intmax_t (t_pref t) = true.
Proof.
  unfold RationalType_built.
  destruct (forallb _ ALL_UNITS) eqn:E.
  - pose proof (proj1 (forallb_ALL_UNITS _) E) as E'. cbv beta in E'.
    destruct (intmax_t (t_pref t)); cbn [andb]; split.
    + intros H. injection H as <-. auto.
    + intros (-> & _). reflexivity.
    + discriminate.
    + intros (_ & _ & H). discriminate H.
  - cbn [andb]. split; [discriminate|].
    intros (_ & H & _).
    pose proof (proj2 (forallb_ALL_UNITS
                         (fun TP => ratio_well_formed (t_n TP t) (t_d TP t)))
                      H) as H'.
    rewrite H' in E. discriminate E.
Qed.

Lemma ratio_well_formed_RationalType (t : Tag) (TP : unit_name) :
  ratio_well_formed (t_n TP t) (t_d TP t) = true ->
  ratio_well_formed (t_n TP (RationalType t)) (t_d TP (RationalType t)) = true.
Proof.
  intros H.
  change (ratio_well_formed (fst (exponent TP (RationalType t)))
                            (snd (exponent TP (RationalType t))) = true).
  rewrite exponent_RationalType.
  apply (ratio_well_formed_std_ratio _ _ H).
Qed.

Lemma RationalType_built_builds (t r : Tag) :
  RationalType_built t = Some r ->
  class_builds r = true /\ all_lowest_terms r = true.
Proof.
  intros H. apply RationalType_built_iff in H. destruct H as (-> & Hwf & Hp).
  assert (HL : all_lowest_terms (RationalType t) = true).
  { apply RationalType_lowest_terms. intros TP.
    apply (ratio_well_formed_den _ _ (Hwf TP)). }
  split; [|exact HL].
  apply class_builds_of_reduced; [|exact HL|exact Hp].
  intros TP. apply ratio_well_formed_RationalType. apply Hwf.
Qed.

Lemma times_type_built_of_result (a b : Tag) :
  class_builds a = true -> class_builds b = true ->
  class_builds (times_type a b) = true ->
  times_type_built a b = Some (times_type a b).
Proof.
  intros Ha Hb Hr. apply times_type_built_iff.
  split; [reflexivity|]. split.
  - intros TP. unfold ADD_FRAC_well_formed.
    pose proof (class_builds_ratio _ TP Ha) as Wa.
    pose proof (class_builds_ratio _ TP Hb) as Wb.
    rewrite Wa, Wb. cbn [andb].
    pose proof (class_builds_ratio _ TP Hr) as Wr.
    change (ratio_well_formed (fst (exponent TP (times_type a b)))
                              (snd (exponent TP (times_type a b))) = true)
      in Wr.
    rewrite (exponent_times_type_ADD_FRAC TP a b
               (ratio_well_formed_den _ _ Wa) (ratio_well_formed_den _ _ Wb))
      in Wr.
    exact Wr.
  - apply class_builds_iff in Hr. destruct Hr as [_ Hp]. exact Hp.
Qed.

Lemma div_type_built_of_result (a b : Tag) :
  class_builds a = true -> class_builds b = true ->
  class_builds (div_type a b) = true ->
  div_type_built a b = Some (div_type a b).
Proof.
  intros Ha Hb Hr. apply div_type_built_iff.
  split; [reflexivity|]. split.
  - intros TP. unfold SUB_FRAC_well_formed.
    pose proof (class_builds_ratio _ TP Ha) as Wa.
    pose proof (class_builds_ratio _ TP Hb) as Wb.
    rewrite Wa, Wb. cbn [andb].
    pose proof (class_builds_ratio _ TP Hr) as Wr.
    change (ratio_well_formed (fst (exponent TP (div_type a b)))
                              (snd (exponent TP (div_type a b))) = true)
      in Wr.
    rewrite (exponent_div_type_SUB_FRAC TP a b
               (ratio_well_formed_den _ _ Wa) (ratio_well_formed_den _ _ Wb))
      in Wr.
    exact Wr.
  - apply class_builds_iff in Hr. destruct Hr as [_ Hp]. exact Hp.
Qed.

(** X5.  The classes that build are exactly those whose prefix is an
    [intmax_t] and whose seven fractions each make a well formed
    [std::ratio] (numerator and denominator above [INTMAX_MIN] and up to
    [INTMAX_MAX], denominator not 0) that is in lowest terms or has the
    numerator 0.  A class that builds with numerators all different from 0
    is in lowest terms.  The exponents [INTMAX_MIN]/1, 1/[INTMAX_MIN] and
    1/0 make no class, the exponent 0/2 does. *)
Theorem built_classes (t : Tag) :
  (class_builds t = true <->
   intmax_t (t_pref t) = true /\
   forall TP,
     ratio_well_formed (t_n TP t) (t_d TP t) = true /\
     (t_n TP t = 0 \/ lowest_terms (t_n TP t) (t_d TP t) = true))
  /\ (class_builds t = true ->
      forall TP,
        INTMAX_MIN < t_n TP t <= INTMAX_MAX
        /\ INTMAX_MIN < t_d TP t <= INTMAX_MAX /\ t_d TP t <> 0)
  /\ (class_builds t = true -> (forall TP, t_n TP t <> 0) ->
      all_lowest_terms t = true)
  /\ class_builds (mk_Tag INTMAX_MIN 1 0 1 0 1 0 1 0 1 0 1 0 1 0) = false
  /\ class_builds (mk_Tag 1 INTMAX_MIN 0 1 0 1 0 1 0 1 0 1 0 1 0) = false
  /\ class_builds (mk_Tag 1 0 0 1 0 1 0 1 0 1 0 1 0 1 0) = false
  /\ class_builds (mk_Tag 0 2 0 1 0 1 0 1 0 1 0 1 0 1 0) = true
  /\ class_builds (mk_Tag 1 1 0 1 0 1 0 1 0 1 0 1 0 1 INTMAX_MIN) = true.
Proof.
  assert (E : class_builds t = true <->
              intmax_t (t_pref t) = true /\
              forall TP,
                ratio_well_formed (t_n TP t) (t_d TP t) = true /\
                (t_n TP t = 0 \/ lowest_terms (t_n TP t) (t_d TP t) = true)).
  { rewrite class_builds_iff. split.
    - intros [H Hp]. split; [exact Hp|]. intros TP.
      destruct (H TP) as [Hw Ha]. split; [exact Hw|].
      apply (static_assert_holds_iff TP t (ratio_well_formed_den _ _ Hw)).
      exact Ha.
    - intros [Hp H]. split; [|exact Hp]. intros TP.
      destruct (H TP) as [Hw Ha]. split; [exact Hw|].
      apply (static_assert_holds_iff TP t (ratio_well_formed_den _ _ Hw)).
      exact Ha. }
  split; [exact E|]. split; [|split].
  - intros H TP. apply ratio_well_formed_iff.
    apply (class_builds_ratio _ TP H).
  - intros H Hn. apply all_lowest_terms_iff. intros TP.
    destruct (proj1 E H) as [_ H'].
    destruct (H' TP) as [_ [H0|HL]]; [contradiction (Hn TP)|exact HL].
  - repeat split; vm_compute; reflexivity.
Qed.

Lemma diagnostics_filter (t : Tag) (l : list unit_name) :
  (forall TP, t_d TP t <> 0) ->
  flat_map
    (fun TP =>
       if t_d TP t =? 0 then [ratio_zero_denominator TP]
       else if static_assert_holds TP t then []
       else [assertion_failed (static_assert_message TP)]) l
  = map (fun TP => assertion_failed (static_assert_message TP))
        (filter (fun TP => negb (static_assert_holds TP t)) l).
Proof.
  intros Hd. induction l as [|TP l IH]; [reflexivity|].
  cbn [flat_map filter]. rewrite IH.
  destruct (Z.eqb_spec (t_d TP t) 0) as [E|_]; [contradiction (Hd TP)|].
  destruct (static_assert_holds TP t); reflexivity.
Qed.

(** X6.  What is reported on a class whose seven [std::ratio] are well
    formed: the messages of the assertions that fail, one for each such
    unit, in the order of the units, and nothing else.  The message of a
    unit is reported exactly when its assertion fails, and with a prefix
    that is an [intmax_t] the class builds exactly when nothing is
    reported. *)
Theorem diagnostics_of_well_formed (t : Tag) (TP : unit_name) :
  (forall TP', ratio_well_formed (t_n TP' t) (t_d TP' t) = true) ->
  diagnostics t
  = map (fun TP' => assertion_failed (static_assert_message TP'))
        (filter (fun TP' => negb (static_assert_holds TP' t)) ALL_UNITS)
  /\ (In (assertion_failed (static_assert_message TP)) (diagnostics t) <->
      static_assert_holds TP t = false)
  /\ (forall TP', ~ In (ratio_zero_denominator TP') (diagnostics t))
  /\ (intmax_t (t_pref t) = true ->
      (class_builds t = true <-> diagnostics t = [])).
Proof.
  intros Hwf.
  assert (Hd : forall TP', t_d TP' t <> 0)
    by (intros TP'; apply (ratio_well_formed_den _ _ (Hwf TP'))).
  assert (E : diagnostics t
              = map (fun TP' => assertion_failed (static_assert_message TP'))
                    (filter (fun TP' => negb (static_assert_holds TP' t))
                            ALL_UNITS))
    by (apply diagnostics_filter; exact Hd).
  split; [exact E|]. split; [|split].
  - rewrite E, in_map_iff. split.
    + intros (TP' & Hm & Hin). injection Hm as Hm.
      apply static_assert_message_inj in Hm. subst TP'.
      apply filter_In in Hin. destruct Hin as [_ Hin].
      destruct (static_assert_holds TP t); [discriminate Hin|reflexivity].
    + intros Ha. exists TP. split; [reflexivity|].
      apply filter_In. split; [apply In_ALL_UNITS|]. rewrite Ha. reflexivity.
  - intros TP'. rewrite E, in_map_iff. intros (TP'' & Hm & _).
    discriminate Hm.
  - intros Hp. rewrite class_builds_iff. split.
    + intros [H _].
      assert (I : instantiates t = true).
      { apply instantiates_iff. intros TP'.
        split; [apply Hd|apply (H TP')]. }
      unfold instantiates in I. destruct (diagnostics t);
        [reflexivity|discriminate I].
    + intros H. split; [|exact Hp]. intros TP'. split; [apply Hwf|].
      assert (I : instantiates t = true)
        by (unfold instantiates; rewrite H; reflexivity).
      apply (proj1 (instantiates_iff t) I TP').
Qed.

Lemma diagnostics_of_well_formed_witness :
  (forall TP',
      ratio_well_formed (t_n TP' (mk_Tag 2 4 0 1 (-6) (-9) 0 1 0 1 0 1 0 1 0))
                        (t_d TP' (mk_Tag 2 4 0 1 (-6) (-9) 0 1 0 1 0 1 0 1 0))
      = true) /\
  diagnostics (mk_Tag 2 4 0 1 (-6) (-9) 0 1 0 1 0 1 0 1 0)
  = [assertion_failed "The meter exponent fraction is not irreducible";
     assertion_failed "The kilogram exponent fraction is not irreducible"] /\
  ~ In (ratio_zero_denominator u_m)
       (diagnostics (mk_Tag 2 4 0 1 (-6) (-9) 0 1 0 1 0 1 0 1 0)).
Proof.
  assert (H : forall TP',
             ratio_well_formed
               (t_n TP' (mk_Tag 2 4 0 1 (-6) (-9) 0 1 0 1 0 1 0 1 0))
               (t_d TP' (mk_Tag 2 4 0 1 (-6) (-9) 0 1 0 1 0 1 0 1 0))
             = true)
    by (intros TP'; destruct TP'; vm_compute; reflexivity).
  destruct (diagnostics_of_well_formed _ u_m H) as (E & _ & Hz & _).
  split; [exact H|]. split; [|exact (Hz u_m)].
  rewrite E. vm_compute. reflexivity.
Defined.

(** X7.  [RationalType] reduces.  Where the alias names a class, that is
    for seven well formed [std::ratio] and a prefix that is an [intmax_t],
    the class builds and is in lowest terms, each exponent keeps its value
    and the prefix is kept; reducing it again changes nothing, and a class
    given in lowest terms is left as it is.  A numerator [INTMAX_MIN] or a
    denominator 0 names no class, also where the reduced fraction would be
    representable. *)
Theorem RationalType_built_reduces (t r : Tag) :
  RationalType_built t = Some r ->
  r = RationalType t
  /\ class_builds r = true
  /\ all_lowest_terms r = true
  /\ (forall TP, same_value (exponent TP r) (exponent TP t))
  /\ t_pref r = t_pref t
  /\ RationalType_built r = Some r
  /\ (all_lowest_terms t = true -> r = t)
  /\ RationalType_built (mk_Tag INTMAX_MIN 2 0 1 0 1 0 1 0 1 0 1 0 1 0) = None
  /\ RationalType_built (mk_Tag 1 0 0 1 0 1 0 1 0 1 0 1 0 1 0) = None.
Proof.
  intros H. destruct (RationalType_built_builds _ _ H) as [Hb HL].
  apply RationalType_built_iff in H. destruct H as (-> & Hwf & Hp).
  split; [reflexivity|]. split; [exact Hb|]. split; [exact HL|].
  split.
  { intros TP. rewrite exponent_RationalType. apply norm_same_value.
    apply (ratio_well_formed_den _ _ (Hwf TP)). }
  split; [reflexivity|]. split.
  { apply RationalType_built_iff.
    split; [symmetry; apply RationalType_of_lowest_terms; exact HL|].
    split; [|exact Hp].
    intros TP. apply (class_builds_ratio _ TP Hb). }
  split; [apply RationalType_of_lowest_terms|].
  split; vm_compute; reflexivity.
Qed.

Lemma RationalType_built_reduces_witness :
  RationalType_built (mk_Tag 2 4 0 3 (-6) (-9) 0 1 0 1 0 1 0 1 3)
  = Some (mk_Tag 1 2 0 1 2 3 0 1 0 1 0 1 0 1 3) /\
  class_builds (mk_Tag 1 2 0 1 2 3 0 1 0 1 0 1 0 1 3) = true /\
  all_lowest_terms (mk_Tag 1 2 0 1 2 3 0 1 0 1 0 1 0 1 3) = true.
Proof.
  assert (H : RationalType_built (mk_Tag 2 4 0 3 (-6) (-9) 0 1 0 1 0 1 0 1 3)
              = Some (mk_Tag 1 2 0 1 2 3 0 1 0 1 0 1 0 1 3))
    by (vm_compute; reflexivity).
  destruct (RationalType_built_reduces _ _ H) as (_ & Hb & HL & _).
  split; [exact H|]. split; [exact Hb|exact HL].
Defined.

(** X8.  [Type], the alias for integer exponents, names a class exactly
    when its seven exponents are above [INTMAX_MIN] and up to [INTMAX_MAX]
    and its prefix is an [intmax_t]; the class is then the one with these
    exponents over 1 and this prefix, nothing reduced, in lowest terms, and
    it builds.  The exponent [INTMAX_MIN] names no class. *)
Theorem Type_built_integer_exponents (m s kg A K mol cd pref : Z) :
  (Type_built m s kg A K mol cd pref
   = Some (mk_Tag m 1 s 1 kg 1 A 1 K 1 mol 1 cd 1 pref)
   <-> Forall (fun e => INTMAX_MIN < e <= INTMAX_MAX) [m; s; kg; A; K; mol; cd]
       /\ INTMAX_MIN <= pref <= INTMAX_MAX)
  /\ (forall t,
         Type_built m s kg A K mol cd pref = Some t ->
         t = mk_Tag m 1 s 1 kg 1 A 1 K 1 mol 1 cd 1 pref
         /\ t = Type_ m s kg A K mol cd pref
         /\ all_lowest_terms t = true
         /\ class_builds t = true)
  /\ Type_built INTMAX_MIN 0 0 0 0 0 0 0 = None
  /\ Type_built 0 0 0 0 0 0 0 INTMAX_MIN
     = Some (mk_Tag 0 1 0 1 0 1 0 1 0 1 0 1 0 1 INTMAX_MIN).
Proof.
  set (t0 := mk_Tag m 1 s 1 kg 1 A 1 K 1 mol 1 cd 1 pref).
  assert (HL : all_lowest_terms t0 = true).
  { apply all_lowest_terms_iff. intros TP. unfold lowest_terms.
    replace (t_d TP t0) with 1 by (destruct TP; reflexivity).
    rewrite Z.gcd_1_r. reflexivity. }
  assert (E : RationalType t0 = t0)
    by (apply RationalType_of_lowest_terms; exact HL).
  split; [|split].
  - unfold Type_built. fold t0. rewrite RationalType_built_iff, E.
    rewrite intmax_t_iff. cbn [t_pref t0]. split.
    + intros (_ & Hwf & Hp). split; [|exact Hp].
      pose proof (fun TP => proj1 (ratio_well_formed_iff _ _) (Hwf TP)) as W.
      repeat constructor;
        [apply (W u_m)|apply (W u_m)|apply (W u_s)|apply (W u_s)
        |apply (W u_kg)|apply (W u_kg)|apply (W u_A)|apply (W u_A)
        |apply (W u_K)|apply (W u_K)|apply (W u_mol)|apply (W u_mol)
        |apply (W u_cd)|apply (W u_cd)].
    + intros [HF Hp]. split; [reflexivity|]. split; [|exact Hp].
      rewrite Forall_forall in HF.
      intros TP. apply ratio_well_formed_iff.
      replace (t_d TP t0) with 1 by (destruct TP; reflexivity).
      split; [|split; [unfold INTMAX_MIN, INTMAX_MAX; lia|lia]].
      apply HF. destruct TP; cbn; tauto.
  - intros t H. unfold Type_built in H. fold t0 in H.
    destruct (RationalType_built_builds _ _ H) as [Hb Hl].
    apply RationalType_built_iff in H. destruct H as (-> & _ & _).
    split; [exact E|]. split; [reflexivity|]. split; assumption.
  - split; vm_compute; reflexivity.
Qed.

(** The type of [Scalar / a] for a reduced class: the exponents negated,
    the prefix negated. *)
Lemma exponent_div_Scalar (TP : unit_name) (a : Tag) :
  all_lowest_terms a = true ->
  exponent TP (div_type Scalar a) = (- t_n TP a, t_d TP a).
Proof.
  intros Ha. pose proof (proj1 (all_lowest_terms_iff a) Ha TP) as L.
  pose proof (lowest_terms_den _ _ L) as Hd.
  assert (Hd' : snd (exponent TP a) <> 0) by (cbn [exponent snd]; lia).
  assert (Hs : snd (exponent TP Scalar) <> 0)
    by (rewrite exponent_Scalar; cbn [snd]; lia).
  rewrite (exponent_div_type TP Scalar a Hs Hd').
  rewrite (subFrac_norm _ _ Hs Hd'), exponent_Scalar.
  assert (E : norm (fsub (0, 1) (exponent TP a))
              = norm (- t_n TP a, t_d TP a)).
  { apply norm_complete.
    - apply fsub_den; [cbn [snd]; lia|exact Hd'].
    - cbn [snd]; lia.
    - unfold same_value, fsub, exponent. cbn [fst snd]. ring. }
  rewrite E. apply lowest_terms_norm. cbn [fst snd].
  unfold lowest_terms in *. rewrite Z.abs_opp. exact L.
Qed.

Lemma class_builds_div_Scalar (a : Tag) :
  class_builds a = true -> all_lowest_terms a = true ->
  t_pref a <> INTMAX_MIN -> class_builds (div_type Scalar a) = true.
Proof.
  intros Ha HL Hp.
  pose proof (class_builds_instantiates _ Ha) as Ia.
  apply class_builds_of_reduced.
  - intros TP.
    change (ratio_well_formed (fst (exponent TP (div_type Scalar a)))
                              (snd (exponent TP (div_type Scalar a))) = true).
    rewrite (exponent_div_Scalar TP a HL). cbn [fst snd].
    pose proof (class_builds_ratio _ TP Ha) as W.
    apply ratio_well_formed_iff in W. apply ratio_well_formed_iff.
    unfold INTMAX_MIN, INTMAX_MAX in *. lia.
  - apply div_type_lowest_terms; [reflexivity|exact Ia].
  - rewrite t_pref_div_type. apply intmax_t_iff.
    apply class_builds_iff in Ha. destruct Ha as [_ Hr].
    apply intmax_t_iff in Hr. change (t_pref Scalar) with 0.
    unfold INTMAX_MIN, INTMAX_MAX in *. lia.
Qed.

(** X11.  Under [operator*] the reduced classes that build behave as a
    group wherever the types build.  [Scalar] is neutral on both sides, the
    type of [a / a] is [Scalar], and multiplying and dividing by the same
    class cancel, in either order, once the first of the two builds.  A
    class whose prefix is not [INTMAX_MIN] has the type of [Scalar / a] as
    its inverse; a class of prefix [INTMAX_MIN] has no inverse among the
    classes that build, and [Scalar / a] does not build. *)
Theorem dimension_group_where_built (a b : Tag) :
  class_builds a = true -> all_lowest_terms a = true ->
  class_builds b = true ->
  times_type_built a Scalar = Some a
  /\ times_type_built Scalar a = Some a
  /\ div_type_built a Scalar = Some a
  /\ div_type_built b b = Some Scalar
  /\ (forall ab, times_type_built a b = Some ab ->
                 div_type_built ab b = Some a)
  /\ (forall q, div_type_built a b = Some q ->
                times_type_built q b = Some a)
  /\ (t_pref a <> INTMAX_MIN ->
      div_type_built Scalar a = Some (div_type Scalar a)
      /\ times_type_built a (div_type Scalar a) = Some Scalar
      /\ times_type_built (div_type Scalar a) a = Some Scalar)
  /\ (t_pref a = INTMAX_MIN ->
      div_type_built Scalar a = None
      /\ forall i, class_builds i = true ->
                   times_type_built a i <> Some Scalar).
Proof.
  intros Ha HL Hb.
  pose proof (class_builds_instantiates _ Ha) as Ia.
  pose proof (class_builds_instantiates _ Hb) as Ib.
  assert (HS : class_builds Scalar = true) by (vm_compute; reflexivity).
  assert (IS : instantiates Scalar = true) by reflexivity.
  assert (Hinv : times_type a (div_type Scalar a) = Scalar).
  { rewrite <- (div_times_type a Scalar a Ia IS Ia).
    rewrite (times_type_Scalar a HL). apply div_type_self. exact Ia. }
  split.
  { pose proof (times_type_built_of_result a Scalar Ha HS) as H.
    rewrite (times_type_Scalar a HL) in H. exact (H Ha). }
  split.
  { pose proof (times_type_built_of_result Scalar a HS Ha) as H.
    rewrite (times_type_Scalar_l a HL) in H. exact (H Ha). }
  split.
  { pose proof (div_type_built_of_result a Scalar Ha HS) as H.
    rewrite (div_type_Scalar a HL) in H. exact (H Ha). }
  split.
  { pose proof (div_type_built_of_result b b Hb Hb) as H.
    rewrite (div_type_self b Ib) in H. exact (H HS). }
  split.
  { intros ab H. pose proof (times_type_built_builds _ _ _ H) as Hab.
    apply times_type_built_eq in H. subst ab.
    pose proof (div_type_built_of_result (times_type a b) b Hab Hb) as H.
    rewrite (div_times_cancel a b HL Ib) in H. exact (H Ha). }
  split.
  { intros q H. pose proof (div_type_built_builds _ _ _ H) as Hq.
    apply div_type_built_eq in H. subst q.
    assert (E : times_type (div_type a b) b = a).
    { rewrite <- (div_times_type_swap a b b Ia Ib Ib).
      apply div_times_cancel; assumption. }
    pose proof (times_type_built_of_result (div_type a b) b Hq Hb) as H.
    rewrite E in H. exact (H Ha). }
  split.
  { intros Hp. pose proof (class_builds_div_Scalar a Ha HL Hp) as Hi.
    split; [apply div_type_built_of_result; assumption|].
    assert (E : times_type_built a (div_type Scalar a) = Some Scalar).
    { pose proof (times_type_built_of_result a (div_type Scalar a) Ha Hi)
        as H.
      rewrite Hinv in H. exact (H HS). }
    split; [exact E|]. rewrite times_type_built_comm. exact E. }
  intros Hp. split.
  { unfold div_type_built. change (t_pref Scalar) with 0. rewrite Hp.
    rewrite Bool.andb_false_r. reflexivity. }
  intros i Hi H. apply times_type_built_eq in H.
  assert (E : t_pref Scalar = t_pref (times_type a i)) by (rewrite <- H; reflexivity).
  rewrite t_pref_times_type, Hp in E. change (t_pref Scalar) with 0 in E.
  apply class_builds_iff in Hi. destruct Hi as [_ Hr].
  apply intmax_t_iff in Hr. unfold INTMAX_MIN, INTMAX_MAX in *. lia.
Qed.

Lemma dimension_group_where_built_witness :
  class_builds Newtons = true /\ all_lowest_terms Newtons = true /\
  class_builds MetersSq = true /\
  times_type_built Newtons (div_type Scalar Newtons) = Some Scalar /\
  div_type_built (times_type Newtons MetersSq) MetersSq = Some Newtons.
Proof.
  assert (Hn : class_builds Newtons = true) by (vm_compute; reflexivity).
  assert (Hm : class_builds MetersSq = true) by (vm_compute; reflexivity).
  assert (Hl : all_lowest_terms Newtons = true) by (vm_compute; reflexivity).
  destruct (dimension_group_where_built Newtons MetersSq Hn Hl Hm)
    as (_ & _ & _ & _ & Hc & _ & Hinv & _).
  split; [exact Hn|]. split; [exact Hl|]. split; [exact Hm|].
  split.
  - apply Hinv. vm_compute. discriminate.
  - apply Hc. vm_compute. reflexivity.
Defined.
